(** * GeoGuessr league builder: ranking, Borda scoring and deadline filtering

    A shallow embedding of the scoring core of
    [geoguessr_league_build_xlsx.py].

    Conventions of the embedding.
    - Python [int] is [Z].
    - Python [float] is modelled by the rational it denotes ([Q]).  Every rank
      the program produces is an integer or a half-integer, and every Borda
      value a difference of such, so the rational is the exact value of the
      float as long as the magnitudes stay below 2^52.  Equality of floats is
      [Qeq] (written [==]).
    - Python [str] is a sequence of code points; the model keeps its UTF-8
      bytes in a [string] and decodes them where the program looks at
      characters.  Whitespace ([str.strip]) and digits ([str.isdigit],
      [int], the class [\d] of a regular expression) are those of Unicode
      14.0, the version of CPython 3.11; [int] refuses more than 4300 digits
      as it does there.  Strings that hold a lone surrogate have no UTF-8
      form and are not covered.
    - A column of integers of a data frame holds 64-bit integers (the
      points of an entry fit in one): a sum over it wraps around.  A
      quotient of two columns is the nearest float ([round_float64]).
    - A raw record is a [json] value; a float inside it is finite.
    - A Python [dict] is an association list in insertion order with pairwise
      distinct keys ([dict_wf]): iteration order is observable in Python and
      the ranker iterates over dictionaries.
    - [sorted(xs, key=f)] is a stable sort; it is modelled by a stable
      insertion sort.
    - An exception that aborts the function is a value of [result]. *)

From Stdlib Require Import List ZArith QArith Qround Qabs String Ascii Bool Lia.
From Stdlib Require Import Permutation Sorted Arith DecimalString Lqa.
Import ListNotations.

Set Warnings "-register-all".

Local Open Scope string_scope.
Local Open Scope list_scope.
Local Open Scope Z_scope.

(** ** Results of fallible code *)

Inductive result (A : Type) : Type :=
| Ok (a : A)
| Raise (exn : string).
Arguments Ok {A} a.
Arguments Raise {A} exn.

Definition bind {A B : Type} (r : result A) (f : A -> result B) : result B :=
  match r with
  | Ok a => f a
  | Raise e => Raise e
  end.

Notation "x <- r ;; k" := (bind r (fun x => k))
  (at level 61, r at next level, right associativity).

(** ** Keys with decidable equality *)

Class EqKey (K : Type) : Type := {
  key_eqb : K -> K -> bool;
  key_eqb_spec : forall a b : K, reflect (a = b) (key_eqb a b)
}.

#[export] Instance EqKey_string : EqKey string :=
  {| key_eqb := String.eqb; key_eqb_spec := String.eqb_spec |}.

#[export] Instance EqKey_Z : EqKey Z :=
  {| key_eqb := Z.eqb; key_eqb_spec := Z.eqb_spec |}.

Definition pair_eqb {A B : Type} `{EqKey A} `{EqKey B} (a b : A * B) : bool :=
  key_eqb (fst a) (fst b) && key_eqb (snd a) (snd b).

Lemma pair_eqb_spec {A B : Type} `{EqKey A} `{EqKey B} (a b : A * B) :
  reflect (a = b) (pair_eqb a b).
Proof.
  destruct a as [a1 a2], b as [b1 b2]; unfold pair_eqb; simpl.
  destruct (key_eqb_spec a1 b1), (key_eqb_spec a2 b2); simpl; constructor;
    congruence.
Qed.

#[export] Instance EqKey_pair {A B : Type} `{EqKey A} `{EqKey B}
  : EqKey (A * B) :=
  {| key_eqb := pair_eqb; key_eqb_spec := pair_eqb_spec |}.

(** ** Insertion-ordered dictionaries *)

Section Dict.
Context {K V : Type} `{EqKey K}.

Definition dict : Type := list (K * V).

Definition dict_keys (d : dict) : list K := map fst d.
Definition dict_values (d : dict) : list V := map snd d.

(** [d.get(k)] *)
Fixpoint dict_get (k : K) (d : dict) : option V :=
  match d with
  | [] => None
  | (k', v) :: d' => if key_eqb k k' then Some v else dict_get k d'
  end.

(** [k in d] *)
Definition dict_mem (k : K) (d : dict) : bool :=
  match dict_get k d with Some _ => true | None => false end.

(** [d[k] = v]: an existing key keeps its position, a new key goes last. *)
Fixpoint dict_set (k : K) (v : V) (d : dict) : dict :=
  match d with
  | [] => [(k, v)]
  | (k', v') :: d' =>
      if key_eqb k k' then (k', v) :: d' else (k', v') :: dict_set k v d'
  end.

Definition dict_wf (d : dict) : Prop := NoDup (dict_keys d).
End Dict.

Arguments dict K V : clear implicits.

(** ** [sorted] with a key function *)

Section Sorted.
Context {A T : Type} (ltb : T -> T -> bool) (key : A -> T).

(** [x] is older than every element of [l]: it goes in front of the first
    element whose key is not smaller than its own. *)
Fixpoint sorted_insert (x : A) (l : list A) : list A :=
  match l with
  | [] => [x]
  | y :: l' =>
      if ltb (key y) (key x) then y :: sorted_insert x l' else x :: y :: l'
  end.

Definition py_sorted (l : list A) : list A := fold_right sorted_insert [] l.
End Sorted.

(** Python's order on pairs of integers. *)
Definition tuple_ltb (a b : Z * Z) : bool :=
  (fst a <? fst b) || ((fst a =? fst b) && (snd a <? snd b)).

(** ** The ranker: [compute_rank_and_borda_with_time] *)

Definition MISSING_TIME : Z := 10 ^ 12.

(** [range(a, b)] *)
Definition py_range (a b : Z) : list Z :=
  map (fun i => a + Z.of_nat i) (seq 0 (Z.to_nat (b - a))).

Definition py_sum (l : list Z) : Z := fold_left Z.add l 0.

(** [min] and [max] of a list; neither is called on an empty one. *)
Definition py_min (l : list Z) : Z :=
  match l with [] => 0 | x :: l' => fold_left Z.min l' x end.
Definition py_max (l : list Z) : Z :=
  match l with [] => 0 | x :: l' => fold_left Z.max l' x end.

Definition py_len {A : Type} (l : list A) : Z := Z.of_nat (List.length l).

Definition float_of_int (z : Z) : Q := inject_Z z.

(** The value shared by the members of a tie group of more than one. *)
Definition tie_value (tie_mode : string) (current_rank : Z) (occupied : list Z)
  : result Q :=
  if String.eqb tie_mode "average" then
    Ok (float_of_int (py_sum occupied) / float_of_int (py_len occupied))%Q
  else if String.eqb tie_mode "dense" then Ok (float_of_int current_rank)
  else if String.eqb tie_mode "min" then Ok (float_of_int (py_min occupied))
  else if String.eqb tie_mode "max" then Ok (float_of_int (py_max occupied))
  else Raise "ValueError".

Section Ranker.
Variables (pts_by_player time_by_player : dict string Z).

(** [pts_by_player[p]]; [p] always ranges over the keys of the dictionary,
    the default is never reached. *)
Definition pts_of (p : string) : Z :=
  match dict_get p pts_by_player with Some v => v | None => 0 end.

(** [time_by_player.get(p, 10**12)] *)
Definition time_of (p : string) : Z :=
  match dict_get p time_by_player with Some v => v | None => MISSING_TIME end.

Definition player_sort_key (p : string) : Z * Z := (- pts_of p, time_of p).
Definition group_key (p : string) : Z * Z := (pts_of p, time_of p).
Definition group_sort_key (k : Z * Z) : Z * Z := (- fst k, snd k).

(** [groups.setdefault(key, []).append(p)] *)
Definition groups_add (groups : dict (Z * Z) (list string)) (p : string)
  : dict (Z * Z) (list string) :=
  match dict_get (group_key p) groups with
  | Some names => dict_set (group_key p) (names ++ [p]) groups
  | None => dict_set (group_key p) [p] groups
  end.

Definition names_of (groups : dict (Z * Z) (list string)) (key : Z * Z)
  : list string :=
  match dict_get key groups with Some names => names | None => [] end.

(** The body of [for key in keys_sorted], on the state
    [(rank_best, current_rank)]. *)
Definition rank_step (tie_mode : string)
    (groups : dict (Z * Z) (list string))
    (st : dict string Q * Z) (key : Z * Z) : result (dict string Q * Z) :=
  let '(rank_best, current_rank) := st in
  let names := names_of groups key in
  let k := py_len names in
  let occupied := py_range current_rank (current_rank + k) in
  if k =? 1 then
    Ok (dict_set (hd "" names) (float_of_int current_rank) rank_best,
        current_rank + 1)
  else
    val <- tie_value tie_mode current_rank occupied ;;
    Ok (fold_left (fun rb n => dict_set n val rb) names rank_best,
        current_rank + (if String.eqb tie_mode "dense" then 1 else k)).

Fixpoint rank_loop (tie_mode : string) (groups : dict (Z * Z) (list string))
    (keys : list (Z * Z)) (st : dict string Q * Z)
  : result (dict string Q * Z) :=
  match keys with
  | [] => Ok st
  | key :: keys' =>
      st' <- rank_step tie_mode groups st key ;;
      rank_loop tie_mode groups keys' st'
  end.

Definition players_sorted : list string :=
  py_sorted tuple_ltb player_sort_key (dict_keys pts_by_player).

Definition rank_groups : dict (Z * Z) (list string) :=
  fold_left groups_add players_sorted [].

Definition keys_sorted : list (Z * Z) :=
  py_sorted tuple_ltb group_sort_key (dict_keys rank_groups).

Definition borda_of (rank_best : dict string Q) : dict string Q :=
  let N := py_len pts_by_player in
  map (fun pr => (fst pr, (float_of_int N - snd pr + 1)%Q)) rank_best.

Definition compute_rank_and_borda_with_time (tie_mode : string)
  : result (dict string Q * dict string Q) :=
  match pts_by_player with
  | [] => Ok ([], [])
  | _ =>
      st <- rank_loop tie_mode rank_groups keys_sorted ([], 1) ;;
      Ok (fst st, borda_of (fst st))
  end.
End Ranker.

(** Reading one player's rank and Borda value off the ranker's result. *)
Definition rank_of (r : result (dict string Q * dict string Q)) (p : string)
  : option Q :=
  match r with Ok (rb, _) => dict_get p rb | Raise _ => None end.

Definition borda_for (r : result (dict string Q * dict string Q)) (p : string)
  : option Q :=
  match r with Ok (_, bo) => dict_get p bo | Raise _ => None end.

Definition is_float (o : option Q) (q : Q) : Prop :=
  match o with Some x => (x == q)%Q | None => False end.

(** ** Entries and the deadline filter *)

Record Entry : Type := mkEntry {
  week_label : string;
  map_index : Z;
  map_url : string;
  map_token : string;
  map_name : string;
  rule_text : string;
  player : string;
  total_pts : Z;
  total_time : Z;
  played_at_epoch : option Z
}.

(** The body of [for e in entries] in [filter_entries_by_deadlines], on the
    accumulator [out]. *)
Definition filter_step (deadlines_epoch_by_week : dict string Z)
    (keep_missing_time : bool) (out : list Entry) (e : Entry) : list Entry :=
  match dict_get (week_label e) deadlines_epoch_by_week with
  | None => out ++ [e]
  | Some dl =>
      match played_at_epoch e with
      | None => if keep_missing_time then out ++ [e] else out
      | Some t => if t <=? dl then out ++ [e] else out
      end
  end.

Definition filter_entries_by_deadlines (entries : list Entry)
    (deadlines_epoch_by_week : dict string Z) (keep_missing_time : bool)
  : list Entry :=
  fold_left (filter_step deadlines_epoch_by_week keep_missing_time) entries [].

(** ** Strings *)

(** The code points of a string: its UTF-8 bytes, decoded.  [need] counts
    the continuation bytes still expected, [acc] holds the bits read so
    far. *)
Fixpoint utf8_decode (l : list ascii) (need : nat) (acc : Z) : list Z :=
  match l with
  | [] => []
  | c :: l' =>
      let n := Z.of_nat (nat_of_ascii c) in
      match need with
      | O =>
          if n <? 128 then n :: utf8_decode l' 0 0
          else if n <? 224 then utf8_decode l' 1 (n - 192)
          else if n <? 240 then utf8_decode l' 2 (n - 224)
          else utf8_decode l' 3 (n - 240)
      | S O => (64 * acc + (n - 128)) :: utf8_decode l' 0 0
      | S need' => utf8_decode l' need' (64 * acc + (n - 128))
      end
  end.

Definition code_points (s : string) : list Z :=
  utf8_decode (list_ascii_of_string s) 0 0.

Definition byte_of (n : Z) : ascii := ascii_of_nat (Z.to_nat n).

Definition utf8_encode_cp (cp : Z) : list ascii :=
  if cp <? 128 then [byte_of cp]
  else if cp <? 2048 then [byte_of (192 + cp / 64); byte_of (128 + cp mod 64)]
  else if cp <? 65536 then
    [byte_of (224 + cp / 4096); byte_of (128 + (cp / 64) mod 64);
     byte_of (128 + cp mod 64)]
  else
    [byte_of (240 + cp / 262144); byte_of (128 + (cp / 4096) mod 64);
     byte_of (128 + (cp / 64) mod 64); byte_of (128 + cp mod 64)].

Definition utf8_encode (cps : list Z) : string :=
  string_of_list_ascii (flat_map utf8_encode_cp cps).

(** [c.isspace()]: the white space of Unicode, the four ASCII separators
    U+001C to U+001F included. *)
Definition is_space (cp : Z) : bool :=
  (9 <=? cp) && (cp <=? 13) || (28 <=? cp) && (cp <=? 32)
  || (cp =? 133) || (cp =? 160) || (cp =? 5760)
  || (8192 <=? cp) && (cp <=? 8202)
  || (cp =? 8232) || (cp =? 8233) || (cp =? 8239) || (cp =? 8287)
  || (cp =? 12288).

Fixpoint drop_spaces (l : list Z) : list Z :=
  match l with
  | c :: l' => if is_space c then drop_spaces l' else l
  | [] => []
  end.

(** [s.strip()] *)
Definition str_strip (s : string) : string :=
  utf8_encode (rev (drop_spaces (rev (drop_spaces (code_points s))))).

(** The digit zero of every decimal system of Unicode (general category
    Nd); the ten digits of a system follow each other. *)
Definition decimal_zeros : list Z :=
  [48; 1632; 1776; 1984; 2406; 2534; 2662; 2790; 2918; 3046; 3174; 3302;
   3430; 3558; 3664; 3792; 3872; 4160; 4240; 6112; 6160; 6470; 6608; 6784;
   6800; 6992; 7088; 7232; 7248; 42528; 43216; 43264; 43472; 43504; 43600;
   44016; 65296; 66720; 68912; 69734; 69872; 69942; 70096; 70384; 70736;
   70864; 71248; 71360; 71472; 71904; 72016; 72784; 73040; 73120; 92768;
   92864; 93008; 120782; 120792; 120802; 120812; 120822; 123200; 123632;
   125264; 130032].

(** The value of a decimal digit. *)
Definition decimal_value (cp : Z) : option Z :=
  match find (fun z => (z <=? cp) && (cp <? z + 10)) decimal_zeros with
  | Some z => Some (cp - z)
  | None => None
  end.

(** [c.isdecimal()], which is also the class [\d]. *)
Definition is_decimal (cp : Z) : bool :=
  match decimal_value cp with Some _ => true | None => false end.

(** The digits that are not decimal digits: superscripts, subscripts,
    circled digits and the like. *)
Definition other_digits : list (Z * Z) :=
  [(178, 179); (185, 185); (4969, 4977); (6618, 6618); (8304, 8304);
   (8308, 8313); (8320, 8329); (9312, 9320); (9332, 9340); (9352, 9360);
   (9450, 9450); (9461, 9469); (9471, 9471); (10102, 10110);
   (10112, 10120); (10122, 10130); (68160, 68163); (69216, 69224);
   (69714, 69722); (127232, 127242)].

(** [c.isdigit()] *)
Definition is_digit (cp : Z) : bool :=
  is_decimal cp
  || existsb (fun r => (fst r <=? cp) && (cp <=? snd r)) other_digits.

(** [s.lower()], as far as ASCII can tell: Python also lowers the letters
    outside ASCII, to letters outside ASCII; only U+212A gives an ASCII
    letter (k) and U+0130 an i followed by U+0307.  The result is only
    tested against ASCII words. *)
Definition lower_cp (cp : Z) : list Z :=
  if (65 <=? cp) && (cp <=? 90) then [cp + 32]
  else if cp =? 8490 then [107]
  else if cp =? 304 then [105; 775]
  else [cp].

Definition str_lower (s : string) : string :=
  utf8_encode (flat_map lower_cp (code_points s)).

(** [x in s] for strings *)
Fixpoint str_contains (x s : string) : bool :=
  String.prefix x s ||
  match s with
  | EmptyString => false
  | String _ s' => str_contains x s'
  end.

(** [s.replace(c, r)] for a one-character pattern *)
Fixpoint str_replace_char (c : ascii) (r : string) (s : string) : string :=
  match s with
  | EmptyString => EmptyString
  | String c' s' =>
      if Ascii.eqb c c' then String.append r (str_replace_char c r s')
      else String c' (str_replace_char c r s')
  end.

(** [s.isdigit()] *)
Definition str_isdigit (s : string) : bool :=
  match code_points s with
  | [] => false
  | cps => forallb is_digit cps
  end.

(** The number written by a sequence of decimal digits. *)
Definition int_of_decimals (cps : list Z) : Z :=
  fold_left (fun acc cp => 10 * acc
                           + match decimal_value cp with
                             | Some v => v
                             | None => 0
                             end)
            cps 0.

Definition INT_MAX_STR_DIGITS : Z := 4300.

(** [int(s)] for a string of digits: a digit that is not a decimal digit
    is refused, and so are more than 4300 digits. *)
Definition int_of_digits (s : string) : result Z :=
  let cps := code_points s in
  match cps with
  | [] => Raise "ValueError"
  | _ =>
      if forallb is_decimal cps
         && (Z.of_nat (List.length cps) <=? INT_MAX_STR_DIGITS)
      then Ok (int_of_decimals cps)
      else Raise "ValueError"
  end.

(** [str(n)] for an integer *)
Definition str_of_int (n : Z) : string :=
  NilZero.string_of_int (Z.to_int n).

(** [sep.join(parts)] *)
Fixpoint str_join (sep : string) (parts : list string) : string :=
  match parts with
  | [] => ""
  | [x] => x
  | x :: rest => String.append x (String.append sep (str_join sep rest))
  end.

(** ** Raw records *)

Inductive json : Type :=
| JNull
| JBool (b : bool)
| JInt (z : Z)
| JFloat (q : Q)
| JStr (s : string)
| JList (l : list json)
| JDict (d : list (string * json)).

(** [int(x)] for a float: truncation towards zero. *)
Definition int_of_float (q : Q) : Z := Z.quot (Qnum q) (Z.pos (Qden q)).

(** [obj[k]] with a string key; anything but a dictionary holding [k]
    raises. *)
Definition json_item (obj : json) (k : string) : result json :=
  match obj with
  | JDict d =>
      match dict_get k d with Some v => Ok v | None => Raise "KeyError" end
  | _ => Raise "TypeError"
  end.

(** [obj.get(k)]; only dictionaries have the method. *)
Definition json_get (obj : json) (k : string) : result json :=
  match obj with
  | JDict d =>
      match dict_get k d with Some v => Ok v | None => Ok JNull end
  | _ => Raise "AttributeError"
  end.

(** Python truthiness of a value. *)
Definition json_truthy (v : json) : bool :=
  match v with
  | JNull => false
  | JBool b => b
  | JInt z => negb (z =? 0)
  | JFloat q => negb (Qeq_bool q 0)
  | JStr s => negb (String.eqb s "")
  | JList l => match l with [] => false | _ => true end
  | JDict d => match d with [] => false | _ => true end
  end.

Definition _parse_int_maybe (x : json) : result (option Z) :=
  match x with
  | JNull | JBool _ => Ok None
  | JInt z => Ok (Some z)
  | JFloat q => Ok (Some (int_of_float q))
  | JStr x =>
      let s := str_replace_char "," "" (str_strip x) in
      if str_isdigit s then v <- int_of_digits s ;; Ok (Some v)
      else Ok None
  | _ => Ok None
  end.

(** [item["game"]["player"]] *)
Definition item_player (item : json) : result json :=
  game <- json_item item "game" ;; json_item game "player".

Definition player_name_from_item (item : json) : string :=
  match (pl <- item_player item ;; json_get pl "nick") with
  | Ok (JStr nick) =>
      if negb (String.eqb (str_strip nick) "") then str_strip nick
      else "UNKNOWN"
  | _ => "UNKNOWN"
  end.

Definition total_points_from_item (item : json) : Z :=
  match (pl <- item_player item ;;
         ts <- json_item pl "totalScore" ;;
         amt <- json_get ts "amount" ;;
         _parse_int_maybe amt) with
  | Ok (Some v) => v
  | _ =>
      match (pl <- item_player item ;;
             v <- json_get pl "totalScoreInPoints" ;;
             _parse_int_maybe v) with
      | Ok (Some v) => v
      | _ => 0
      end
  end.

Definition total_time_from_item (item : json) : Z :=
  match (pl <- item_player item ;;
         v <- json_get pl "totalTime" ;;
         _parse_int_maybe v) with
  | Ok (Some v) => v
  | _ => MISSING_TIME
  end.

Definition is_true (v : json) : bool :=
  match v with JBool true => true | _ => false end.
Definition is_false (v : json) : bool :=
  match v with JBool false => true | _ => false end.

(** [isinstance(time_limit, int) and time_limit > 0]; a Python [bool] is an
    [int], and [True] prints as [True]. *)
Definition time_limit_part (time_limit : json) : list string :=
  match time_limit with
  | JInt t =>
      if 0 <? t then
        if t mod 60 =? 0 then [String.append (str_of_int (t / 60)) " min"]
        else [String.append (str_of_int t) "s"]
      else []
  | JBool true => ["Trues"]
  | _ => []
  end.

Definition rule_text_from_game (game : json) : result string :=
  forbid_moving <- json_get game "forbidMoving" ;;
  forbid_zooming <- json_get game "forbidZooming" ;;
  forbid_rotating <- json_get game "forbidRotating" ;;
  time_limit <- json_get game "timeLimit" ;;
  let mode :=
    if is_true forbid_moving && is_true forbid_zooming
       && is_true forbid_rotating then "NMPZ"
    else if is_true forbid_moving then
      if is_true forbid_rotating && is_false forbid_zooming then "NMP"
      else if is_true forbid_rotating && is_true forbid_zooming then "NMPZ"
      else "NM"
    else "Moving" in
  Ok (str_join " - " (mode :: time_limit_part time_limit)).

(** ** Played-at extraction *)

Fixpoint _iter_all_dicts (obj : json) : list (list (string * json)) :=
  match obj with
  | JDict d =>
      d :: (fix values (l : list (string * json)) :=
              match l with
              | [] => []
              | (_, v) :: l' => _iter_all_dicts v ++ values l'
              end) d
  | JList l =>
      (fix items (l : list json) :=
         match l with
         | [] => []
         | it :: l' => _iter_all_dicts it ++ items l'
         end) l
  | _ => []
  end.

(** [EPOCH_RE = ^\d{10,13}$], matched against a stripped string (no line
    end is left for [$] to skip). *)
Definition EPOCH_RE_match (s : string) : bool :=
  let cps := code_points s in
  let n := List.length cps in
  ((10 <=? n) && (n <=? 13))%nat && forallb is_decimal cps.

(** [ISO_RE = ^\d{4}-\d{2}-\d{2}], matched at the start of the string. *)
Definition ISO_RE_match (s : string) : bool :=
  match code_points s with
  | y1 :: y2 :: y3 :: y4 :: h1 :: m1 :: m2 :: h2 :: d1 :: d2 :: _ =>
      forallb is_decimal [y1; y2; y3; y4; m1; m2; d1; d2]
      && (h1 =? 45) && (h2 =? 45)
  | _ => false
  end.

(** The two numeric readings of a timestamp: milliseconds above 10^10,
    seconds above 10^9. *)
Definition epoch_of_int (x : Z) : option Z :=
  if 10000000000 <? x then Some (x / 1000)
  else if 1000000000 <? x then Some x
  else None.

Section PlayedAt.
(** [int(pd.to_datetime(ss, utc=True).timestamp())]; [None] stands for a
    missing date and for a parse failure alike. *)
Variable to_datetime_epoch : string -> option Z.

(** [int(s)] cannot fail on a match of [EPOCH_RE]: ten to thirteen decimal
    digits. *)
Definition _try_parse_epoch (val : json) : option Z :=
  match val with
  | JNull => None
  | JInt x => epoch_of_int x
  | JFloat q => epoch_of_int (int_of_float q)
  | JStr val =>
      let s := str_strip val in
      match (if EPOCH_RE_match s
             then epoch_of_int (int_of_decimals (code_points s))
             else None) with
      | Some ep => Some ep
      | None =>
          if ISO_RE_match s
          then to_datetime_epoch (str_replace_char "Z" "+00:00" s)
          else None
      end
  | _ => None
  end.

Definition candidate_keys : list string :=
  ["createdat"; "created"; "updatedat"; "updated";
   "finishedat"; "endedat"; "endtime"; "completedat"; "completed";
   "startedat"; "starttime";
   "timestamp"; "time"].

Definition is_candidate_key (k : string) : bool :=
  let lk := str_lower k in
  existsb (String.eqb lk) candidate_keys
  || existsb (fun x => str_contains x lk)
       ["created"; "finished"; "ended"; "completed"; "start"; "end";
        "updated"].

(** The body of [for k, v in d.items()], on [best]. *)
Definition played_at_step (best : option Z) (kv : string * json) : option Z :=
  if is_candidate_key (fst kv) then
    match _try_parse_epoch (snd kv) with
    | None => best
    | Some ep =>
        match best with
        | None => Some ep
        | Some b => if b <? ep then Some ep else best
        end
    end
  else best.

Definition extract_played_at_epoch (game_payload : json) : option Z :=
  fold_left (fun best d => fold_left played_at_step d best)
            (_iter_all_dicts game_payload) None.
End PlayedAt.

(** ** Week specifications *)

Record WeekSpec : Type := mkWeekSpec {
  label : string;
  urls_path : string;
  deadline : option string
}.

(** [s.split(sep)] for a one-character separator *)
Fixpoint str_split (sep : ascii) (s : string) : list string :=
  match s with
  | EmptyString => [""]
  | String c s' =>
      if Ascii.eqb c sep then "" :: str_split sep s'
      else match str_split sep s' with
           | [] => [String c ""]
           | x :: rest => String c x :: rest
           end
  end.

Section WeekSpecs.
(** [Path(p).expanduser()], as the text of the resulting path; it raises
    RuntimeError when the home directory it asks for cannot be
    determined. *)
Variable path_expanduser : string -> result string.

Definition parse_week_spec (s : string) : result WeekSpec :=
  match map str_strip (str_split "|" s) with
  | lbl :: path :: rest =>
      p <- path_expanduser path ;;
      Ok {| label := lbl;
            urls_path := p;
            deadline := match rest with
                        | d :: _ => if String.eqb d "" then None else Some d
                        | [] => None
                        end |}
  | _ => Raise "SystemExit"
  end.

Fixpoint parse_week_specs_loop (week_args : list string)
  : result (list WeekSpec) :=
  match week_args with
  | [] => Ok []
  | s :: rest =>
      w <- parse_week_spec s ;;
      ws <- parse_week_specs_loop rest ;;
      Ok (w :: ws)
  end.

Definition parse_week_specs (week_args : list string)
  : result (list WeekSpec) :=
  match week_args with
  | [] => Raise "SystemExit"
  | _ => parse_week_specs_loop week_args
  end.
End WeekSpecs.

(** Truthiness of an optional string, as in [if w.deadline:]. *)
Definition str_opt_truthy (o : option string) : bool :=
  match o with Some s => negb (String.eqb s "") | None => false end.

Definition is_some {A : Type} (o : option A) : bool :=
  match o with Some _ => true | None => false end.

(** ** Building the entries of a week *)

Record BuildState : Type := mkBuildState {
  out_entries : list Entry;
  has_any_played_at : bool;
  played_at_cache : dict string (option Z)
}.

Section Build.
(** The remote service and the file system.  One run sees one answer per
    URL. *)
Variable to_datetime_epoch : string -> option Z.
Variable http_get_json : string -> result json.
Variable fetch_highscores_items : string -> Z -> Z -> result (list json).
Variable load_urls : string -> result (list string).
Variable extract_token : string -> result string.
(** [str(v)] for a value that is not a string, an integer or a boolean. *)
Variable py_repr : json -> string.

Definition py_str (v : json) : string :=
  match v with
  | JStr s => s
  | JInt z => str_of_int z
  | JBool true => "True"
  | JBool false => "False"
  | JNull => "None"
  | _ => py_repr v
  end.

Definition fetch_game_details_for_played_at (game_token : string)
  : option Z :=
  let endpoints :=
    [String.append "https://www.geoguessr.com/api/v3/games/" game_token;
     String.append "https://www.geoguessr.com/api/v3/results/" game_token] in
  fold_left
    (fun found url =>
       match found with
       | Some ep => Some ep
       | None =>
           match http_get_json url with
           | Ok payload => extract_played_at_epoch to_datetime_epoch payload
           | Raise _ => None
           end
       end)
    endpoints None.

(** Map name and rule text, read off the first item. *)
Definition map_info (items : list json) : string * string :=
  match items with
  | [] => ("", "")
  | it0 :: _ =>
      match (game0 <- json_item it0 "game" ;;
             nm <- json_get game0 "mapName" ;;
             rt <- rule_text_from_game game0 ;;
             Ok (str_strip (if json_truthy nm then py_str nm else ""), rt))
      with
      | Ok info => info
      | Raise _ => ("", "")
      end
  end.

(** The played-at lookup of one item, through the cache. *)
Definition lookup_played_at (fetch_played_at : bool) (it : json)
    (cache : dict string (option Z))
  : option Z * dict string (option Z) :=
  if fetch_played_at then
    match (game <- json_item it "game" ;; json_get game "token") with
    | Ok (JStr game_token) =>
        if String.eqb game_token "" then (None, cache)
        else
          match dict_get game_token cache with
          | Some played_at => (played_at, cache)
          | None =>
              let played_at := fetch_game_details_for_played_at game_token in
              (played_at, dict_set game_token played_at cache)
          end
    | _ => (None, cache)
    end
  else (None, cache).

(** The body of [for it in items]. *)
Definition build_item (week : WeekSpec) (map_idx : Z) (url token : string)
    (info : string * string) (fetch_played_at : bool)
    (st : BuildState) (it : json) : BuildState :=
  match it with
  | JDict d =>
      if negb (dict_mem "game" d) then st
      else
        let name := player_name_from_item it in
        if String.eqb name "UNKNOWN" then st
        else
          let pts := total_points_from_item it in
          let ttime := total_time_from_item it in
          let '(played_at, cache) :=
            lookup_played_at fetch_played_at it (played_at_cache st) in
          {| out_entries :=
               out_entries st ++
               [ {| week_label := label week;
                    map_index := map_idx;
                    map_url := url;
                    map_token := token;
                    map_name :=
                      if String.eqb (fst info) ""
                      then String.append "Map " (str_of_int map_idx)
                      else fst info;
                    rule_text := snd info;
                    player := name;
                    total_pts := pts;
                    total_time := ttime;
                    played_at_epoch := played_at |} ];
             has_any_played_at := has_any_played_at st || is_some played_at;
             played_at_cache := cache |}
  | _ => st
  end.

(** [for map_idx, url in enumerate(urls, start=1)] *)
Fixpoint build_maps (week : WeekSpec) (page_size max_players : Z)
    (fetch_played_at : bool) (map_idx : Z) (urls : list string)
    (st : BuildState) : result BuildState :=
  match urls with
  | [] => Ok st
  | url :: urls' =>
      token <- extract_token url ;;
      items <- fetch_highscores_items token page_size max_players ;;
      build_maps week page_size max_players fetch_played_at (map_idx + 1)
        urls'
        (fold_left
           (build_item week map_idx url token (map_info items)
                       fetch_played_at)
           items st)
  end.

Definition build_week_entries (week : WeekSpec) (page_size max_players : Z)
    (fetch_played_at : bool) : result (list Entry * bool) :=
  urls <- load_urls (urls_path week) ;;
  match urls with
  | [] => Raise "RuntimeError"
  | _ =>
      st <- build_maps week page_size max_players fetch_played_at 1 urls
              {| out_entries := [];
                 has_any_played_at := false;
                 played_at_cache := [] |} ;;
      Ok (out_entries st, has_any_played_at st)
  end.
End Build.

(** ** Tables *)

(** [drop_duplicates]: first occurrences, in order. *)
Fixpoint unique {K : Type} `{EqKey K} (l : list K) : list K :=
  match l with
  | [] => []
  | x :: l' => x :: filter (fun y => negb (key_eqb y x)) (unique l')
  end.

(** [groupby(..., sort=True)]: the groups in the order of their keys, the
    rows of a group in the order of the frame. *)
Definition groupby {A K : Type} `{EqKey K} (ltb : K -> K -> bool)
    (key : A -> K) (rows : list A) : list (K * list A) :=
  map (fun k => (k, filter (fun r => key_eqb (key r) k) rows))
      (py_sorted ltb (fun k => k) (unique (map key rows))).

Definition str_pair_ltb {B : Type} (ltb : B -> B -> bool)
    (a b : string * B) : bool :=
  String.ltb (fst a) (fst b)
  || (String.eqb (fst a) (fst b) && ltb (snd a) (snd b)).

Record OverviewRow : Type := mkOverviewRow {
  row_entry : Entry;
  rank_best : option Q;
  borda_points : option Q
}.

Record WeeklyRow : Type := mkWeeklyRow {
  w_week : string;
  w_player : string;
  weekly_borda : Q;
  weekly_total_pts : Z;
  w_maps_counted : Z
}.

Definition MetaRow : Type := (string * Z * string * string * string)%type.

(** A column sum; missing values are skipped. *)
Definition sum_floats (l : list (option Q)) : Q :=
  fold_left (fun acc o => match o with Some x => acc + x | None => acc end)%Q
            l 0%Q.

Definition Qltb (a b : Q) : bool := negb (Qle_bool b a).

(** The value a sum takes in a column of 64-bit integers. *)
Definition wrap_int64 (z : Z) : Z := (z + 2 ^ 63) mod 2 ^ 64 - 2 ^ 63.

(** A column sum of integers. *)
Definition int64_sum (l : list Z) : Z := wrap_int64 (py_sum l).

(** The integer nearest to a rational, a tie going to the even one. *)
Definition round_half_even (q : Q) : Z :=
  let f := Qfloor q in
  match (q - inject_Z f ?= 1 # 2)%Q with
  | Lt => f
  | Gt => f + 1
  | Eq => if Z.even f then f else f + 1
  end.

(** The exponent [e] of a rational other than zero:
    [2^e <= |q| < 2^(e+1)]. *)
Definition float_exponent (q : Q) : Z :=
  let e := Z.log2 (Z.abs (Qnum q)) - Z.log2 (Z.pos (Qden q)) in
  if Qle_bool (Qpower 2 e) (Qabs q) then e else e - 1.

(** The float nearest to a rational: 53 significant bits, ties to even.
    The range of the exponent is not modelled; the quotients taken here lie
    between 2^-63 and 2^63. *)
Definition round_float64 (q : Q) : Q :=
  if Qeq_bool q 0 then 0%Q
  else
    let u := Qpower 2 (float_exponent q - 52) in
    (inject_Z (round_half_even (q / u)) * u)%Q.

(** The float of a 64-bit integer. *)
Definition float_of_int64 (z : Z) : Q := round_float64 (inject_Z z).

(** [a / b] on floats *)
Definition float_div (a b : Q) : Q := round_float64 (a / b).

(** [{row["player"]: f(row) for row in g}] *)
Definition player_dict (f : Entry -> Z) (g : list Entry) : dict string Z :=
  fold_left (fun d e => dict_set (player e) (f e) d) g [].

(** Rank and Borda for the rows of one (week, map) group. *)
Definition rank_group (tie_mode : string) (g : list Entry)
  : result (list OverviewRow) :=
  rb <- compute_rank_and_borda_with_time
          (player_dict total_pts g) (player_dict total_time g) tie_mode ;;
  Ok (map (fun e => {| row_entry := e;
                       rank_best := dict_get (player e) (fst rb);
                       borda_points := dict_get (player e) (snd rb) |}) g).

Fixpoint rank_groups_rows (tie_mode : string) (gs : list (list Entry))
  : result (list OverviewRow) :=
  match gs with
  | [] => Ok []
  | g :: gs' =>
      rows <- rank_group tie_mode g ;;
      rest <- rank_groups_rows tie_mode gs' ;;
      Ok (rows ++ rest)
  end.

(** Order of [sort_values(["week", "weekly_borda", "weekly_total_pts"],
    ascending=[True, False, False])]. *)
Definition weekly_ltb (a b : WeeklyRow) : bool :=
  String.ltb (w_week a) (w_week b)
  || (String.eqb (w_week a) (w_week b)
      && (Qltb (weekly_borda b) (weekly_borda a)
          || (Qeq_bool (weekly_borda a) (weekly_borda b)
              && (weekly_total_pts b <? weekly_total_pts a)))).

Definition weekly_of_group (kg : (string * string) * list OverviewRow)
  : WeeklyRow :=
  let '((w, p), rows) := kg in
  {| w_week := w;
     w_player := p;
     weekly_borda := sum_floats (map borda_points rows);
     weekly_total_pts :=
       int64_sum (map (fun r => total_pts (row_entry r)) rows);
     w_maps_counted :=
       py_len (unique (map (fun r => map_index (row_entry r)) rows)) |}.

Definition week_meta (entries : list Entry) : list MetaRow :=
  py_sorted (str_pair_ltb Z.ltb)
    (fun m : MetaRow => let '(w, mi, _, _, _) := m in (w, mi))
    (unique (map (fun e => (week_label e, map_index e, map_url e,
                            map_name e, rule_text e)) entries)).

Definition compute_week_tables (entries : list Entry) (tie_mode : string)
  : result (list OverviewRow * list WeeklyRow * list MetaRow) :=
  match entries with
  | [] => Ok ([], [], [])
  | _ =>
      let df_week_meta := week_meta entries in
      df_overview <-
        rank_groups_rows tie_mode
          (map snd (groupby (str_pair_ltb Z.ltb)
                            (fun e => (week_label e, map_index e)) entries)) ;;
      let df_weekly :=
        py_sorted weekly_ltb (fun r => r)
          (map weekly_of_group
               (groupby (str_pair_ltb String.ltb)
                        (fun r => (week_label (row_entry r),
                                   player (row_entry r)))
                        df_overview)) in
      Ok (df_overview, df_weekly, df_week_meta)
  end.

Record TotalRow : Type := mkTotalRow {
  t_player : string;
  total_borda : Q;
  t_total_pts : Z;
  t_maps_counted : Z;
  t_weeks_counted : Z;
  avg_borda_per_map : Q;
  avg_borda_per_week : Q;
  avg_pts_per_map : Q
}.

Record StatsRow : Type := mkStatsRow {
  s_total : TotalRow;
  best_week : option (string * Q * Z)
}.

(** [series.clip(lower=1)] *)
Definition clip_lower_1 (n : Z) : Z := Z.max n 1.

Definition total_of_group (kg : string * list OverviewRow) : TotalRow :=
  let '(p, rows) := kg in
  let tb := sum_floats (map borda_points rows) in
  let tp := int64_sum (map (fun r => total_pts (row_entry r)) rows) in
  let mc := py_len (unique (map (fun r => map_index (row_entry r)) rows)) in
  let wc := py_len (unique (map (fun r => week_label (row_entry r)) rows)) in
  {| t_player := p;
     total_borda := tb;
     t_total_pts := tp;
     t_maps_counted := mc;
     t_weeks_counted := wc;
     avg_borda_per_map := float_div tb (float_of_int64 (clip_lower_1 mc));
     avg_borda_per_week := float_div tb (float_of_int64 (clip_lower_1 wc));
     avg_pts_per_map :=
       float_div (float_of_int64 tp) (float_of_int64 (clip_lower_1 mc)) |}.

(** Order of [sort_values(["total_borda", "total_pts"],
    ascending=[False, False])]. *)
Definition total_ltb (a b : TotalRow) : bool :=
  Qltb (total_borda b) (total_borda a)
  || (Qeq_bool (total_borda a) (total_borda b)
      && (t_total_pts b <? t_total_pts a)).

(** Order of [sort_values(["player", "week_borda", "week_pts"],
    ascending=[True, False, False])] on the per-week rows. *)
Definition best_week_ltb (a b : WeeklyRow) : bool :=
  String.ltb (w_player a) (w_player b)
  || (String.eqb (w_player a) (w_player b)
      && (Qltb (weekly_borda b) (weekly_borda a)
          || (Qeq_bool (weekly_borda a) (weekly_borda b)
              && (weekly_total_pts b <? weekly_total_pts a)))).

Definition per_week_of_group (kg : (string * string) * list OverviewRow)
  : WeeklyRow :=
  let '((p, w), rows) := kg in weekly_of_group ((w, p), rows).

(** [groupby("player").head(1)] followed by the left merge on the player. *)
Definition best_week_of (sorted_weeks : list WeeklyRow) (p : string)
  : option (string * Q * Z) :=
  match filter (fun r => String.eqb (w_player r) p) sorted_weeks with
  | r :: _ => Some (w_week r, weekly_borda r, weekly_total_pts r)
  | [] => None
  end.

Definition compute_total_tables (df_overview : list OverviewRow)
  : list TotalRow * list StatsRow :=
  match df_overview with
  | [] => ([], [])
  | _ =>
      let by_player :=
        map total_of_group
            (groupby String.ltb (fun r => player (row_entry r)) df_overview) in
      let total := py_sorted total_ltb (fun r => r) by_player in
      let per_week :=
        map per_week_of_group
            (groupby (str_pair_ltb String.ltb)
                     (fun r => (player (row_entry r),
                                week_label (row_entry r)))
                     df_overview) in
      let sorted_weeks := py_sorted best_week_ltb (fun r => r) per_week in
      let stats :=
        py_sorted (fun a b => total_ltb (s_total a) (s_total b)) (fun r => r)
          (map (fun t => {| s_total := t;
                            best_week := best_week_of sorted_weeks
                                                      (t_player t) |})
               total) in
      (total, stats)
  end.

(** ** The run *)

Record Args : Type := mkArgs {
  arg_week : list string;
  arg_out_base : string;
  arg_tz : string;
  arg_ncfa : string;
  arg_tie : string;
  arg_page_size : Z;
  arg_max_players : Z;
  arg_fetch_played_at : bool;
  arg_keep_missing_time : bool
}.

(** What is handed to the renderer for one output file. *)
Record Workbook : Type := mkWorkbook {
  wb_path : string;
  wb_weekly : list WeeklyRow;
  wb_overview : list OverviewRow;
  wb_meta : list MetaRow;
  wb_total : list TotalRow;
  wb_stats : list StatsRow
}.

Section Main.
Variable to_datetime_epoch : string -> option Z.
Variable http_get_json : string -> result json.
Variable fetch_highscores_items : string -> Z -> Z -> result (list json).
Variable load_urls : string -> result (list string).
Variable extract_token : string -> result string.
Variable py_repr : json -> string.
(** [parse_deadline_epoch(deadline, tz)] *)
Variable parse_deadline_epoch : string -> string -> result Z.
(** [os.environ.get("GEOGUESSR_NCFA", "")] *)
Variable env_ncfa : string.
(** [Path(p).expanduser()] *)
Variable path_expanduser : string -> result string.

(** [for w in weeks: if w.deadline: deadlines_epoch[w.label] = ...] *)
Fixpoint collect_deadlines (tz : string) (weeks : list WeekSpec)
    (deadlines_epoch : dict string Z) : result (dict string Z) :=
  match weeks with
  | [] => Ok deadlines_epoch
  | w :: weeks' =>
      match deadline w with
      | Some d =>
          if String.eqb d "" then collect_deadlines tz weeks' deadlines_epoch
          else
            ep <- parse_deadline_epoch d tz ;;
            collect_deadlines tz weeks' (dict_set (label w) ep deadlines_epoch)
      | None => collect_deadlines tz weeks' deadlines_epoch
      end
  end.

(** [for w in weeks: entries, has_any = build_week_entries(...)], on
    [(all_entries, any_played_at)]. *)
Fixpoint build_all (args : Args) (weeks : list WeekSpec)
    (acc : list Entry * bool) : result (list Entry * bool) :=
  match weeks with
  | [] => Ok acc
  | w :: weeks' =>
      r <- build_week_entries to_datetime_epoch http_get_json
             fetch_highscores_items load_urls extract_token py_repr w
             (arg_page_size args) (arg_max_players args)
             (arg_fetch_played_at args && is_some (deadline w)) ;;
      build_all args weeks' (fst acc ++ fst r, snd acc || snd r)
  end.

Definition can_filter_of (deadlines_epoch : dict string Z) (args : Args)
    (any_played_at : bool) : bool :=
  match deadlines_epoch with [] => false | _ => true end
  && arg_fetch_played_at args && any_played_at.

Definition make_workbook (path : string) (entries : list Entry)
    (tie_mode : string) : result Workbook :=
  t <- compute_week_tables entries tie_mode ;;
  let '(df_overview, df_weekly, df_meta) := t in
  let '(df_total, df_stats) := compute_total_tables df_overview in
  Ok {| wb_path := path;
        wb_weekly := df_weekly;
        wb_overview := df_overview;
        wb_meta := df_meta;
        wb_total := df_total;
        wb_stats := df_stats |}.

(** The files written by a run, in the order they are written. *)
Definition main (args : Args) : result (list Workbook) :=
  weeks <- parse_week_specs path_expanduser (arg_week args) ;;
  let ncfa :=
    str_strip (if String.eqb (arg_ncfa args) "" then env_ncfa
               else arg_ncfa args) in
  if String.eqb ncfa "" then Raise "SystemExit"
  else
    deadlines_epoch <- collect_deadlines (arg_tz args) weeks [] ;;
    built <- build_all args weeks ([], false) ;;
    let '(all_entries, any_played_at) := built in
    wb_all <- make_workbook (String.append (arg_out_base args) "_all.xlsx")
                all_entries (arg_tie args) ;;
    if can_filter_of deadlines_epoch args any_played_at then
      wb_f <- make_workbook
                (String.append (arg_out_base args) "_filtered.xlsx")
                (filter_entries_by_deadlines all_entries deadlines_epoch
                   (arg_keep_missing_time args))
                (arg_tie args) ;;
      Ok [wb_all; wb_f]
    else Ok [wb_all].
End Main.

(** ** Auxiliary notions used in the statements *)

(** The decision taken for one entry, as a predicate. *)
Definition entry_kept (deadlines_epoch_by_week : dict string Z)
    (keep_missing_time : bool) (e : Entry) : bool :=
  match filter_step deadlines_epoch_by_week keep_missing_time [] e with
  | [] => false
  | _ => true
  end.

Definition sample_entry (w p : string) (played : option Z) : Entry :=
  {| week_label := w; map_index := 1; map_url := "u"; map_token := "t";
     map_name := "Map 1"; rule_text := ""; player := p;
     total_pts := 5000; total_time := 60; played_at_epoch := played |}.


(** The three-player scenario: A and B tie exactly, C is behind. *)
Definition scenario_pts : dict string Z :=
  [("A", 5000); ("B", 5000); ("C", 4000)].
Definition scenario_time : dict string Z :=
  [("A", 60); ("B", 60); ("C", 90)].
Definition scenario (tie_mode : string)
  : result (dict string Q * dict string Q) :=
  compute_rank_and_borda_with_time scenario_pts scenario_time tie_mode.

(** One player's rank and Borda value in the scenario. *)
Definition scenario_row (tie_mode p : string) (rank borda : Q) : Prop :=
  is_float (rank_of (scenario tie_mode) p) rank
  /\ is_float (borda_for (scenario tie_mode) p) borda.

(** How the number [q] was read when it gave the timestamp [ep]: as
    seconds, or as milliseconds. *)
Definition numeric_reading (q : Q) (ep : Z) : Prop :=
  (1000000000 < q)%Q
  /\ ((ep = int_of_float q /\ 1000000000 < ep <= 10000000000)
      \/ (ep = int_of_float q / 1000 /\ 10000000000 < int_of_float q
          /\ 10000000 <= ep)).

(** The number denoted by a numeric raw value. *)
Definition json_number (v : json) : option Q :=
  match v with
  | JInt z => Some (inject_Z z)
  | JFloat q => Some q
  | _ => None
  end.

(** A raw record that carries a player object without any nick. *)
Definition nameless_item : json :=
  JDict [("game", JDict [("player", JDict [])])].

(** A raw record with the given nick. *)
Definition item_with_nick (nick : string) : json :=
  JDict [("game", JDict [("player", JDict [("nick", JStr nick)])])].

(** The name UNKNOWN between two no-break spaces (U+00A0). *)
Definition padded_unknown : string :=
  utf8_encode ([160] ++ code_points "UNKNOWN" ++ [160]).

(** Every entry built so far carries a real player name. *)
Definition named (st : BuildState) : Prop :=
  Forall (fun e => player e <> "UNKNOWN") (out_entries st).

(** A run wrote a file at [path]. *)
Definition writes (wbs : list Workbook) (path : string) : Prop :=
  exists wb, In wb wbs /\ wb_path wb = path.

Definition has_deadline (w : WeekSpec) : bool := str_opt_truthy (deadline w).
Definition resolved (e : Entry) : bool := is_some (played_at_epoch e).

Definition dict_nonempty {K V : Type} (d : dict K V) : bool :=
  match d with [] => false | _ => true end.

(** The flag returned with the entries tells whether one of them has a
    played-at time. *)
Definition flag_ok (st : BuildState) : Prop :=
  has_any_played_at st = existsb resolved (out_entries st).

(** A small run: one week with a deadline and one map, one player whose game
    details carry a creation time. *)
Definition demo_args : Args :=
  {| arg_week := ["W1|urls_week1.txt|2026-02-18 20:00"];
     arg_out_base := "Liga_overview";
     arg_tz := "Europe/Stockholm";
     arg_ncfa := "cookie";
     arg_tie := "average";
     arg_page_size := 200;
     arg_max_players := 5000;
     arg_fetch_played_at := true;
     arg_keep_missing_time := false |}.

Definition demo_item : json :=
  JDict [("game", JDict [("token", JStr "g1");
                         ("player", JDict [("nick", JStr "A");
                                           ("totalTime", JInt 60)])])].

Definition demo_main (args : Args) : result (list Workbook) :=
  main (fun _ => None)
       (fun _ => Ok (JDict [("created", JInt 1700000000)]))
       (fun _ _ _ => Ok [demo_item])
       (fun _ => Ok ["https://www.geoguessr.com/challenge/abc"])
       (fun _ => Ok "abc")
       (fun _ => "")
       (fun _ _ => Ok 1800000000)
       ""
       (fun p => Ok p)
       args.

Definition demo_workbooks : list Workbook :=
  match demo_main demo_args with Ok wbs => wbs | Raise _ => [] end.

(** The order induced on a list by a key function, as a relation. *)
Definition key_lt {A T : Type} (ltb : T -> T -> bool) (key : A -> T)
    (x y : A) : Prop :=
  ltb (key x) (key y) = true.

(** [for n in names: rank_best[n] = val] *)
Definition set_all (names : list string) (val : Q) (rb : dict string Q)
  : dict string Q :=
  fold_left (fun rb n => dict_set n val rb) names rb.

(** The rank given to a group of [k] players that starts at position
    [current_rank], and the step of [current_rank] past the group. *)
Definition group_value (tie_mode : string) (current_rank k : Z) : result Q :=
  if k =? 1 then Ok (float_of_int current_rank)
  else tie_value tie_mode current_rank
                 (py_range current_rank (current_rank + k)).

Definition advance (tie_mode : string) (k : Z) : Z :=
  if k =? 1 then 1 else if String.eqb tie_mode "dense" then 1 else k.

Definition group_size (groups : dict (Z * Z) (list string)) (key : Z * Z)
  : Z :=
  py_len (names_of groups key).

Definition advance_all (tie_mode : string)
    (groups : dict (Z * Z) (list string)) (keys : list (Z * Z)) : Z :=
  fold_right (fun key acc => advance tie_mode (group_size groups key) + acc)
             0 keys.

(** The tie modes the command line accepts. *)
Definition valid_tie_mode (tie_mode : string) : Prop :=
  tie_mode = "average" \/ tie_mode = "dense" \/ tie_mode = "min"
  \/ tie_mode = "max".

(** Two results of the ranker give every player the same rank and the same
    Borda value (or fail alike). *)
Definition same_assignment (r r' : result (dict string Q * dict string Q))
  : Prop :=
  match r, r' with
  | Ok (rb, bo), Ok (rb', bo') =>
      forall p, dict_get p rb = dict_get p rb' /\ dict_get p bo = dict_get p bo'
  | Raise _, Raise _ => True
  | _, _ => False
  end.

(** Two states of the ranking loop agree on the next position and on every
    player's rank. *)
Definition same_state (r r' : result (dict string Q * Z)) : Prop :=
  match r, r' with
  | Ok (rb, cr), Ok (rb', cr') =>
      cr = cr' /\ forall p, dict_get p rb = dict_get p rb'
  | Raise _, Raise _ => True
  | _, _ => False
  end.

(** [sum(xs)] for floats *)
Definition qsum (l : list Q) : Q := fold_left Qplus l 0%Q.

(** N * (N + 1) / 2 *)
Definition borda_total (N : Z) : Q :=
  (float_of_int N * (float_of_int N + 1) / 2)%Q.

(** The sum of the Borda values of a result equals the conserved total. *)
Definition borda_conserved (pts : dict string Z)
    (r : result (dict string Q * dict string Q)) : Prop :=
  match r with
  | Ok (_, bo) => (qsum (dict_values bo) == borda_total (py_len pts))%Q
  | Raise _ => False
  end.

(** No two players share both points and time. *)
Definition no_exact_tie (pts time : dict string Z) : Prop :=
  NoDup (map (group_key pts time) (dict_keys pts)).

(** A raw record the normalizer turns into an entry: a dictionary with a
    game whose player has a name. *)
Definition item_kept (it : json) : bool :=
  match it with
  | JDict d =>
      dict_mem "game" d
      && negb (String.eqb (player_name_from_item it) "UNKNOWN")
  | _ => false
  end.

(** Player, points and time of a raw record, and of an entry. *)
Definition item_score (it : json) : string * Z * Z :=
  (player_name_from_item it, total_points_from_item it,
   total_time_from_item it).

Definition entry_score (e : Entry) : string * Z * Z :=
  (player e, total_pts e, total_time e).

(** The same, with the index of the map. *)
Definition indexed_item_score (x : Z * json) : Z * (string * Z * Z) :=
  (fst x, item_score (snd x)).

Definition indexed_score (e : Entry) : Z * (string * Z * Z) :=
  (map_index e, entry_score e).

(** Two entries of one player on one map of one week. *)
Definition same_player_on_map (e e' : Entry) : Prop :=
  week_label e = week_label e' /\ map_index e = map_index e'
  /\ player e = player e'.

(** The raw records of a week in the order they are read, each with the
    index of its map. *)
Fixpoint week_items (extract_token : string -> result string)
    (fetch_highscores_items : string -> Z -> Z -> result (list json))
    (page_size max_players : Z) (map_idx : Z) (urls : list string)
  : list (Z * json) :=
  match urls with
  | [] => []
  | url :: urls' =>
      match (token <- extract_token url ;;
             fetch_highscores_items token page_size max_players) with
      | Ok items => map (pair map_idx) items
      | Raise _ => []
      end
      ++ week_items extract_token fetch_highscores_items page_size
           max_players (map_idx + 1) urls'
  end.

(** The last entry of a group that belongs to player [p]. *)
Definition last_entry (p : string) (g : list Entry) : option Entry :=
  fold_left (fun acc e => if String.eqb p (player e) then Some e else acc)
            g None.

(** Players are unique within every (week, map) group of a per-map table. *)
Definition players_unique_per_map (rows : list OverviewRow) : Prop :=
  NoDup (map (fun r => (week_label (row_entry r), map_index (row_entry r),
                        player (row_entry r))) rows).

(** A leaderboard on which player A appears twice. *)
Definition scored_item (nick : string) (points : Z) (seconds : Z) : json :=
  JDict [("game",
          JDict [("player",
                  JDict [("nick", JStr nick);
                         ("totalScore",
                          JDict [("amount", JInt points)]);
                         ("totalTime", JInt seconds)])])].

Definition dup_items : list json :=
  [scored_item "A" 5000 60; scored_item "B" 4000 90; scored_item "A" 3000 70].

Definition dup_entries : list Entry :=
  match build_week_entries
          (fun _ => None) (fun _ => Raise "offline")
          (fun _ _ _ => Ok dup_items)
          (fun _ => Ok ["https://www.geoguessr.com/challenge/abc"])
          (fun _ => Ok "abc") (fun _ => "")
          {| label := "W1"; urls_path := "urls_week1.txt"; deadline := None |}
          200 5000 false
  with
  | Ok (entries, _) => entries
  | Raise _ => []
  end.

Definition dup_overview : list OverviewRow :=
  match compute_week_tables dup_entries "average" with
  | Ok (df_overview, _, _) => df_overview
  | Raise _ => []
  end.

Definition dup_weekly : list WeeklyRow :=
  match compute_week_tables dup_entries "average" with
  | Ok (_, df_weekly, _) => df_weekly
  | Raise _ => []
  end.

(** ** Notions used in further properties of the ranker *)

(** [p] is ahead of [q]: more points, or the same points in less time. *)
Definition ahead (pts time : dict string Z) (p q : string) : Prop :=
  tuple_ltb (player_sort_key pts time p) (player_sort_key pts time q) = true.

(** [p] and [q] tie exactly. *)
Definition tied (pts time : dict string Z) (p q : string) : Prop :=
  group_key pts time p = group_key pts time q.

(** ** Notions used in further properties of the played-at extraction *)

(** The timestamps a payload offers: the values under candidate keys, in any
    of its dictionaries, that parse. *)
Definition offers (to_datetime_epoch : string -> option Z) (payload : json)
    (ep : Z) : Prop :=
  exists d k v,
    In d (_iter_all_dicts payload) /\ In (k, v) d
    /\ is_candidate_key k = true
    /\ _try_parse_epoch to_datetime_epoch v = Some ep.

(** ** Notions used in further properties of the normalizer *)

(** The entry names the week and the map of the week it was read from. *)
Definition from_map (extract_token : string -> result string)
    (week : WeekSpec) (urls : list string) (e : Entry) : Prop :=
  week_label e = label week
  /\ 1 <= map_index e <= py_len urls
  /\ nth_error urls (Z.to_nat (map_index e - 1)) = Some (map_url e)
  /\ extract_token (map_url e) = Ok (map_token e)
  /\ map_name e <> "".

Definition unresolved (e : Entry) : Prop := played_at_epoch e = None.

(** The entries shown in the per-map table of report [wb] that pass the
    deadline policy of the run. *)
Definition kept_entries (deadlines : dict string Z) (args : Args)
    (wb : Workbook) : list Entry :=
  filter (entry_kept deadlines (arg_keep_missing_time args))
         (map row_entry (wb_overview wb)).

(** ** Notions used in further properties of the week specifications *)

(** [c in s] for a character *)
Fixpoint has_char (c : ascii) (s : string) : bool :=
  match s with
  | EmptyString => false
  | String c' s' => Ascii.eqb c' c || has_char c s'
  end.

(** The week specification read off the fields of [LABEL|URLS_FILE|...],
    with [p] the path made of the second field. *)
Definition week_of_fields (lbl p : string) (rest : list string)
  : WeekSpec :=
  {| label := str_strip lbl;
     urls_path := p;
     deadline := match rest with
                 | d :: _ =>
                     if String.eqb (str_strip d) "" then None
                     else Some (str_strip d)
                 | [] => None
                 end |}.

(** The second field of a week argument, trimmed: the text the path is made
    of. *)
Definition url_field (s : string) : string :=
  nth 1 (map str_strip (str_split "|" s)) "".

(** A week argument the parser can read: it holds a bar, and the path of
    its second field can be made. *)
Definition week_arg_ok (path_expanduser : string -> result string)
    (s : string) : Prop :=
  has_char "|" s = true /\ exists p, path_expanduser (url_field s) = Ok p.

(** ** Notions used in further properties of the tables *)

(** A value of the range of 64-bit integers. *)
Definition is_int64 (z : Z) : Prop := - 2 ^ 63 <= z < 2 ^ 63.

(** The points of a list of entries add up without leaving the range of
    64-bit integers, in whatever order and grouping they are added. *)
Definition fits_int64 (l : list Z) : Prop := py_sum (map Z.abs l) < 2 ^ 63.

(** Two integers a column of 64-bit integers cannot tell apart. *)
Definition same_int64 (a b : Z) : Prop := wrap_int64 a = wrap_int64 b.

(** The points of per-map rows, added up as integers. *)
Definition plain_pts (rows : list OverviewRow) : Z :=
  py_sum (map (fun r => total_pts (row_entry r)) rows).

(** A missing value counts for nothing in a column sum. *)
Definition float_or_zero (o : option Q) : Q :=
  match o with Some x => x | None => 0%Q end.

(** ** Fetching a leaderboard page by page *)

Definition is_dict (v : json) : bool :=
  match v with JDict _ => true | _ => false end.

(** [not v or isinstance(v[0], dict)] *)
Definition items_shape_ok (v : list json) : bool :=
  match v with [] => true | x :: _ => is_dict x end.

Definition extract_items (payload : json) : result (list json) :=
  match payload with
  | JDict d =>
      match dict_get "items" d with
      | Some (JList v) =>
          if items_shape_ok v then Ok v else Raise "RuntimeError"
      | _ => Raise "RuntimeError"
      end
  | JList l => if items_shape_ok l then Ok l else Raise "RuntimeError"
  | _ => Raise "RuntimeError"
  end.

Definition highscores_url (challenge_token : string) (page_size offset : Z)
  : string :=
  String.append "https://www.geoguessr.com/api/v3/results/highscores/"
    (String.append challenge_token
       (String.append "?friends=false&limit="
          (String.append (str_of_int page_size)
             (String.append "&offset=" (str_of_int offset))))).

(** The [while True] loop of [fetch_highscores_items], on
    [(all_items, offset)].  The loop has no bound of its own: [fuel] counts
    the requests the model may still make, and [None] says it ran out. *)
Fixpoint fetch_highscores_loop (http_get_json : string -> result json)
    (fuel : nat) (challenge_token : string) (page_size max_players : Z)
    (all_items : list json) (offset : Z) : option (result (list json)) :=
  match fuel with
  | O => None
  | S fuel' =>
      match http_get_json (highscores_url challenge_token page_size offset)
      with
      | Raise e => Some (Raise e)
      | Ok payload =>
          match extract_items payload with
          | Raise e => Some (Raise e)
          | Ok [] => Some (Ok all_items)
          | Ok items =>
              if py_len items <? page_size
              then Some (Ok (all_items ++ items))
              else if max_players <=? offset + page_size
              then Some (Ok (all_items ++ items))
              else fetch_highscores_loop http_get_json fuel' challenge_token
                     page_size max_players (all_items ++ items)
                     (offset + page_size)
          end
      end
  end.

Definition fetch_highscores_items (http_get_json : string -> result json)
    (fuel : nat) (challenge_token : string) (page_size max_players : Z)
  : option (result (list json)) :=
  fetch_highscores_loop http_get_json fuel challenge_token page_size
    max_players [] 0.

(** The server never sends more items than the page size asked for. *)
Definition pages_respect_limit (http_get_json : string -> result json)
    (page_size : Z) : Prop :=
  forall url payload items,
    http_get_json url = Ok payload -> extract_items payload = Ok items ->
    py_len items <= page_size.

(** The server answers every request with at least one item. *)
Definition pages_never_empty (http_get_json : string -> result json) : Prop :=
  forall url, exists payload x items,
    http_get_json url = Ok payload
    /\ extract_items payload = Ok (x :: items).

(** A server that answers every request with the same two items. *)
Definition two_item_server (_ : string) : result json :=
  Ok (JDict [("items", JList [demo_item; demo_item])]).

(** ** Notions used in further properties of the standings *)

(** The score [(q1, z1)] is strictly better than [(q2, z2)]: more Borda
    points, or as many and more raw points. *)
Definition score_before (q1 : Q) (z1 : Z) (q2 : Q) (z2 : Z) : Prop :=
  (q2 < q1)%Q \/ ((q1 == q2)%Q /\ z2 < z1).

(** The score [(q1, z1)] is at least as good as [(q2, z2)]. *)
Definition score_not_worse (q1 : Q) (z1 : Z) (q2 : Q) (z2 : Z) : Prop :=
  (q2 < q1)%Q \/ ((q1 == q2)%Q /\ z2 <= z1).

(** [y] does not come before [x] in the order of a sort. *)
Definition not_before {A T : Type} (ltb : T -> T -> bool) (key : A -> T)
    (x y : A) : Prop :=
  ltb (key y) (key x) = false.

(** Row [a] may stand above row [b] in the season table. *)
Definition total_order (a b : TotalRow) : Prop :=
  score_not_worse (total_borda a) (t_total_pts a)
                  (total_borda b) (t_total_pts b).

(** Row [a] may stand above row [b] in the weekly table: an earlier week, or
    the same week and a score at least as good. *)
Definition weekly_order (a b : WeeklyRow) : Prop :=
  String.ltb (w_week a) (w_week b) = true
  \/ (w_week a = w_week b
      /\ score_not_worse (weekly_borda a) (weekly_total_pts a)
                         (weekly_borda b) (weekly_total_pts b)).

(** The per-map rows of player [p] in week [w]. *)
Definition player_week_rows (df_overview : list OverviewRow) (p w : string)
  : list OverviewRow :=
  filter (fun r => key_eqb (player (row_entry r), week_label (row_entry r))
                           (p, w))
         df_overview.

(** Borda and raw points of player [p] in week [w]. *)
Definition week_borda (df_overview : list OverviewRow) (p w : string) : Q :=
  sum_floats (map borda_points (player_week_rows df_overview p w)).

Definition week_pts (df_overview : list OverviewRow) (p w : string) : Z :=
  int64_sum (map (fun r => total_pts (row_entry r))
                 (player_week_rows df_overview p w)).

(** A comparison by a string field first and by [sc] among equal strings:
    the shape of the sort keys of the weekly and of the best-week sort. *)
Definition lex_ltb {A : Type} (f : A -> string) (sc : A -> A -> bool)
    (a b : A) : bool :=
  String.ltb (f a) (f b) || (String.eqb (f a) (f b) && sc a b).

(** The comparison of two weekly rows by score alone. *)
Definition weekly_score_ltb (a b : WeeklyRow) : bool :=
  Qltb (weekly_borda b) (weekly_borda a)
  || (Qeq_bool (weekly_borda a) (weekly_borda b)
      && (weekly_total_pts b <? weekly_total_pts a)).

(** The entries of the (week, map) group of entry [e]. *)
Definition map_group (entries : list Entry) (e : Entry) : list Entry :=
  filter (fun e' => key_eqb (week_label e', map_index e')
                            (week_label e, map_index e))
         entries.

(** The ranker's result for the (week, map) group of entry [e]. *)
Definition group_ranking (entries : list Entry) (tie_mode : string)
    (e : Entry) : result (dict string Q * dict string Q) :=
  compute_rank_and_borda_with_time
    (player_dict total_pts (map_group entries e))
    (player_dict total_time (map_group entries e)) tie_mode.
(** * Properties *)

(** ** Dictionaries *)

Section DictFacts.
Context {K V : Type} `{EqKey K}.

Lemma key_eqb_refl (k : K) : key_eqb k k = true.
Proof. now destruct (key_eqb_spec k k). Qed.

Lemma key_eqb_eq (a b : K) : key_eqb a b = true <-> a = b.
Proof. destruct (key_eqb_spec a b); split; congruence. Qed.

Lemma key_eqb_neq (a b : K) : key_eqb a b = false <-> a <> b.
Proof. destruct (key_eqb_spec a b); split; congruence. Qed.

Lemma key_eqb_sym (a b : K) : key_eqb a b = key_eqb b a.
Proof.
  destruct (key_eqb_spec a b), (key_eqb_spec b a); congruence.
Qed.

Lemma dict_get_set (k k' : K) (v : V) (d : dict K V) :
  dict_get k (dict_set k' v d) =
  if key_eqb k k' then Some v else dict_get k d.
Proof.
  induction d as [|[k0 v0] d IH]; simpl.
  - reflexivity.
  - destruct (key_eqb_spec k' k0) as [->|Hne]; simpl.
    + destruct (key_eqb k k0); reflexivity.
    + rewrite IH. destruct (key_eqb_spec k k0) as [->|]; [|reflexivity].
      destruct (key_eqb_spec k0 k'); congruence.
Qed.

Lemma dict_get_none (k : K) (d : dict K V) :
  dict_get k d = None <-> ~ In k (dict_keys d).
Proof.
  induction d as [|[k0 v0] d IH]; simpl.
  - tauto.
  - destruct (key_eqb_spec k k0) as [->|Hne].
    + split; [discriminate | intros Hn; exfalso; auto].
    + rewrite IH. split; [intros Hn [Heq|Hin]; congruence | tauto].
Qed.

Lemma dict_get_some_in (k : K) (v : V) (d : dict K V) :
  dict_get k d = Some v -> In k (dict_keys d).
Proof.
  intros Hget. destruct (in_dec (fun a b => reflect_dec _ _ (key_eqb_spec a b))
                                k (dict_keys d)) as [|Hn]; [assumption|].
  apply dict_get_none in Hn. congruence.
Qed.

Lemma dict_set_fresh (k : K) (v : V) (d : dict K V) :
  ~ In k (dict_keys d) -> dict_set k v d = d ++ [(k, v)].
Proof.
  induction d as [|[k0 v0] d IH]; simpl; intros Hn.
  - reflexivity.
  - destruct (key_eqb_spec k k0) as [->|Hne]; [exfalso; auto|].
    rewrite IH; auto.
Qed.

Lemma dict_keys_set (k : K) (v : V) (d : dict K V) :
  dict_keys (dict_set k v d) =
  if dict_mem k d then dict_keys d else dict_keys d ++ [k].
Proof.
  unfold dict_mem.
  induction d as [|[k0 v0] d IH]; simpl.
  - reflexivity.
  - destruct (key_eqb_spec k k0) as [->|Hne]; simpl; [reflexivity|].
    rewrite IH. now destruct (dict_get k d).
Qed.

Lemma dict_mem_in (k : K) (d : dict K V) :
  dict_mem k d = true <-> In k (dict_keys d).
Proof.
  unfold dict_mem. destruct (dict_get k d) eqn:Hget.
  - split; [intros _; eapply dict_get_some_in; eauto | reflexivity].
  - apply dict_get_none in Hget. split; [discriminate | tauto].
Qed.

Lemma dict_set_in (k k' : K) (v : V) (d : dict K V) :
  In k (dict_keys (dict_set k' v d)) <-> k = k' \/ In k (dict_keys d).
Proof.
  rewrite dict_keys_set. destruct (dict_mem k' d) eqn:Hm.
  - apply dict_mem_in in Hm. split; [tauto | intros [->|]; auto].
  - rewrite in_app_iff; simpl. intuition congruence.
Qed.

Lemma dict_set_wf (k : K) (v : V) (d : dict K V) :
  dict_wf d -> dict_wf (dict_set k v d).
Proof.
  unfold dict_wf. intros Hwf. rewrite dict_keys_set.
  destruct (dict_mem k d) eqn:Hm; [assumption|].
  assert (Hn : ~ In k (dict_keys d)).
  { intros Hin. apply dict_mem_in in Hin. congruence. }
  clear Hm. induction (dict_keys d) as [|k0 ks IH]; simpl.
  - constructor; [auto | constructor].
  - inversion Hwf as [|? ? Hk0 Hks]; subst. constructor.
    + rewrite in_app_iff; simpl. simpl in Hn. intuition congruence.
    + apply IH; [assumption|]. simpl in Hn. tauto.
Qed.

(** Looking a key up does not depend on the order of a well-formed
    dictionary. *)
Lemma dict_get_in (k : K) (v : V) (d : dict K V) :
  dict_wf d -> In (k, v) d -> dict_get k d = Some v.
Proof.
  unfold dict_wf. induction d as [|[k0 v0] d IH]; simpl; intros Hwf Hin.
  - contradiction.
  - inversion Hwf as [|? ? Hk0 Hd]; subst.
    destruct Hin as [[= -> ->]|Hin].
    + now rewrite key_eqb_refl.
    + destruct (key_eqb_spec k k0) as [->|Hne]; [|auto].
      exfalso. apply Hk0. unfold dict_keys.
      change k0 with (fst (k0, v)). now apply in_map.
Qed.

Lemma dict_get_perm (k : K) (d d' : dict K V) :
  dict_wf d -> Permutation d d' -> dict_get k d = dict_get k d'.
Proof.
  intros Hwf Hperm.
  assert (Hwf' : dict_wf d').
  { unfold dict_wf, dict_keys in *.
    eapply Permutation_NoDup; [|exact Hwf]. now apply Permutation_map. }
  destruct (dict_get k d) as [v|] eqn:Hget.
  - symmetry. apply dict_get_in; [assumption|].
    eapply Permutation_in; [exact Hperm|].
    clear - Hget. induction d as [|[k0 v0] d IH]; simpl in *;
      [discriminate|].
    destruct (key_eqb_spec k k0) as [->|]; [left; congruence | auto].
  - symmetry. apply dict_get_none. apply dict_get_none in Hget.
    intros Hin. apply Hget. unfold dict_keys in *.
    eapply Permutation_in; [|exact Hin].
    apply Permutation_map. now apply Permutation_sym.
Qed.
End DictFacts.

(** ** Sorting *)

Section SortedFacts.
Context {A T : Type} (ltb : T -> T -> bool) (key : A -> T).

Lemma sorted_insert_perm (x : A) (l : list A) :
  Permutation (x :: l) (sorted_insert ltb key x l).
Proof.
  induction l as [|y l IH]; simpl.
  - reflexivity.
  - destruct (ltb (key y) (key x)); [|reflexivity].
    rewrite perm_swap. now apply perm_skip.
Qed.

Lemma py_sorted_perm (l : list A) : Permutation l (py_sorted ltb key l).
Proof.
  induction l as [|x l IH]; simpl.
  - reflexivity.
  - rewrite <- sorted_insert_perm. now apply perm_skip.
Qed.

Lemma py_sorted_in (x : A) (l : list A) :
  In x (py_sorted ltb key l) <-> In x l.
Proof.
  split; apply Permutation_in;
    [apply Permutation_sym|]; apply py_sorted_perm.
Qed.

(** Order facts, for a comparison that is a strict total order on the
    keys met. *)
Hypothesis ltb_trans :
  forall a b c, ltb a b = true -> ltb b c = true -> ltb a c = true.
Hypothesis ltb_total :
  forall a b, ltb a b = true \/ a = b \/ ltb b a = true.
Hypothesis ltb_irrefl : forall a, ltb a a = false.
Hypothesis key_inj : forall x y, key x = key y -> x = y.

Let key_lt := key_lt ltb key.

Lemma sorted_insert_sorted (x : A) (l : list A) :
  ~ In x l -> StronglySorted key_lt l ->
  StronglySorted key_lt (sorted_insert ltb key x l).
Proof.
  induction l as [|y l IH]; simpl; intros Hn Hs.
  - constructor; constructor.
  - inversion Hs as [|? ? Hl Hy]; subst.
    destruct (ltb (key y) (key x)) eqn:Hyx.
    + constructor.
      * apply IH; [tauto | assumption].
      * rewrite Forall_forall in *. intros z Hz.
        apply (Permutation_in _ (Permutation_sym (sorted_insert_perm x l)))
          in Hz.
        destruct Hz as [<-|Hz]; [exact Hyx | now apply Hy].
    + assert (Hxy : key_lt x y).
      { unfold key_lt.
        destruct (ltb_total (key x) (key y)) as [|[Heq|Hlt]];
          [assumption| |congruence].
        exfalso. apply Hn. left. symmetry. now apply key_inj. }
      constructor; [assumption|].
      constructor; [assumption|].
      rewrite Forall_forall in *. intros z Hz.
      unfold key_lt in *. eapply ltb_trans; [exact Hxy|]. now apply Hy.
Qed.

Lemma py_sorted_sorted (l : list A) :
  NoDup l -> StronglySorted key_lt (py_sorted ltb key l).
Proof.
  induction l as [|x l IH]; simpl; intros Hnd.
  - constructor.
  - inversion Hnd; subst. apply sorted_insert_sorted; [|auto].
    now rewrite py_sorted_in.
Qed.

Lemma sorted_perm_eq (l l' : list A) :
  StronglySorted key_lt l -> StronglySorted key_lt l' ->
  Permutation l l' -> l = l'.
Proof.
  revert l'; induction l as [|x l IH]; intros l' Hs Hs' Hp.
  - apply Permutation_nil in Hp. now subst.
  - destruct l' as [|y l'].
    { apply Permutation_sym, Permutation_nil in Hp. discriminate. }
    inversion Hs as [|? ? Hl Hx]; inversion Hs' as [|? ? Hl' Hy]; subst.
    rewrite Forall_forall in Hx, Hy.
    assert (Hxy : x = y).
    { assert (Hx' : In x (y :: l')) by (eapply Permutation_in; eauto;
                                        now left).
      assert (Hy' : In y (x :: l)).
      { eapply Permutation_in; [apply Permutation_sym; eauto|now left]. }
      destruct Hx' as [|Hx']; [congruence|].
      destruct Hy' as [|Hy']; [congruence|].
      apply Hy in Hx'. apply Hx in Hy'. unfold key_lt in *.
      pose proof (ltb_trans _ _ _ Hx' Hy') as Hc.
      rewrite ltb_irrefl in Hc. discriminate. }
    subst y. f_equal. apply IH; auto.
    eapply Permutation_cons_inv; eauto.
Qed.

Lemma py_sorted_perm_eq (l l' : list A) :
  NoDup l -> Permutation l l' -> py_sorted ltb key l = py_sorted ltb key l'.
Proof.
  intros Hnd Hp.
  apply sorted_perm_eq.
  - now apply py_sorted_sorted.
  - apply py_sorted_sorted. eapply Permutation_NoDup; eauto.
  - rewrite <- (py_sorted_perm l), <- (py_sorted_perm l'). exact Hp.
Qed.
End SortedFacts.

(** ** The order on pairs *)

Lemma tuple_ltb_trans (a b c : Z * Z) :
  tuple_ltb a b = true -> tuple_ltb b c = true -> tuple_ltb a c = true.
Proof.
  unfold tuple_ltb.
  rewrite !orb_true_iff, !andb_true_iff, !Z.ltb_lt, !Z.eqb_eq. lia.
Qed.

Lemma tuple_ltb_total (a b : Z * Z) :
  tuple_ltb a b = true \/ a = b \/ tuple_ltb b a = true.
Proof.
  unfold tuple_ltb. destruct a as [a1 a2], b as [b1 b2]; simpl.
  rewrite !orb_true_iff, !andb_true_iff, !Z.ltb_lt, !Z.eqb_eq.
  destruct (Z.lt_trichotomy a1 b1) as [|[->|]]; auto.
  destruct (Z.lt_trichotomy a2 b2) as [|[->|]]; auto.
Qed.

Lemma tuple_ltb_irrefl (a : Z * Z) : tuple_ltb a a = false.
Proof.
  unfold tuple_ltb. rewrite !Z.ltb_irrefl, andb_false_r. reflexivity.
Qed.

Lemma group_sort_key_inj (x y : Z * Z) :
  group_sort_key x = group_sort_key y -> x = y.
Proof.
  destruct x, y; unfold group_sort_key; simpl. intros [= ? ?].
  f_equal; lia.
Qed.

(** ** The ranking loop *)

Lemma set_all_get (p : string) (names : list string) (v : Q)
    (rb : dict string Q) :
  dict_get p (set_all names v rb) =
  if existsb (String.eqb p) names then Some v else dict_get p rb.
Proof.
  unfold set_all. revert rb; induction names as [|n names IH]; intros rb;
    simpl.
  - reflexivity.
  - rewrite IH, dict_get_set. simpl.
    destruct (existsb (String.eqb p) names); [now rewrite orb_true_r|].
    now rewrite orb_false_r.
Qed.

Lemma existsb_eqb_in (p : string) (names : list string) :
  existsb (String.eqb p) names = true <-> In p names.
Proof.
  rewrite existsb_exists. split.
  - intros (x & Hx & Heq). apply String.eqb_eq in Heq. now subst.
  - intros Hin. exists p. split; [assumption | apply String.eqb_refl].
Qed.

Lemma py_len_one {A : Type} (l : list A) :
  py_len l = 1 -> exists x, l = [x].
Proof.
  unfold py_len. destruct l as [|x [|y l]]; simpl; try lia.
  intros _. now exists x.
Qed.

Lemma rank_step_eq (tie_mode : string) (groups : dict (Z * Z) (list string))
    (rb : dict string Q) (cr : Z) (key : Z * Z) :
  rank_step tie_mode groups (rb, cr) key =
  (v <- group_value tie_mode cr (group_size groups key) ;;
   Ok (set_all (names_of groups key) v rb,
       cr + advance tie_mode (group_size groups key))).
Proof.
  unfold rank_step, group_value, advance, group_size.
  destruct (Z.eqb_spec (py_len (names_of groups key)) 1) as [Hone|Hne].
  - apply py_len_one in Hone as [x ->]. reflexivity.
  - reflexivity.
Qed.

Lemma rank_loop_cons tie_mode groups (key : Z * Z) (l : list (Z * Z)) rb cr :
  rank_loop tie_mode groups (key :: l) (rb, cr) =
  (v <- group_value tie_mode cr (group_size groups key) ;;
   rank_loop tie_mode groups l
     (set_all (names_of groups key) v rb,
      cr + advance tie_mode (group_size groups key))).
Proof.
  cbn [rank_loop]. rewrite rank_step_eq.
  now destruct (group_value tie_mode cr (group_size groups key)).
Qed.

Lemma rank_loop_app tie_mode groups (l1 l2 : list (Z * Z)) st :
  rank_loop tie_mode groups (l1 ++ l2) st =
  (st1 <- rank_loop tie_mode groups l1 st ;; rank_loop tie_mode groups l2 st1).
Proof.
  revert st; induction l1 as [|key l1 IH]; intros st; simpl.
  - reflexivity.
  - destruct (rank_step tie_mode groups st key); simpl; auto.
Qed.

Lemma rank_loop_rank tie_mode groups (l : list (Z * Z)) :
  forall rb cr rb' cr',
    rank_loop tie_mode groups l (rb, cr) = Ok (rb', cr') ->
    cr' = cr + advance_all tie_mode groups l.
Proof.
  induction l as [|key l IH]; intros rb cr rb' cr' Hrun.
  - simpl in *. injection Hrun as _ <-. lia.
  - rewrite rank_loop_cons in Hrun. cbn [advance_all fold_right].
    fold (advance_all tie_mode groups l).
    destruct (group_value tie_mode cr (group_size groups key)) as [v|];
      [simpl in Hrun|discriminate].
    apply IH in Hrun. lia.
Qed.

Lemma rank_loop_untouched tie_mode groups (p : string) (l : list (Z * Z)) :
  forall rb cr rb' cr',
    rank_loop tie_mode groups l (rb, cr) = Ok (rb', cr') ->
    (forall key, In key l -> ~ In p (names_of groups key)) ->
    dict_get p rb' = dict_get p rb.
Proof.
  induction l as [|key l IH]; intros rb cr rb' cr' Hrun Hout.
  - simpl in *. now injection Hrun as <- _.
  - rewrite rank_loop_cons in Hrun.
    destruct (group_value tie_mode cr (group_size groups key)) as [v|];
      [simpl in Hrun|discriminate].
    apply IH in Hrun; [|intros; apply Hout; now right].
    rewrite Hrun, set_all_get.
    destruct (existsb (String.eqb p) (names_of groups key)) eqn:Hex;
      [|reflexivity].
    apply existsb_eqb_in in Hex. exfalso. eapply Hout; [now left|eauto].
Qed.

(** The rank of a player is decided by the one group that holds the player:
    the groups before it fix the position, the groups after it leave the
    entry alone. *)
Lemma rank_loop_lookup tie_mode groups (p : string)
    (pre post : list (Z * Z)) (key : Z * Z) rb cr rb' cr' :
  rank_loop tie_mode groups (pre ++ key :: post) (rb, cr) = Ok (rb', cr') ->
  In p (names_of groups key) ->
  (forall key', In key' post -> ~ In p (names_of groups key')) ->
  exists v,
    group_value tie_mode (cr + advance_all tie_mode groups pre)
                (group_size groups key) = Ok v
    /\ dict_get p rb' = Some v.
Proof.
  intros Hrun Hin Hpost.
  rewrite rank_loop_app in Hrun.
  destruct (rank_loop tie_mode groups pre (rb, cr)) as [[rb1 cr1]|] eqn:Hpre;
    [cbn [bind] in Hrun|discriminate].
  apply rank_loop_rank in Hpre. subst cr1.
  rewrite rank_loop_cons in Hrun.
  destruct (group_value _ _ _) as [v|]; [simpl in Hrun|discriminate].
  exists v. split; [reflexivity|].
  apply rank_loop_untouched with (p := p) in Hrun; [|assumption].
  rewrite Hrun, set_all_get.
  apply existsb_eqb_in in Hin. now rewrite Hin.
Qed.

Lemma group_value_total tie_mode cr k :
  valid_tie_mode tie_mode -> exists v, group_value tie_mode cr k = Ok v.
Proof.
  unfold group_value, tie_value.
  destruct (k =? 1); [eauto|].
  intros [-> | [-> | [-> | ->]]]; simpl; eauto.
Qed.

Lemma rank_loop_total tie_mode groups (l : list (Z * Z)) :
  valid_tie_mode tie_mode ->
  forall st, exists st', rank_loop tie_mode groups l st = Ok st'.
Proof.
  intros Hm. induction l as [|key l IH]; intros [rb cr].
  - simpl. eauto.
  - rewrite rank_loop_cons.
    destruct (group_value_total tie_mode cr (group_size groups key) Hm)
      as [v ->].
    cbn [bind]. apply IH.
Qed.

(** ** Occupied positions *)

Lemma py_range_nat (a : Z) (n : nat) :
  py_range a (a + Z.of_nat n) = map (fun i => a + Z.of_nat i) (seq 0 n).
Proof.
  unfold py_range. replace (a + Z.of_nat n - a) with (Z.of_nat n) by lia.
  now rewrite Nat2Z.id.
Qed.

Lemma py_range_len (a : Z) (n : nat) :
  py_len (py_range a (a + Z.of_nat n)) = Z.of_nat n.
Proof.
  rewrite py_range_nat. unfold py_len. now rewrite length_map, length_seq.
Qed.

Lemma py_range_in (a : Z) (n : nat) (x : Z) :
  In x (py_range a (a + Z.of_nat n)) <-> a <= x < a + Z.of_nat n.
Proof.
  rewrite py_range_nat, in_map_iff. split.
  - intros (i & <- & Hi). apply in_seq in Hi. lia.
  - intros Hx. exists (Z.to_nat (x - a)). split; [lia|].
    apply in_seq. lia.
Qed.

Lemma py_sum_range (a : Z) (n : nat) :
  2 * py_sum (py_range a (a + Z.of_nat n))
  = Z.of_nat n * (2 * a + Z.of_nat n - 1).
Proof.
  rewrite py_range_nat. unfold py_sum.
  induction n as [|n IH].
  - reflexivity.
  - rewrite seq_S, map_app, fold_left_app. cbn [map fold_left Nat.add].
    rewrite Z.mul_add_distr_l, IH, Nat2Z.inj_succ. nia.
Qed.

Lemma fold_min_least (l : list Z) (x a : Z) :
  (forall y, In y (x :: l) -> a <= y) -> In a (x :: l) ->
  fold_left Z.min l x = a.
Proof.
  revert x; induction l as [|y l IH]; intros x Hlow Hin; simpl.
  - destruct Hin as [|[]]; auto.
  - apply IH.
    + intros z [<-|Hz]; [|apply Hlow; simpl; auto].
      apply Z.min_glb; apply Hlow; simpl; auto.
    + pose proof (Hlow x (or_introl eq_refl)).
      pose proof (Hlow y (or_intror (or_introl eq_refl))).
      destruct Hin as [->|[->|Hin]]; [left; lia | left; lia | now right].
Qed.

Lemma fold_max_greatest (l : list Z) (x b : Z) :
  (forall y, In y (x :: l) -> y <= b) -> In b (x :: l) ->
  fold_left Z.max l x = b.
Proof.
  revert x; induction l as [|y l IH]; intros x Hup Hin; simpl.
  - destruct Hin as [|[]]; auto.
  - apply IH.
    + intros z [<-|Hz]; [|apply Hup; simpl; auto].
      apply Z.max_lub; apply Hup; simpl; auto.
    + pose proof (Hup x (or_introl eq_refl)).
      pose proof (Hup y (or_intror (or_introl eq_refl))).
      destruct Hin as [->|[->|Hin]]; [left; lia | left; lia | now right].
Qed.

Lemma py_min_range (a : Z) (n : nat) :
  (0 < n)%nat -> py_min (py_range a (a + Z.of_nat n)) = a.
Proof.
  intros Hn.
  pose proof (py_range_in a n) as Hin.
  destruct (py_range a (a + Z.of_nat n)) as [|x l] eqn:Hr.
  - exfalso. apply (proj2 (Hin a)). lia.
  - simpl. apply fold_min_least.
    + intros y Hy. apply Hin in Hy. lia.
    + apply Hin. lia.
Qed.

Lemma py_max_range (a : Z) (n : nat) :
  (0 < n)%nat -> py_max (py_range a (a + Z.of_nat n)) = a + Z.of_nat n - 1.
Proof.
  intros Hn.
  pose proof (py_range_in a n) as Hin.
  destruct (py_range a (a + Z.of_nat n)) as [|x l] eqn:Hr.
  - exfalso. apply (proj2 (Hin a)). lia.
  - simpl. apply fold_max_greatest.
    + intros y Hy. apply Hin in Hy. lia.
    + apply Hin. lia.
Qed.

(** The rank of a group in each tie mode. *)
Lemma tie_value_average cr occupied :
  tie_value "average" cr occupied
  = Ok (float_of_int (py_sum occupied) / float_of_int (py_len occupied))%Q.
Proof. reflexivity. Qed.

Lemma tie_value_dense cr occupied :
  tie_value "dense" cr occupied = Ok (float_of_int cr).
Proof. reflexivity. Qed.

Lemma tie_value_min cr occupied :
  tie_value "min" cr occupied = Ok (float_of_int (py_min occupied)).
Proof. reflexivity. Qed.

Lemma tie_value_max cr occupied :
  tie_value "max" cr occupied = Ok (float_of_int (py_max occupied)).
Proof. reflexivity. Qed.

Lemma group_value_min (cr : Z) (n : nat) :
  (0 < n)%nat ->
  group_value "min" cr (Z.of_nat n) = Ok (float_of_int cr).
Proof.
  intros Hn. unfold group_value. rewrite tie_value_min.
  destruct (Z.of_nat n =? 1); [reflexivity|].
  now rewrite py_min_range.
Qed.

Lemma group_value_max (cr : Z) (n : nat) :
  (0 < n)%nat ->
  group_value "max" cr (Z.of_nat n)
  = Ok (float_of_int (cr + Z.of_nat n - 1)).
Proof.
  intros Hn. unfold group_value. rewrite tie_value_max.
  destruct (Z.eqb_spec (Z.of_nat n) 1) as [->|].
  - do 2 f_equal. lia.
  - now rewrite py_max_range.
Qed.

Lemma group_value_dense (cr k : Z) :
  group_value "dense" cr k = Ok (float_of_int cr).
Proof.
  unfold group_value. rewrite tie_value_dense. now destruct (k =? 1).
Qed.

Lemma group_value_average (cr : Z) (n : nat) :
  (0 < n)%nat ->
  exists v,
    group_value "average" cr (Z.of_nat n) = Ok v
    /\ (v * float_of_int (2 * Z.of_nat n)
        == float_of_int (Z.of_nat n * (2 * cr + Z.of_nat n - 1)))%Q.
Proof.
  intros Hn. unfold group_value. rewrite tie_value_average.
  destruct (Z.eqb_spec (Z.of_nat n) 1) as [Hone|Hne].
  - eexists. split; [reflexivity|]. rewrite Hone. unfold float_of_int.
    rewrite <- inject_Z_mult.
    replace (cr * (2 * 1)) with (1 * (2 * cr + 1 - 1)) by lia. reflexivity.
  - eexists. split; [reflexivity|].
    rewrite py_range_len. unfold float_of_int.
    rewrite <- py_sum_range.
    rewrite !inject_Z_mult. field.
    intros Hz. unfold Qeq in Hz; simpl in Hz. lia.
Qed.

(** ** The tie groups *)

Section GroupFacts.
Variables (pts time : dict string Z).

Let gkey := group_key pts time.
Let add := groups_add pts time.

Lemma names_of_groups_add g p key :
  names_of (add g p) key =
  names_of g key ++ (if key_eqb (gkey p) key then [p] else []).
Proof.
  unfold add, groups_add, names_of. fold gkey.
  destruct (dict_get (gkey p) g) as [names|] eqn:Hg;
    rewrite dict_get_set, (key_eqb_sym key (gkey p));
    destruct (key_eqb_spec (gkey p) key) as [<-|Hne].
  - now rewrite Hg.
  - now rewrite app_nil_r.
  - now rewrite Hg.
  - now rewrite app_nil_r.
Qed.

Lemma names_of_groups ps :
  forall g key,
    names_of (fold_left add ps g) key =
    names_of g key ++ filter (fun p => key_eqb (gkey p) key) ps.
Proof.
  induction ps as [|p ps IH]; intros g key; cbn [fold_left filter].
  - now rewrite app_nil_r.
  - rewrite IH, names_of_groups_add, <- app_assoc.
    destruct (key_eqb (gkey p) key); reflexivity.
Qed.

Lemma groups_add_keys g p key :
  In key (dict_keys (add g p)) <-> key = gkey p \/ In key (dict_keys g).
Proof.
  unfold add, groups_add. fold gkey.
  destruct (dict_get (gkey p) g); apply dict_set_in.
Qed.

Lemma groups_keys ps :
  forall g key,
    In key (dict_keys (fold_left add ps g)) <->
    In key (dict_keys g) \/ exists p, In p ps /\ gkey p = key.
Proof.
  induction ps as [|p ps IH]; intros g key; simpl.
  - split; [auto | intros [|(p & [] & _)]; assumption].
  - rewrite IH, groups_add_keys. split.
    + intros [[->|Hin]|(q & Hq & Hk)]; eauto.
    + intros [Hin|(q & [<-|Hq] & Hk)]; eauto.
Qed.

Lemma groups_wf ps :
  forall g, dict_wf g -> dict_wf (fold_left add ps g).
Proof.
  induction ps as [|p ps IH]; intros g Hwf; simpl; [assumption|].
  apply IH. unfold add, groups_add.
  destruct (dict_get _ g); now apply dict_set_wf.
Qed.

Let players := players_sorted pts time.
Let groups := rank_groups pts time.
Let keys := keys_sorted pts time.

Lemma players_sorted_perm : Permutation (dict_keys pts) players.
Proof. apply py_sorted_perm. Qed.

Lemma rank_groups_names key :
  names_of groups key = filter (fun p => key_eqb (gkey p) key) players.
Proof. unfold groups, rank_groups. now rewrite names_of_groups. Qed.

Lemma rank_groups_member p key :
  In p (names_of groups key) <-> In p (dict_keys pts) /\ gkey p = key.
Proof.
  rewrite rank_groups_names, filter_In, key_eqb_eq.
  unfold players, players_sorted. now rewrite py_sorted_in.
Qed.

Lemma keys_sorted_in key :
  In key keys <-> exists p, In p (dict_keys pts) /\ gkey p = key.
Proof.
  unfold keys, keys_sorted. rewrite py_sorted_in.
  pose proof (groups_keys (players_sorted pts time) [] key) as Hg.
  unfold rank_groups. unfold add in Hg. rewrite Hg. clear Hg. simpl.
  split.
  - intros [[]|(p & Hp & Hk)]. exists p. split; [|assumption].
    now apply py_sorted_in in Hp.
  - intros (p & Hp & Hk). right. exists p. split; [|assumption].
    now apply py_sorted_in.
Qed.

Lemma keys_sorted_nodup : NoDup keys.
Proof.
  unfold keys, keys_sorted.
  eapply Permutation_NoDup; [apply py_sorted_perm|].
  apply groups_wf. constructor.
Qed.

(** Every player of the dictionary sits in exactly one group of the list
    the loop runs over. *)
Lemma keys_sorted_split p :
  In p (dict_keys pts) ->
  exists pre post,
    keys = pre ++ gkey p :: post
    /\ ~ In (gkey p) pre /\ ~ In (gkey p) post
    /\ In p (names_of groups (gkey p))
    /\ (forall key, In key pre \/ In key post ->
                    ~ In p (names_of groups key)).
Proof.
  intros Hp.
  assert (Hk : In (gkey p) keys) by (apply keys_sorted_in; eauto).
  apply in_split in Hk as (pre & post & Hsplit).
  pose proof keys_sorted_nodup as Hnd. rewrite Hsplit in Hnd.
  apply NoDup_remove_2 in Hnd. rewrite in_app_iff in Hnd.
  exists pre, post. repeat split; try tauto.
  - apply rank_groups_member. auto.
  - intros key Hkey Hmem. apply rank_groups_member in Hmem as [_ <-].
    tauto.
Qed.
End GroupFacts.

(** ** Ranks of one player *)

Lemma compute_nonempty pts time tie_mode :
  pts <> [] ->
  compute_rank_and_borda_with_time pts time tie_mode =
  (st <- rank_loop tie_mode (rank_groups pts time) (keys_sorted pts time)
                   ([], 1) ;;
   Ok (fst st, borda_of pts (fst st))).
Proof. destruct pts; [congruence | reflexivity]. Qed.

Lemma advance_all_positional tie_mode groups l :
  String.eqb tie_mode "dense" = false ->
  advance_all tie_mode groups l = advance_all "min" groups l.
Proof.
  intros Hm. induction l as [|key l IH]; simpl; [reflexivity|].
  rewrite IH. unfold advance. rewrite Hm. reflexivity.
Qed.

Lemma advance_all_dense groups l :
  advance_all "dense" groups l = py_len l.
Proof.
  unfold py_len. induction l as [|key l IH]; [reflexivity|].
  cbn [advance_all fold_right List.length]. fold (advance_all "dense" groups l).
  rewrite IH. unfold advance. simpl String.eqb.
  destruct (group_size groups key =? 1); lia.
Qed.

(** The rank a valid tie mode gives to a player of the dictionary. *)
Lemma rank_of_player pts time tie_mode p pre post :
  valid_tie_mode tie_mode ->
  keys_sorted pts time = pre ++ group_key pts time p :: post ->
  In p (names_of (rank_groups pts time) (group_key pts time p)) ->
  (forall key, In key pre \/ In key post ->
               ~ In p (names_of (rank_groups pts time) key)) ->
  exists v,
    group_value tie_mode
      (1 + advance_all tie_mode (rank_groups pts time) pre)
      (group_size (rank_groups pts time) (group_key pts time p)) = Ok v
    /\ rank_of (compute_rank_and_borda_with_time pts time tie_mode) p = Some v.
Proof.
  intros Hm Hsplit Hin Hout.
  assert (Hne : pts <> []).
  { intros ->. destruct pre; discriminate Hsplit. }
  rewrite (compute_nonempty _ _ _ Hne).
  destruct (rank_loop_total tie_mode (rank_groups pts time)
              (keys_sorted pts time) Hm ([], 1)) as [[rb cr] Hrun].
  rewrite Hrun. cbn [bind rank_of fst].
  rewrite Hsplit in Hrun.
  eapply rank_loop_lookup in Hrun as (v & Hv & Hget); eauto.
Qed.

(** C6.  For a player of the map, the rank under [min] is at most the rank
    under [average], which is at most the rank under [max]. *)
Theorem rank_min_le_average_le_max
    (pts time : dict string Z) (p : string)
    (Hp : In p (dict_keys pts)) :
  exists rmin ravg rmax,
    rank_of (compute_rank_and_borda_with_time pts time "min") p = Some rmin
    /\ rank_of (compute_rank_and_borda_with_time pts time "average") p
       = Some ravg
    /\ rank_of (compute_rank_and_borda_with_time pts time "max") p = Some rmax
    /\ (rmin <= ravg)%Q /\ (ravg <= rmax)%Q /\ (rmin <= rmax)%Q.
Proof.
  destruct (keys_sorted_split pts time p Hp)
    as (pre & post & Hsplit & _ & _ & Hin & Hout).
  set (groups := rank_groups pts time) in *.
  set (key := group_key pts time p) in *.
  assert (Hmin : valid_tie_mode "min") by (unfold valid_tie_mode; auto).
  assert (Havg : valid_tie_mode "average") by (unfold valid_tie_mode; auto).
  assert (Hmax : valid_tie_mode "max") by (unfold valid_tie_mode; auto).
  destruct (rank_of_player pts time "min" p pre post Hmin Hsplit Hin Hout)
    as (rmin & Hvmin & Hrmin).
  destruct (rank_of_player pts time "average" p pre post Havg Hsplit Hin Hout)
    as (ravg & Hvavg & Hravg).
  destruct (rank_of_player pts time "max" p pre post Hmax Hsplit Hin Hout)
    as (rmax & Hvmax & Hrmax).
  fold groups key in Hvmin, Hvavg, Hvmax.
  rewrite (advance_all_positional "average") in Hvavg by reflexivity.
  rewrite (advance_all_positional "max") in Hvmax by reflexivity.
  set (cr := 1 + advance_all "min" groups pre) in *.
  unfold group_size, py_len in *.
  set (n := List.length (names_of groups key)) in *.
  assert (Hn : (0 < n)%nat).
  { unfold n. destruct (names_of groups key); [contradiction|simpl; lia]. }
  rewrite (group_value_min cr n Hn) in Hvmin.
  rewrite (group_value_max cr n Hn) in Hvmax.
  destruct (group_value_average cr n Hn) as (v & Hv & Heq).
  rewrite Hv in Hvavg.
  injection Hvmin as <-. injection Hvmax as <-. injection Hvavg as <-.
  exists (float_of_int cr), v, (float_of_int (cr + Z.of_nat n - 1)).
  repeat split; try assumption.
  - (* cr <= v *)
    apply Qmult_le_r with (z := float_of_int (2 * Z.of_nat n)).
    + unfold float_of_int. change 0%Q with (inject_Z 0).
      rewrite <- Zlt_Qlt. lia.
    + rewrite Heq. unfold float_of_int. rewrite <- inject_Z_mult.
      rewrite <- Zle_Qle. nia.
  - apply Qmult_le_r with (z := float_of_int (2 * Z.of_nat n)).
    + unfold float_of_int. change 0%Q with (inject_Z 0).
      rewrite <- Zlt_Qlt. lia.
    + rewrite Heq. unfold float_of_int. rewrite <- inject_Z_mult.
      rewrite <- Zle_Qle. nia.
  - unfold float_of_int. rewrite <- Zle_Qle. lia.
Qed.

Lemma rank_min_le_average_le_max_witness :
  exists rmin ravg rmax,
    rank_of (scenario "min") "A" = Some rmin
    /\ rank_of (scenario "average") "A" = Some ravg
    /\ rank_of (scenario "max") "A" = Some rmax
    /\ (rmin <= ravg)%Q /\ (ravg <= rmax)%Q /\ (rmin <= rmax)%Q.
Proof.
  apply (rank_min_le_average_le_max scenario_pts scenario_time "A").
  simpl. auto.
Defined.

(** ** Dense ranks *)

Section UniqueFacts.
Context {K : Type} `{EqKey K}.

Lemma unique_in (x : K) (l : list K) : In x (unique l) <-> In x l.
Proof.
  induction l as [|y l IH]; simpl; [tauto|].
  rewrite filter_In, IH, negb_true_iff, key_eqb_neq.
  destruct (key_eqb_spec x y) as [->|Hne]; [tauto|].
  split; [tauto | intros [Heq|Hin]; [congruence | tauto]].
Qed.

Lemma unique_nodup (l : list K) : NoDup (unique l).
Proof.
  induction l as [|y l IH]; simpl; constructor.
  - rewrite filter_In, negb_true_iff, key_eqb_neq. tauto.
  - now apply NoDup_filter.
Qed.
End UniqueFacts.

(** The loop runs over as many groups as there are distinct
    (points, time) pairs. *)
Lemma keys_sorted_count pts time :
  List.length (keys_sorted pts time)
  = List.length (unique (map (group_key pts time) (dict_keys pts))).
Proof.
  apply Permutation_length, NoDup_Permutation.
  - apply keys_sorted_nodup.
  - apply unique_nodup.
  - intros key. rewrite keys_sorted_in, unique_in, in_map_iff.
    split; intros (p & ? & ?); exists p; tauto.
Qed.

Lemma dense_loop_values groups (l : list (Z * Z)) :
  forall rb cr rb' cr',
    rank_loop "dense" groups l (rb, cr) = Ok (rb', cr') ->
    forall p q,
      dict_get p rb' = Some q ->
      dict_get p rb = Some q
      \/ exists i, cr <= i < cr + py_len l /\ q = float_of_int i.
Proof.
  induction l as [|key l IH]; intros rb cr rb' cr' Hrun p q Hget.
  - simpl in Hrun. injection Hrun as <- _. now left.
  - rewrite rank_loop_cons, group_value_dense in Hrun. cbn [bind] in Hrun.
    assert (Hadv : advance "dense" (group_size groups key) = 1).
    { unfold advance. now destruct (group_size groups key =? 1). }
    rewrite Hadv in Hrun.
    assert (Hlen : py_len (key :: l) = 1 + py_len l).
    { unfold py_len. cbn [List.length]. lia. }
    destruct (IH _ _ _ _ Hrun p q Hget) as [Hold | (i & Hi & ->)].
    + rewrite set_all_get in Hold.
      destruct (existsb (String.eqb p) (names_of groups key)).
      * right. exists cr. injection Hold as <-.
        split; [rewrite Hlen; unfold py_len; lia | reflexivity].
      * now left.
    + right. exists i. split; [rewrite Hlen; lia | reflexivity].
Qed.

(** C7.  Under [dense] the rank values that occur are exactly 1, ..., G,
    with G the number of distinct (points, time) pairs. *)
Theorem dense_ranks_have_no_gaps (pts time : dict string Z) :
  exists rb bo,
    compute_rank_and_borda_with_time pts time "dense" = Ok (rb, bo)
    /\ forall q : Q,
         (exists p, dict_get p rb = Some q)
         <-> (exists i : Z,
                1 <= i <= py_len (unique (map (group_key pts time)
                                              (dict_keys pts)))
                /\ q = float_of_int i).
Proof.
  destruct pts as [|[p0 v0] pts'] eqn:Hpts.
  { exists [], []. split; [reflexivity|]. intros q. split.
    - intros (p & Hp). discriminate Hp.
    - intros (i & Hi & _). unfold py_len in Hi. simpl in Hi. lia. }
  rewrite <- Hpts.
  assert (Hne : pts <> []) by (rewrite Hpts; discriminate).
  clear Hpts p0 v0 pts'.
  rewrite (compute_nonempty _ _ _ Hne).
  assert (Hm : valid_tie_mode "dense") by (unfold valid_tie_mode; auto).
  destruct (rank_loop_total "dense" (rank_groups pts time)
              (keys_sorted pts time) Hm ([], 1)) as [[rb cr] Hrun].
  rewrite Hrun. cbn [bind fst].
  exists rb, (borda_of pts rb). split; [reflexivity|].
  unfold py_len. rewrite <- keys_sorted_count.
  intros q. split.
  - intros (p & Hget).
    destruct (dense_loop_values _ _ _ _ _ _ Hrun p q Hget)
      as [Hold | (i & Hi & ->)]; [discriminate|].
    exists i. split; [unfold py_len in Hi; lia | reflexivity].
  - intros (i & Hi & ->).
    destruct (nth_split (keys_sorted pts time) (0, 0)
                        (n := Z.to_nat (i - 1)) ltac:(lia))
      as (pre & post & Hsplit & Hlen).
    set (key := nth (Z.to_nat (i - 1)) (keys_sorted pts time) (0, 0)) in *.
    assert (Hkey : In key (keys_sorted pts time)).
    { rewrite Hsplit, in_app_iff. right. now left. }
    apply keys_sorted_in in Hkey as (p & Hp & Hk).
    exists p.
    pose proof (keys_sorted_nodup pts time) as Hnd.
    rewrite Hsplit in Hrun, Hnd.
    apply NoDup_remove_2 in Hnd. rewrite in_app_iff in Hnd.
    eapply rank_loop_lookup with (p := p) in Hrun as (v & Hv & Hget).
    + rewrite group_value_dense, advance_all_dense in Hv.
      replace i with (1 + py_len pre) by (unfold py_len; lia).
      congruence.
    + apply rank_groups_member. auto.
    + intros key' Hkey' Hmem. apply rank_groups_member in Hmem as [_ Heq].
      rewrite Hk in Heq. subst key'. tauto.
Qed.

(** ** Independence of the input order *)

Lemma filter_perm {A : Type} (f : A -> bool) (l l' : list A) :
  Permutation l l' -> Permutation (filter f l) (filter f l').
Proof.
  induction 1 as [|x l l' Hp IH|x y l|l1 l2 l3 H1 IH1 H2 IH2]; simpl.
  - constructor.
  - destruct (f x); [now constructor | assumption].
  - destruct (f x), (f y); try reflexivity. apply perm_swap.
  - now transitivity (filter f l2).
Qed.

Lemma rank_loop_sim tie_mode groups groups' (l : list (Z * Z)) :
  (forall key, group_size groups key = group_size groups' key) ->
  (forall key p, In p (names_of groups key) <-> In p (names_of groups' key)) ->
  forall rb rb' cr,
    (forall p, dict_get p rb = dict_get p rb') ->
    same_state (rank_loop tie_mode groups l (rb, cr))
               (rank_loop tie_mode groups' l (rb', cr)).
Proof.
  intros Hsize Hmem.
  induction l as [|key l IH]; intros rb rb' cr Hrb.
  - simpl. auto.
  - rewrite !rank_loop_cons, <- Hsize.
    destruct (group_value tie_mode cr (group_size groups key)) as [v|];
      cbn [bind]; [|exact I].
    apply IH. intros p. rewrite !set_all_get, Hrb.
    assert (Hex : existsb (String.eqb p) (names_of groups key)
                  = existsb (String.eqb p) (names_of groups' key)).
    { apply eq_true_iff_eq. rewrite !existsb_eqb_in. apply Hmem. }
    now rewrite Hex.
Qed.

Lemma borda_of_get pts (rb : dict string Q) (p : string) :
  dict_get p (borda_of pts rb) =
  option_map (fun r => (float_of_int (py_len pts) - r + 1)%Q) (dict_get p rb).
Proof.
  unfold borda_of. induction rb as [|[k v] rb IH]; simpl; [reflexivity|].
  destruct (String.eqb p k); [reflexivity | exact IH].
Qed.

Section Reordering.
Variables (pts pts' time time' : dict string Z).
Hypothesis pts_wf : dict_wf pts.
Hypothesis time_wf : dict_wf time.
Hypothesis pts_perm : Permutation pts pts'.
Hypothesis time_perm : Permutation time time'.

Lemma group_key_perm p : group_key pts' time' p = group_key pts time p.
Proof.
  unfold group_key, pts_of, time_of.
  now rewrite <- (dict_get_perm p pts pts'), <- (dict_get_perm p time time').
Qed.

Lemma dict_keys_perm : Permutation (dict_keys pts) (dict_keys pts').
Proof. unfold dict_keys. now apply Permutation_map. Qed.

Lemma names_perm key :
  Permutation (names_of (rank_groups pts time) key)
              (names_of (rank_groups pts' time') key).
Proof.
  rewrite !rank_groups_names.
  rewrite (filter_ext (fun p => key_eqb (group_key pts' time' p) key)
                      (fun p => key_eqb (group_key pts time p) key))
    by (intros p; now rewrite group_key_perm).
  apply filter_perm.
  rewrite <- (players_sorted_perm pts time).
  rewrite <- (players_sorted_perm pts' time').
  exact dict_keys_perm.
Qed.

Lemma keys_sorted_perm : keys_sorted pts' time' = keys_sorted pts time.
Proof.
  unfold keys_sorted. symmetry.
  apply py_sorted_perm_eq.
  - apply tuple_ltb_trans.
  - apply tuple_ltb_total.
  - apply tuple_ltb_irrefl.
  - apply group_sort_key_inj.
  - apply groups_wf. constructor.
  - apply NoDup_Permutation.
    + apply groups_wf. constructor.
    + apply groups_wf. constructor.
    + intros key.
      pose proof (keys_sorted_in pts time key) as H1.
      pose proof (keys_sorted_in pts' time' key) as H2.
      unfold keys_sorted in H1, H2. rewrite py_sorted_in in H1, H2.
      rewrite H1, H2.
      split; intros (p & Hp & Hk); exists p.
      * rewrite group_key_perm. split; [|assumption].
        eapply Permutation_in; [apply dict_keys_perm | assumption].
      * rewrite group_key_perm in Hk. split; [|assumption].
        eapply Permutation_in;
          [apply Permutation_sym, dict_keys_perm | assumption].
Qed.

Lemma compute_perm tie_mode :
  same_assignment (compute_rank_and_borda_with_time pts time tie_mode)
                  (compute_rank_and_borda_with_time pts' time' tie_mode).
Proof.
  assert (Hcases : pts = [] \/ pts <> []).
  { clear. destruct pts; [now left | right; discriminate]. }
  destruct Hcases as [Hnil | Hne].
  { assert (Hnil' : pts' = []).
    { apply Permutation_nil. rewrite <- Hnil. exact pts_perm. }
    rewrite Hnil, Hnil'. simpl. auto. }
  assert (Hne' : pts' <> []).
  { intros Hnil'. apply Hne. apply Permutation_nil.
    rewrite <- Hnil'. apply Permutation_sym, pts_perm. }
  rewrite (compute_nonempty _ _ _ Hne), (compute_nonempty _ _ _ Hne').
  rewrite keys_sorted_perm.
  pose proof (rank_loop_sim tie_mode (rank_groups pts time)
                (rank_groups pts' time') (keys_sorted pts time)) as Hsim.
  specialize (Hsim
    (fun key => f_equal Z.of_nat (Permutation_length (names_perm key)))).
  specialize (Hsim (fun key p =>
    conj (Permutation_in p (names_perm key))
         (Permutation_in p (Permutation_sym (names_perm key))))).
  specialize (Hsim [] [] 1 (fun p => eq_refl)).
  destruct (rank_loop tie_mode (rank_groups pts time) _ _) as [[rb cr]|];
    destruct (rank_loop tie_mode (rank_groups pts' time') _ _)
      as [[rb' cr']|]; simpl in Hsim; try contradiction; cbn [bind fst].
  - destruct Hsim as [_ Hget]. intros p. split; [apply Hget|].
    rewrite !borda_of_get, Hget.
    unfold py_len. now rewrite (Permutation_length pts_perm).
  - exact I.
Qed.
End Reordering.

(** C4.  Reordering the entries of a map with distinct players changes no
    player's rank and no player's Borda value, in any tie mode; for the four
    accepted tie modes the ranker returns a result. *)
Theorem rank_and_borda_order_independent
    (pts pts' time time' : dict string Z) (tie_mode : string)
    (Hpts : dict_wf pts) (Htime : dict_wf time)
    (Hperm_pts : Permutation pts pts') (Hperm_time : Permutation time time') :
  same_assignment (compute_rank_and_borda_with_time pts time tie_mode)
                  (compute_rank_and_borda_with_time pts' time' tie_mode)
  /\ (valid_tie_mode tie_mode ->
      exists r, compute_rank_and_borda_with_time pts time tie_mode = Ok r).
Proof.
  split.
  - now apply compute_perm.
  - intros Hm. destruct pts as [|e pts0] eqn:Heq.
    + eexists. reflexivity.
    + rewrite <- Heq. rewrite compute_nonempty by (rewrite Heq; discriminate).
      destruct (rank_loop_total tie_mode (rank_groups pts time)
                  (keys_sorted pts time) Hm ([], 1)) as [st ->].
      eexists. reflexivity.
Qed.

Lemma rank_and_borda_order_independent_witness :
  same_assignment
    (compute_rank_and_borda_with_time scenario_pts scenario_time "average")
    (compute_rank_and_borda_with_time
       [("C", 4000); ("A", 5000); ("B", 5000)]
       [("B", 60); ("C", 90); ("A", 60)] "average").
Proof.
  apply (rank_and_borda_order_independent
           scenario_pts [("C", 4000); ("A", 5000); ("B", 5000)]
           scenario_time [("B", 60); ("C", 90); ("A", 60)] "average").
  - repeat constructor; simpl; intuition discriminate.
  - repeat constructor; simpl; intuition discriminate.
  - unfold scenario_pts.
    apply Permutation_sym, (Permutation_cons_app [_; _] []). reflexivity.
  - unfold scenario_time.
    apply perm_trans with [("B", 60); ("A", 60); ("C", 90)];
      [apply perm_swap | apply perm_skip, perm_swap].
Defined.

(** ** Conservation of the Borda total *)

Lemma qsum_acc (l : list Q) (a : Q) :
  (fold_left Qplus l a == a + qsum l)%Q.
Proof.
  unfold qsum. revert a; induction l as [|x l IH]; intros a; simpl.
  - ring.
  - rewrite (IH (a + x)%Q), (IH (0 + x)%Q). ring.
Qed.

Lemma qsum_cons (x : Q) (l : list Q) : (qsum (x :: l) == x + qsum l)%Q.
Proof. unfold qsum at 1. simpl. rewrite qsum_acc. ring. Qed.

Lemma qsum_app (l l' : list Q) : (qsum (l ++ l') == qsum l + qsum l')%Q.
Proof.
  unfold qsum at 1. rewrite fold_left_app, qsum_acc. reflexivity.
Qed.

Lemma qsum_const {A : Type} (v : Q) (l : list A) :
  (qsum (map (fun _ => v) l) == float_of_int (py_len l) * v)%Q.
Proof.
  unfold py_len, float_of_int. induction l as [|x l IH].
  - simpl. unfold qsum; simpl. ring.
  - cbn [map List.length]. rewrite qsum_cons, IH, Nat2Z.inj_succ.
    unfold Z.succ. rewrite inject_Z_plus. ring.
Qed.

Lemma qsum_borda (N : Q) (l : list Q) :
  (qsum (map (fun r => N - r + 1) l)
   == float_of_int (py_len l) * (N + 1) - qsum l)%Q.
Proof.
  unfold py_len, float_of_int. induction l as [|x l IH].
  - simpl. unfold qsum; simpl. ring.
  - cbn [map List.length]. rewrite !qsum_cons, IH, Nat2Z.inj_succ.
    unfold Z.succ. rewrite inject_Z_plus. ring.
Qed.

Lemma set_all_fresh (names : list string) (v : Q) (rb : dict string Q) :
  NoDup names -> (forall n, In n names -> ~ In n (dict_keys rb)) ->
  set_all names v rb = rb ++ map (fun n => (n, v)) names.
Proof.
  unfold set_all. revert rb; induction names as [|n names IH];
    intros rb Hnd Hfresh; simpl.
  - now rewrite app_nil_r.
  - inversion Hnd as [|? ? Hn Hnd']; subst.
    rewrite dict_set_fresh by (apply Hfresh; now left).
    rewrite IH; [now rewrite <- app_assoc | assumption |].
    intros m Hm. unfold dict_keys. rewrite map_app, in_app_iff. simpl.
    intros [Hin | [<- | []]]; [|contradiction].
    apply (Hfresh m); [now right | exact Hin].
Qed.

(** A group that is ranked by position: its members share the mean of the
    positions it occupies, and the loop moves past all of them. *)
Lemma group_value_fair tie_mode (cr : Z) (n : nat) :
  tie_mode = "average" \/ Z.of_nat n = 1 -> (0 < n)%nat ->
  exists v,
    group_value tie_mode cr (Z.of_nat n) = Ok v
    /\ (v * (2 * inject_Z (Z.of_nat n))
        == inject_Z (Z.of_nat n)
           * (2 * inject_Z cr + inject_Z (Z.of_nat n) - 1))%Q
    /\ advance tie_mode (Z.of_nat n) = Z.of_nat n.
Proof.
  intros Hfair Hn.
  assert (Hpush : forall v,
            (v * float_of_int (2 * Z.of_nat n)
             == float_of_int (Z.of_nat n * (2 * cr + Z.of_nat n - 1)))%Q ->
            (v * (2 * inject_Z (Z.of_nat n))
             == inject_Z (Z.of_nat n)
                * (2 * inject_Z cr + inject_Z (Z.of_nat n) - 1))%Q).
  { intros v Hv. unfold float_of_int in Hv.
    replace (2 * cr + Z.of_nat n - 1) with (2 * cr + Z.of_nat n + - (1))
      in Hv by lia.
    rewrite !inject_Z_mult, !inject_Z_plus, inject_Z_mult, inject_Z_opp in Hv.
    rewrite Hv. change (inject_Z 2) with 2%Q. change (inject_Z 1) with 1%Q.
    ring. }
  destruct (Z.eqb_spec (Z.of_nat n) 1) as [Hone | Hmany].
  - exists (float_of_int cr). unfold group_value, advance.
    rewrite Hone. simpl Z.eqb. cbv iota.
    split; [reflexivity|]. split; [|reflexivity].
    unfold float_of_int. change (inject_Z 1) with 1%Q. ring.
  - destruct Hfair as [-> | Hone]; [|contradiction].
    destruct (group_value_average cr n Hn) as (v & Hv & Heq).
    exists v. split; [exact Hv|]. split; [now apply Hpush|].
    unfold advance. destruct (Z.eqb_spec (Z.of_nat n) 1); [lia|reflexivity].
Qed.

Section Conservation.
Variable tie_mode : string.
Variable groups : dict (Z * Z) (list string).
Hypothesis names_nodup : forall key, NoDup (names_of groups key).
Hypothesis names_disjoint :
  forall key key' p,
    In p (names_of groups key) -> In p (names_of groups key') -> key = key'.

Lemma rank_loop_sum (l : list (Z * Z)) :
  NoDup l ->
  (forall key, In key l ->
               (tie_mode = "average" \/ group_size groups key = 1)
               /\ names_of groups key <> []) ->
  forall rb cr rb' cr',
    rank_loop tie_mode groups l (rb, cr) = Ok (rb', cr') ->
    (forall key p, In key l -> In p (names_of groups key) ->
                   ~ In p (dict_keys rb)) ->
    (2 * qsum (dict_values rb')
     == 2 * qsum (dict_values rb)
        + (inject_Z cr' - inject_Z cr)
          * (inject_Z cr + inject_Z cr' - 1))%Q
    /\ py_len rb' = py_len rb + (cr' - cr).
Proof.
  induction l as [|key l IH]; intros Hnd Hfair rb cr rb' cr' Hrun Hfresh.
  - simpl in Hrun. injection Hrun as <- <-. split; [ring | lia].
  - inversion Hnd as [|? ? Hkey Hnd']; subst.
    rewrite rank_loop_cons in Hrun.
    destruct (Hfair key (or_introl eq_refl)) as [Hmode Hnonempty].
    unfold group_size, py_len in Hmode, Hrun.
    set (names := names_of groups key) in *.
    assert (Hn : (0 < List.length names)%nat).
    { destruct names; [congruence | simpl; lia]. }
    destruct (group_value_fair tie_mode cr (List.length names) Hmode Hn)
      as (v & Hv & Heq & Hadv).
    rewrite Hv, Hadv in Hrun. cbn [bind] in Hrun.
    rewrite set_all_fresh in Hrun;
      [|apply names_nodup | intros n Hin; apply (Hfresh key); auto;
                            now left].
    apply IH in Hrun; [|assumption|intros; apply Hfair; now right|].
    + destruct Hrun as [Hsum Hlen]. split.
      * rewrite Hsum. unfold dict_values. rewrite map_app, map_map.
        cbn [snd]. rewrite qsum_app, qsum_const, inject_Z_plus.
        unfold float_of_int, py_len.
        set (K := inject_Z (Z.of_nat (List.length names))) in *.
        set (C := inject_Z cr) in *. set (C' := inject_Z cr') in *.
        set (S := qsum (map snd rb)) in *.
        setoid_replace
          (2 * (S + K * v) + (C' - (C + K)) * (C + K + C' - 1))%Q
          with (2 * S + (C' - C) * (C + C' - 1)
                + (v * (2 * K) - K * (2 * C + K - 1)))%Q by ring.
        rewrite Heq. ring.
      * rewrite Hlen. unfold py_len. rewrite length_app, length_map. lia.
    + intros key' p Hkey' Hp. unfold dict_keys.
      rewrite map_app, in_app_iff, map_map. cbn [fst]. rewrite map_id.
      intros [Hin | Hin].
      * apply (Hfresh key' p); [now right | exact Hp | exact Hin].
      * assert (key' = key) by (eapply names_disjoint; eauto).
        subst key'. contradiction.
Qed.

Lemma rank_loop_wf (l : list (Z * Z)) :
  forall rb cr rb' cr',
    rank_loop tie_mode groups l (rb, cr) = Ok (rb', cr') ->
    dict_wf rb -> dict_wf rb'.
Proof.
  induction l as [|key l IH]; intros rb cr rb' cr' Hrun Hwf.
  - simpl in Hrun. now injection Hrun as <- _.
  - rewrite rank_loop_cons in Hrun.
    destruct (group_value _ _ _) as [v|]; [cbn [bind] in Hrun|discriminate].
    eapply IH; [exact Hrun|].
    unfold set_all. clear Hrun.
    revert rb Hwf. induction (names_of groups key) as [|n ns IHn];
      intros rb Hwf; simpl; [assumption|].
    apply IHn. now apply dict_set_wf.
Qed.

Lemma rank_loop_keys (l : list (Z * Z)) :
  forall rb cr rb' cr' p,
    rank_loop tie_mode groups l (rb, cr) = Ok (rb', cr') ->
    In p (dict_keys rb') ->
    In p (dict_keys rb) \/ exists key, In key l /\ In p (names_of groups key).
Proof.
  induction l as [|key l IH]; intros rb cr rb' cr' p Hrun Hin.
  - simpl in Hrun. injection Hrun as <- _. now left.
  - rewrite rank_loop_cons in Hrun.
    destruct (group_value _ _ _) as [v|]; [cbn [bind] in Hrun|discriminate].
    destruct (IH _ _ _ _ p Hrun Hin) as [Hold | (key' & Hk & Hp)].
    + apply dict_mem_in in Hold. unfold dict_mem in Hold.
      rewrite set_all_get in Hold.
      destruct (existsb (String.eqb p) (names_of groups key)) eqn:Hex.
      * right. exists key. split; [now left|].
        now apply existsb_eqb_in.
      * left. apply dict_mem_in. exact Hold.
    + right. exists key'. split; [now right | exact Hp].
Qed.
End Conservation.

Lemma rank_loop_total_fair tie_mode groups (l : list (Z * Z)) :
  (forall key, In key l ->
               (tie_mode = "average" \/ group_size groups key = 1)
               /\ names_of groups key <> []) ->
  forall st, exists st', rank_loop tie_mode groups l st = Ok st'.
Proof.
  induction l as [|key l IH]; intros Hfair [rb cr].
  - simpl. eauto.
  - rewrite rank_loop_cons.
    destruct (Hfair key (or_introl eq_refl)) as [Hmode Hnonempty].
    unfold group_size, py_len in *.
    assert (Hn : (0 < List.length (names_of groups key))%nat).
    { destruct (names_of groups key); [congruence | simpl; lia]. }
    destruct (group_value_fair tie_mode cr _ Hmode Hn) as (v & -> & _).
    cbn [bind]. apply IH. intros; apply Hfair; now right.
Qed.

Lemma filter_none {A : Type} (f : A -> bool) (l : list A) :
  (forall y, In y l -> f y = false) -> filter f l = [].
Proof.
  induction l as [|a l IH]; intros Hf; simpl; [reflexivity|].
  rewrite (Hf a) by now left. apply IH. intros; apply Hf; now right.
Qed.

Lemma filter_single {A B : Type} `{EqKey B} (f : A -> B) (l : list A) :
  NoDup (map f l) ->
  forall x, In x l ->
            List.length (filter (fun y => key_eqb (f y) (f x)) l) = 1%nat.
Proof.
  induction l as [|a l IH]; intros Hnd x Hin; [contradiction|].
  cbn [map] in Hnd. inversion Hnd as [|? ? Ha Hnd']; subst.
  cbn [filter].
  destruct (key_eqb_spec (f a) (f x)) as [Heq | Hne].
  - assert (Hnone : filter (fun y => key_eqb (f y) (f x)) l = []).
    { apply filter_none. intros y Hy. apply key_eqb_neq.
      intros Hfy. apply Ha. rewrite Heq, <- Hfy. now apply in_map. }
    now rewrite Hnone.
  - destruct Hin as [-> | Hin]; [congruence|]. now apply IH.
Qed.

Section ConservationOfRanker.
Variables (pts time : dict string Z).
Variable tie_mode : string.
Hypothesis pts_wf : dict_wf pts.
Hypothesis fair : tie_mode = "average" \/ no_exact_tie pts time.

Let groups := rank_groups pts time.
Let keys := keys_sorted pts time.

Lemma players_sorted_nodup : NoDup (players_sorted pts time).
Proof.
  eapply Permutation_NoDup; [apply players_sorted_perm | exact pts_wf].
Qed.

Lemma rank_groups_nodup key : NoDup (names_of groups key).
Proof.
  unfold groups. rewrite rank_groups_names.
  apply NoDup_filter, players_sorted_nodup.
Qed.

Lemma rank_groups_disjoint key key' p :
  In p (names_of groups key) -> In p (names_of groups key') -> key = key'.
Proof.
  unfold groups. rewrite !rank_groups_member.
intros [_ Hk] [_ Hk']. congruence.
Qed.

Lemma keys_sorted_fair key :
  In key keys ->
  (tie_mode = "average" \/ group_size groups key = 1)
  /\ names_of groups key <> [].
Proof.
  intros Hkey. apply keys_sorted_in in Hkey as (p & Hp & Hk).
  assert (Hmem : In p (names_of groups key)).
  { apply rank_groups_member. auto. }
  split; [|intros Hnil; rewrite Hnil in Hmem; contradiction].
  destruct fair as [Havg | Hno]; [now left | right].
  unfold group_size, py_len, groups. rewrite rank_groups_names, <- Hk.
  rewrite (filter_single (group_key pts time)); [reflexivity| |].
  - eapply Permutation_NoDup; [|exact Hno].
    apply Permutation_map, players_sorted_perm.
  - apply (Permutation_in _ (players_sorted_perm pts time)), Hp.
Qed.

Lemma rank_loop_covers rb cr :
  rank_loop tie_mode groups keys ([], 1) = Ok (rb, cr) ->
  py_len rb = py_len pts.
Proof.
  intros Hrun. unfold py_len. f_equal.
  rewrite <- (length_map fst rb), <- (length_map fst pts).
  apply Permutation_length, NoDup_Permutation.
  - eapply (rank_loop_wf tie_mode groups); [exact Hrun | constructor].
  - exact pts_wf.
  - intros p. split.
    + intros Hin.
      destruct (rank_loop_keys tie_mode groups _ _ _ _ _ p Hrun Hin)
        as [[] | (key & _ & Hmem)].
      now apply rank_groups_member in Hmem.
    + intros Hp.
      destruct (keys_sorted_split pts time p Hp)
        as (pre & post & Hsplit & _ & _ & Hmem & Hout).
      fold keys in Hsplit. rewrite Hsplit in Hrun.
      eapply rank_loop_lookup with (p := p) in Hrun
        as (v & _ & Hget); [|exact Hmem|intros; apply Hout; now right].
      eapply dict_get_some_in; eauto.
Qed.
End ConservationOfRanker.

(** C1, as specified: under [min] the three-player scenario has Borda values
    3, 3, 1, whose sum is 7 and not 3 * 4 / 2. *)
Lemma borda_sum_min_counterexample :
  ~ (forall tie_mode, valid_tie_mode tie_mode ->
       borda_conserved scenario_pts (scenario tie_mode)).
Proof.
  intros Hall.
  specialize (Hall "min" (or_intror (or_intror (or_introl eq_refl)))).
  vm_compute in Hall. discriminate Hall.
Qed.

(** C1, amended: for a map with distinct players the Borda values returned
    by the ranker sum to N * (N + 1) / 2, N the number of players, under the
    tie mode [average] for every tie structure, and under every tie mode
    when no two players share both points and time. *)
Theorem borda_sum_conserved
    (pts time : dict string Z) (tie_mode : string)
    (Hwf : dict_wf pts)
    (Hfair : tie_mode = "average" \/ no_exact_tie pts time) :
  borda_conserved pts (compute_rank_and_borda_with_time pts time tie_mode).
Proof.
  assert (Hcases : pts = [] \/ pts <> []).
  { destruct pts; [now left | right; discriminate]. }
  destruct Hcases as [Hnil | Hne].
  { rewrite Hnil. reflexivity. }
  rewrite (compute_nonempty _ _ _ Hne).
  set (groups := rank_groups pts time).
  set (keys := keys_sorted pts time).
  pose proof (keys_sorted_fair pts time tie_mode Hfair) as Hkeys.
  destruct (rank_loop_total_fair tie_mode groups keys Hkeys ([], 1))
    as [[rb cr] Hrun].
  rewrite Hrun. cbn [bind fst borda_conserved].
  pose proof (rank_loop_covers pts time tie_mode Hwf rb cr Hrun) as Hcover.
  apply (rank_loop_sum tie_mode groups (rank_groups_nodup pts time Hwf)
           (rank_groups_disjoint pts time) keys (keys_sorted_nodup pts time)
           Hkeys) in Hrun as [Hsum Hlen];
    [|intros key p _ _ []].
  assert (Hcr : cr = py_len pts + 1).
  { rewrite Hcover in Hlen. unfold py_len in Hlen at 2. simpl in Hlen. lia. }
  unfold borda_of, dict_values. rewrite map_map. cbn [snd].
  rewrite <- (map_map snd (fun r => (float_of_int (py_len pts) - r + 1)%Q)).
  rewrite qsum_borda.
  replace (py_len (map snd rb)) with (py_len pts)
    by (rewrite <- Hcover; unfold py_len; now rewrite length_map).
  unfold borda_total.
  rewrite Hcr, inject_Z_plus in Hsum.
  unfold dict_values, qsum at 2 in Hsum. simpl fold_left in Hsum.
  unfold float_of_int.
  set (N := inject_Z (py_len pts)) in *.
  set (S := qsum (map snd rb)) in *.
  change (inject_Z 1) with 1%Q in Hsum.
  setoid_replace (N * (N + 1) - S)%Q
    with (N * (N + 1) - (2 * S) / 2)%Q by field.
  rewrite Hsum. field.
Qed.

Lemma borda_sum_conserved_witness :
  borda_conserved scenario_pts (scenario "average").
Proof.
  apply (borda_sum_conserved scenario_pts scenario_time "average").
  - repeat constructor; simpl; intuition discriminate.
  - now left.
Defined.

(** ** The deadline filter *)

Lemma filter_step_app deadlines keep out e :
  filter_step deadlines keep out e =
  out ++ (if entry_kept deadlines keep e then [e] else []).
Proof.
  unfold entry_kept, filter_step.
  destruct (dict_get (week_label e) deadlines) as [dl|]; simpl; auto.
  destruct (played_at_epoch e) as [t|].
  - destruct (t <=? dl); simpl; auto using app_nil_r.
  - destruct keep; simpl; auto using app_nil_r.
Qed.

Lemma filter_loop_app deadlines keep entries out :
  fold_left (filter_step deadlines keep) entries out =
  out ++ filter (entry_kept deadlines keep) entries.
Proof.
  revert out; induction entries as [|e entries IH]; intros out; simpl.
  - now rewrite app_nil_r.
  - rewrite IH, filter_step_app.
    destruct (entry_kept deadlines keep e); simpl.
    + now rewrite <- app_assoc.
    + now rewrite app_nil_r.
Qed.

Lemma filter_entries_is_filter entries deadlines keep :
  filter_entries_by_deadlines entries deadlines keep =
  filter (entry_kept deadlines keep) entries.
Proof. unfold filter_entries_by_deadlines. now rewrite filter_loop_app. Qed.

(** C5.  An entry of the input whose week has no deadline is kept; with a
    deadline and no played-at time it is kept iff [keep_missing_time]; with a
    deadline and a played-at time it is kept iff the time is at most the
    deadline. *)
Theorem filter_entries_by_deadlines_policy
    (entries : list Entry) (deadlines : dict string Z) (keep : bool)
    (e : Entry) (Hin : In e entries) :
  let out := filter_entries_by_deadlines entries deadlines keep in
  (dict_get (week_label e) deadlines = None -> In e out)
  /\ (forall dl, dict_get (week_label e) deadlines = Some dl ->
        played_at_epoch e = None -> (In e out <-> keep = true))
  /\ (forall dl t, dict_get (week_label e) deadlines = Some dl ->
        played_at_epoch e = Some t -> (In e out <-> t <= dl)).
Proof.
  cbv zeta. rewrite filter_entries_is_filter.
  split; [|split].
  - intros Hd. apply filter_In. split; [exact Hin|].
    unfold entry_kept, filter_step. now rewrite Hd.
  - intros dl Hd Hplayed. split.
    + intros Hk. apply filter_In in Hk as [_ Hk].
      unfold entry_kept, filter_step in Hk. rewrite Hd, Hplayed in Hk.
      now destruct keep.
    + intros ->. apply filter_In. split; [exact Hin|].
      unfold entry_kept, filter_step. now rewrite Hd, Hplayed.
  - intros dl t Hd Hplayed. split.
    + intros Hk. apply filter_In in Hk as [_ Hk].
      unfold entry_kept, filter_step in Hk. rewrite Hd, Hplayed in Hk.
      destruct (Z.leb_spec t dl); [lia | discriminate].
    + intros Hle. apply filter_In. split; [exact Hin|].
      unfold entry_kept, filter_step. rewrite Hd, Hplayed.
      destruct (Z.leb_spec t dl); [reflexivity | lia].
Qed.

Lemma filter_entries_by_deadlines_policy_witness :
  In (sample_entry "W1" "A" (Some 100))
     (filter_entries_by_deadlines
        [sample_entry "W1" "B" (Some 101); sample_entry "W1" "A" (Some 100)]
        [("W1", 100)] false)
  <-> 100 <= 100.
Proof.
  apply (filter_entries_by_deadlines_policy
           [sample_entry "W1" "B" (Some 101); sample_entry "W1" "A" (Some 100)]
           [("W1", 100)] false (sample_entry "W1" "A" (Some 100))).
  - simpl; auto.
  - reflexivity.
  - reflexivity.
Defined.

(** ** The three-player scenario *)

(** C2, as specified: the values under [dense] (Borda 2 for A and B, Borda 1
    for C) are not the ones the ranker returns. *)
Lemma scenario_as_specified_fails :
  ~ (scenario_row "average" "A" (3 # 2) (5 # 2)
     /\ scenario_row "average" "B" (3 # 2) (5 # 2)
     /\ scenario_row "average" "C" 3 1
     /\ scenario_row "min" "A" 1 3
     /\ scenario_row "min" "B" 1 3
     /\ scenario_row "min" "C" 3 1
     /\ scenario_row "dense" "A" 1 2
     /\ scenario_row "dense" "B" 1 2
     /\ scenario_row "dense" "C" 2 1).
Proof.
  intros (_ & _ & _ & _ & _ & _ & [_ HA] & _).
  vm_compute in HA. discriminate HA.
Qed.

(** C2, amended: under [average] A and B get rank 1.5 and Borda 2.5, C rank 3
    and Borda 1; under [min] A and B get rank 1 and Borda 3, C rank 3 and
    Borda 1; under [dense] A and B get rank 1 and Borda 3, C rank 2 and
    Borda 2 (the Borda value is N - rank + 1 with N = 3 in every mode). *)
Theorem scenario_ranks_and_borda :
  scenario_row "average" "A" (3 # 2) (5 # 2)
  /\ scenario_row "average" "B" (3 # 2) (5 # 2)
  /\ scenario_row "average" "C" 3 1
  /\ scenario_row "min" "A" 1 3
  /\ scenario_row "min" "B" 1 3
  /\ scenario_row "min" "C" 3 1
  /\ scenario_row "dense" "A" 1 3
  /\ scenario_row "dense" "B" 1 3
  /\ scenario_row "dense" "C" 2 2.
Proof. repeat split; vm_compute; reflexivity. Qed.

(** ** Played-at extraction *)

Lemma epoch_of_int_small (x : Z) : x <= 1000000000 -> epoch_of_int x = None.
Proof.
  intros Hx. unfold epoch_of_int.
  destruct (Z.ltb_spec 10000000000 x); [lia|].
  destruct (Z.ltb_spec 1000000000 x); [lia|reflexivity].
Qed.

Lemma epoch_of_int_some (x ep : Z) :
  epoch_of_int x = Some ep ->
  (ep = x /\ 1000000000 < ep <= 10000000000)
  \/ (ep = x / 1000 /\ 10000000000 < x /\ 10000000 <= ep).
Proof.
  unfold epoch_of_int.
  destruct (Z.ltb_spec 10000000000 x) as [Hms|Hms].
  - intros [= <-]. right. repeat split; [exact Hms|].
    apply Z.div_le_lower_bound; lia.
  - destruct (Z.ltb_spec 1000000000 x) as [Hs|Hs]; [|discriminate].
    intros [= <-]. left. lia.
Qed.

Lemma int_of_float_le (q : Q) (b : Z) :
  0 <= b -> (q <= inject_Z b)%Q -> int_of_float q <= b.
Proof.
  destruct q as [n d]. unfold Qle, int_of_float; simpl.
  intros Hb Hle.
  destruct (Z.le_gt_cases 0 n) as [Hn|Hn].
  - rewrite Z.quot_div_nonneg by lia.
    apply Z.div_le_upper_bound; lia.
  - pose proof (Z.quot_opp_l n (Z.pos d) ltac:(lia)) as Hopp.
    assert (0 <= Z.quot (- n) (Z.pos d)) by (apply Z.quot_pos; lia).
    lia.
Qed.

Section PlayedAtFacts.
Variable to_datetime_epoch : string -> option Z.

Lemma try_parse_epoch_number_small (v : json) (q : Q) :
  json_number v = Some q -> (q <= 1000000000)%Q ->
  _try_parse_epoch to_datetime_epoch v = None.
Proof.
  intros Hnum Hle.
  destruct v; simpl in Hnum; try discriminate; injection Hnum as <-; simpl.
  - apply epoch_of_int_small.
    unfold Qle in Hle; simpl in Hle. lia.
  - apply epoch_of_int_small.
    apply int_of_float_le; [lia | exact Hle].
Qed.

Lemma try_parse_epoch_number_some (v : json) (q : Q) (ep : Z) :
  json_number v = Some q ->
  _try_parse_epoch to_datetime_epoch v = Some ep ->
  numeric_reading q ep.
Proof.
  intros Hnum Hparse. unfold numeric_reading.
  split.
  - apply Qnot_le_lt. intros Hle.
    now rewrite (try_parse_epoch_number_small v q Hnum Hle) in Hparse.
  - destruct v; simpl in Hnum; try discriminate; injection Hnum as <-;
      simpl in Hparse; apply epoch_of_int_some in Hparse.
    + unfold int_of_float; simpl. now rewrite Z.quot_1_r.
    + exact Hparse.
Qed.

Lemma played_at_dict_origin (d : list (string * json)) (best : option Z)
    (ep : Z) :
  fold_left (played_at_step to_datetime_epoch) d best = Some ep ->
  best = Some ep
  \/ exists k v, In (k, v) d /\ is_candidate_key k = true
                 /\ _try_parse_epoch to_datetime_epoch v = Some ep.
Proof.
  revert best; induction d as [|[k v] d IH]; intros best Hfold; simpl in *.
  - now left.
  - apply IH in Hfold as [Hstep | (k' & v' & Hin & Hk & Hv)].
    + unfold played_at_step in Hstep; simpl in Hstep.
      destruct (is_candidate_key k) eqn:Hk; [|now left].
      destruct (_try_parse_epoch to_datetime_epoch v) as [e|] eqn:Hv;
        [|now left].
      destruct best as [b|].
      * destruct (b <? e); [|now left].
        right. exists k, v. injection Hstep as ->. auto.
      * right. exists k, v. injection Hstep as ->. auto.
    + right. exists k', v'. auto.
Qed.

Lemma played_at_origin (ds : list (list (string * json))) (best : option Z)
    (ep : Z) :
  fold_left (fun b d => fold_left (played_at_step to_datetime_epoch) d b)
            ds best = Some ep ->
  best = Some ep
  \/ exists d k v, In d ds /\ In (k, v) d /\ is_candidate_key k = true
                   /\ _try_parse_epoch to_datetime_epoch v = Some ep.
Proof.
  revert best; induction ds as [|d ds IH]; intros best Hfold; simpl in *.
  - now left.
  - apply IH in Hfold as [Hd | (d' & k & v & Hin & Hkv & Hk & Hv)].
    + apply played_at_dict_origin in Hd as [Hb | (k & v & Hkv & Hk & Hv)].
      * now left.
      * right. exists d, k, v. auto.
    + right. exists d', k, v. auto.
Qed.
End PlayedAtFacts.

(** C10, as specified: a number of milliseconds that denotes a moment
    before 2001-09-09 (here 2000-01-01, 946,684,800 seconds) is resolved,
    by the parser and by the extractor alike, to a timestamp that is at most
    1,000,000,000. *)
Lemma millisecond_timestamp_counterexample :
  ~ (forall (to_datetime_epoch : string -> option Z) (v : json) (q : Q)
            (ep : Z),
       json_number v = Some q ->
       _try_parse_epoch to_datetime_epoch v = Some ep ->
       1000000000 < ep)
  /\ ~ (forall (to_datetime_epoch : string -> option Z) (k : string)
               (v : json) (q : Q) (ep : Z),
          json_number v = Some q ->
          extract_played_at_epoch to_datetime_epoch (JDict [(k, v)])
          = Some ep ->
          1000000000 < ep).
Proof.
  split.
  - intros Hall.
    specialize (Hall (fun _ => None) (JInt 946684800000)
                     (inject_Z 946684800000) 946684800 eq_refl eq_refl).
    lia.
  - intros Hall.
    specialize (Hall (fun _ => None) "created" (JInt 946684800000)
                     (inject_Z 946684800000) 946684800 eq_refl eq_refl).
    lia.
Qed.

(** C10, amended: a numeric value of at most 1,000,000,000 is parsed to no
    timestamp.  A number that is parsed was read as seconds, and then the
    timestamp is its integer part and exceeds 1,000,000,000, or as
    milliseconds, above 10,000,000,000, and then the timestamp is its
    integer part divided by 1000, rounded down: at least 10,000,000, not
    necessarily more than 1,000,000,000.  Whatever the played-at extractor
    resolves is the parse of a value held under a candidate key, and such a
    reading when that value is a number. *)
Theorem try_parse_epoch_rejects_small_numbers
    (to_datetime_epoch : string -> option Z) (v : json) (q : Q)
    (Hnum : json_number v = Some q) :
  ((q <= 1000000000)%Q -> _try_parse_epoch to_datetime_epoch v = None)
  /\ (forall ep,
        _try_parse_epoch to_datetime_epoch v = Some ep -> numeric_reading q ep)
  /\ (forall payload ep,
        extract_played_at_epoch to_datetime_epoch payload = Some ep ->
        exists d k v',
          In d (_iter_all_dicts payload) /\ In (k, v') d
          /\ is_candidate_key k = true
          /\ _try_parse_epoch to_datetime_epoch v' = Some ep
          /\ forall q', json_number v' = Some q' -> numeric_reading q' ep).
Proof.
  split; [|split].
  - intros Hle. exact (try_parse_epoch_number_small _ v q Hnum Hle).
  - intros ep Hparse.
    exact (try_parse_epoch_number_some _ v q ep Hnum Hparse).
  - intros payload ep Hex.
    apply played_at_origin in Hex as [Hb | (d & k & v' & Hd & Hkv & Hk & Hv)];
      [discriminate|].
    exists d, k, v'.
    split; [exact Hd|]. split; [exact Hkv|]. split; [exact Hk|].
    split; [exact Hv|].
    intros q' Hq'.
    exact (try_parse_epoch_number_some to_datetime_epoch v' q' ep Hq' Hv).
Qed.

Lemma try_parse_epoch_rejects_small_numbers_witness :
  _try_parse_epoch (fun _ => None) (JInt 1000000000) = None
  /\ numeric_reading (inject_Z 946684800000) 946684800.
Proof.
  destruct (try_parse_epoch_rejects_small_numbers
              (fun _ => None) (JInt 1000000000) (inject_Z 1000000000)
              eq_refl) as [Hsmall _].
  destruct (try_parse_epoch_rejects_small_numbers
              (fun _ => None) (JInt 946684800000) (inject_Z 946684800000)
              eq_refl) as (_ & Hread & _).
  split.
  - apply Hsmall. unfold Qle; simpl; lia.
  - apply Hread. reflexivity.
Defined.

(** ** The normalizer *)

Section BuildFacts.
Variable to_datetime_epoch : string -> option Z.
Variable http_get_json : string -> result json.
Variable fetch_highscores_items : string -> Z -> Z -> result (list json).
Variable load_urls : string -> result (list string).
Variable extract_token : string -> result string.
Variable py_repr : json -> string.

Let build_item' := build_item to_datetime_epoch http_get_json.
Let build_maps' :=
  build_maps to_datetime_epoch http_get_json fetch_highscores_items
             extract_token py_repr.

Lemma build_item_unknown week map_idx url token info fetch st it :
  player_name_from_item it = "UNKNOWN" ->
  build_item' week map_idx url token info fetch st it = st.
Proof.
  intros Hname. unfold build_item', build_item.
  destruct it; try reflexivity.
  destruct (negb (dict_mem "game" d)); [reflexivity|].
  now rewrite Hname.
Qed.

Lemma build_item_named week map_idx url token info fetch st it :
  named st -> named (build_item' week map_idx url token info fetch st it).
Proof.
  intros Hst. unfold build_item', build_item.
  destruct it; try assumption.
  destruct (negb (dict_mem "game" d)); [assumption|].
  destruct (String.eqb_spec (player_name_from_item (JDict d)) "UNKNOWN")
    as [|Hneq]; [assumption|].
  destruct (lookup_played_at _ _ _ _ _) as [played_at cache].
  unfold named; simpl. apply Forall_app. split; [exact Hst|].
  constructor; [exact Hneq | constructor].
Qed.

Lemma build_items_named week map_idx url token info fetch items st :
  named st ->
  named (fold_left (build_item' week map_idx url token info fetch) items st).
Proof.
  revert st; induction items as [|it items IH]; intros st Hst; simpl.
  - exact Hst.
  - apply IH. now apply build_item_named.
Qed.

Lemma build_maps_named week page_size max_players fetch urls :
  forall map_idx st st',
    named st ->
    build_maps' week page_size max_players fetch map_idx urls st = Ok st' ->
    named st'.
Proof.
  induction urls as [|url urls IH]; intros map_idx st st' Hst Hrun;
    simpl in Hrun.
  - now injection Hrun as <-.
  - unfold build_maps' in Hrun; simpl in Hrun.
    destruct (extract_token url) as [token|]; [simpl in Hrun|discriminate].
    destruct (fetch_highscores_items token page_size max_players)
      as [items|]; [simpl in Hrun|discriminate].
    eapply IH; [|exact Hrun].
    now apply build_items_named.
Qed.

Lemma build_week_entries_named week page_size max_players fetch entries any :
  build_week_entries to_datetime_epoch http_get_json fetch_highscores_items
    load_urls extract_token py_repr week page_size max_players fetch
  = Ok (entries, any) ->
  Forall (fun e => player e <> "UNKNOWN") entries.
Proof.
  unfold build_week_entries.
  destruct (load_urls (urls_path week)) as [urls|]; [simpl|discriminate].
  destruct urls as [|url urls]; [discriminate|].
  destruct (build_maps _ _ _ _ _ _ _ _ _ _ _ _) as [st|] eqn:Hrun;
    [simpl|discriminate].
  intros [= <- _].
  eapply build_maps_named; [|exact Hrun].
  constructor.
Qed.
End BuildFacts.

(** C9.  A raw record whose nick is, once trimmed, the string UNKNOWN gets
    the name a record without a nick gets, is skipped by the loop that builds
    the entries (the state is left as it was), and no entry of a week carries
    the player name UNKNOWN. *)
Theorem unknown_nick_is_dropped
    (to_datetime_epoch : string -> option Z)
    (http_get_json : string -> result json)
    (fetch_highscores_items : string -> Z -> Z -> result (list json))
    (load_urls : string -> result (list string))
    (extract_token : string -> result string)
    (py_repr : json -> string)
    (item pl : json) (nick : string)
    (Hplayer : item_player item = Ok pl)
    (Hnick : json_get pl "nick" = Ok (JStr nick))
    (Htrim : str_strip nick = "UNKNOWN") :
  player_name_from_item item = player_name_from_item nameless_item
  /\ (forall week map_idx url token info fetch st,
        build_item to_datetime_epoch http_get_json week map_idx url token
                   info fetch st item = st)
  /\ (forall week page_size max_players fetch entries any,
        build_week_entries to_datetime_epoch http_get_json
          fetch_highscores_items load_urls extract_token py_repr week
          page_size max_players fetch = Ok (entries, any) ->
        forall e, In e entries -> player e <> "UNKNOWN").
Proof.
  assert (Hname : player_name_from_item item = "UNKNOWN").
  { unfold player_name_from_item. rewrite Hplayer; simpl. rewrite Hnick.
    rewrite Htrim. reflexivity. }
  repeat split.
  - now rewrite Hname.
  - intros. now apply build_item_unknown.
  - intros week page_size max_players fetch entries any Hbuild e He.
    apply build_week_entries_named in Hbuild.
    rewrite Forall_forall in Hbuild. now apply Hbuild.
Qed.

Lemma unknown_nick_is_dropped_witness :
  player_name_from_item (item_with_nick padded_unknown)
  = player_name_from_item nameless_item.
Proof.
  apply (unknown_nick_is_dropped
           (fun _ => None) (fun _ => Raise "offline")
           (fun _ _ _ => Ok []) (fun _ => Ok []) (fun u => Ok u)
           (fun _ => "")
           (item_with_nick padded_unknown)
           (JDict [("nick", JStr padded_unknown)]) padded_unknown).
  - reflexivity.
  - reflexivity.
  - vm_compute. reflexivity.
Defined.

(** ** When the filtered report is written *)

Lemma dict_set_nonempty {K V : Type} `{EqKey K} (k : K) (v : V)
    (d : dict K V) : dict_nonempty (dict_set k v d) = true.
Proof.
  destruct d as [|[k' v'] d]; simpl; [reflexivity|].
  now destruct (key_eqb k k').
Qed.

Lemma append_inj_l (s a b : string) :
  String.append s a = String.append s b -> a = b.
Proof.
  induction s as [|c s IH]; simpl; [auto|].
  intros [= Heq]. auto.
Qed.

Section MainFacts.
Variable to_datetime_epoch : string -> option Z.
Variable http_get_json : string -> result json.
Variable fetch_highscores_items : string -> Z -> Z -> result (list json).
Variable load_urls : string -> result (list string).
Variable extract_token : string -> result string.
Variable py_repr : json -> string.
Variable parse_deadline_epoch : string -> string -> result Z.
Variable env_ncfa : string.

Lemma build_item_flag week map_idx url token info fetch st it :
  flag_ok st ->
  flag_ok (build_item to_datetime_epoch http_get_json week map_idx url
                      token info fetch st it).
Proof.
  unfold flag_ok, build_item. intros Hst.
  destruct it; try assumption.
  destruct (negb (dict_mem "game" d)); [assumption|].
  destruct (String.eqb _ "UNKNOWN"); [assumption|].
  destruct (lookup_played_at _ _ _ _ _) as [played_at cache]; simpl.
  rewrite existsb_app, Hst; simpl.
  unfold resolved at 2; simpl. now rewrite orb_false_r.
Qed.

Lemma build_items_flag week map_idx url token info fetch items st :
  flag_ok st ->
  flag_ok (fold_left (build_item to_datetime_epoch http_get_json week
                                 map_idx url token info fetch) items st).
Proof.
  revert st; induction items as [|it items IH]; intros st Hst; simpl;
    [exact Hst|].
  apply IH. now apply build_item_flag.
Qed.

Lemma build_maps_flag week page_size max_players fetch urls :
  forall map_idx st st',
    flag_ok st ->
    build_maps to_datetime_epoch http_get_json fetch_highscores_items
      extract_token py_repr week page_size max_players fetch map_idx urls st
    = Ok st' ->
    flag_ok st'.
Proof.
  induction urls as [|url urls IH]; intros map_idx st st' Hst Hrun;
    simpl in Hrun.
  - now injection Hrun as <-.
  - destruct (extract_token url) as [token|]; [simpl in Hrun|discriminate].
    destruct (fetch_highscores_items token page_size max_players)
      as [items|]; [simpl in Hrun|discriminate].
    eapply IH; [|exact Hrun].
    now apply build_items_flag.
Qed.

Lemma build_week_entries_flag week page_size max_players fetch entries any :
  build_week_entries to_datetime_epoch http_get_json fetch_highscores_items
    load_urls extract_token py_repr week page_size max_players fetch
  = Ok (entries, any) ->
  any = existsb resolved entries.
Proof.
  unfold build_week_entries.
  destruct (load_urls (urls_path week)) as [urls|]; [simpl|discriminate].
  destruct urls as [|url urls]; [discriminate|].
  destruct (build_maps _ _ _ _ _ _ _ _ _ _ _ _) as [st|] eqn:Hrun;
    [simpl|discriminate].
  intros [= <- <-].
  eapply build_maps_flag; [|exact Hrun].
  reflexivity.
Qed.

Lemma build_all_flag args weeks :
  forall acc entries any,
    snd acc = existsb resolved (fst acc) ->
    build_all to_datetime_epoch http_get_json fetch_highscores_items
      load_urls extract_token py_repr args weeks acc = Ok (entries, any) ->
    any = existsb resolved entries.
Proof.
  induction weeks as [|w weeks IH]; intros [e0 a0] entries any Hacc Hrun;
    simpl in *.
  - now injection Hrun as <- <-.
  - destruct (build_week_entries _ _ _ _ _ _ _ _ _ _) as [[es a]|] eqn:Hw;
      [simpl in Hrun|discriminate].
    apply build_week_entries_flag in Hw.
    eapply IH; [|exact Hrun]. simpl.
    now rewrite existsb_app, Hacc, Hw.
Qed.

Lemma collect_deadlines_nonempty tz weeks :
  forall d0 d,
    collect_deadlines parse_deadline_epoch tz weeks d0 = Ok d ->
    dict_nonempty d = dict_nonempty d0 || existsb has_deadline weeks.
Proof.
  induction weeks as [|w weeks IH]; intros d0 d Hrun; simpl in Hrun.
  - injection Hrun as <-. simpl. now rewrite orb_false_r.
  - simpl. unfold has_deadline at 1, str_opt_truthy.
    destruct (deadline w) as [s|].
    + destruct (String.eqb s ""); simpl.
      * now apply IH.
      * destruct (parse_deadline_epoch s tz) as [ep|];
          [simpl in Hrun|discriminate].
        apply IH in Hrun. rewrite Hrun, dict_set_nonempty.
        now rewrite orb_true_r.
    + simpl. now apply IH.
Qed.
End MainFacts.

(** C8.  In a run that completes, the unfiltered report is written, and the
    filtered report is written if and only if some week has a deadline,
    played-at lookup was requested and some entry of the run has a played-at
    time; when it is not, the unfiltered report is the only file. *)
Theorem filtered_report_iff
    (to_datetime_epoch : string -> option Z)
    (http_get_json : string -> result json)
    (fetch_highscores_items : string -> Z -> Z -> result (list json))
    (load_urls : string -> result (list string))
    (extract_token : string -> result string)
    (py_repr : json -> string)
    (parse_deadline_epoch : string -> string -> result Z)
    (env_ncfa : string)
    (path_expanduser : string -> result string)
    (args : Args) (wbs : list Workbook)
    (Hrun : main to_datetime_epoch http_get_json fetch_highscores_items
              load_urls extract_token py_repr parse_deadline_epoch env_ncfa
              path_expanduser args = Ok wbs) :
  exists weeks entries any,
    parse_week_specs path_expanduser (arg_week args) = Ok weeks
    /\ build_all to_datetime_epoch http_get_json fetch_highscores_items
         load_urls extract_token py_repr args weeks ([], false)
       = Ok (entries, any)
    /\ writes wbs (String.append (arg_out_base args) "_all.xlsx")
    /\ (writes wbs (String.append (arg_out_base args) "_filtered.xlsx")
        <-> (exists w, In w weeks /\ has_deadline w = true)
            /\ arg_fetch_played_at args = true
            /\ (exists e, In e entries /\ played_at_epoch e <> None))
    /\ (~ writes wbs (String.append (arg_out_base args) "_filtered.xlsx")
        -> List.length wbs = 1%nat).
Proof.
  unfold main in Hrun.
  destruct (parse_week_specs path_expanduser (arg_week args)) as [weeks|]
    eqn:Hweeks; [simpl in Hrun|discriminate].
  destruct (String.eqb (str_strip _) ""); [discriminate|].
  destruct (collect_deadlines _ _ _ _) as [dls|] eqn:Hdl;
    [simpl in Hrun|discriminate].
  destruct (build_all _ _ _ _ _ _ _ _ _) as [[entries any]|] eqn:Hbuild;
    [simpl in Hrun|discriminate].
  exists weeks, entries, any. split; [reflexivity|]. split; [exact Hbuild|].
  apply collect_deadlines_nonempty in Hdl. simpl in Hdl.
  apply build_all_flag in Hbuild; [|reflexivity].
  assert (Hcond :
            can_filter_of dls args any = true <->
            (exists w, In w weeks /\ has_deadline w = true)
            /\ arg_fetch_played_at args = true
            /\ (exists e, In e entries /\ played_at_epoch e <> None)).
  { unfold can_filter_of. fold (dict_nonempty dls). rewrite Hdl, Hbuild.
    rewrite !andb_true_iff, !existsb_exists.
    split.
    - intros [[Hw Hf] (e & He & Hres)]. repeat split; auto.
      exists e. split; auto. unfold resolved in Hres.
      destruct (played_at_epoch e); [discriminate | discriminate Hres].
    - intros (Hw & Hf & e & He & Hres). repeat split; auto.
      exists e. split; auto. unfold resolved.
      now destruct (played_at_epoch e). }
  destruct (make_workbook _ _ _) as [wb_all|] eqn:Hall;
    [simpl in Hrun|discriminate].
  assert (Hall_path :
            wb_path wb_all = String.append (arg_out_base args) "_all.xlsx").
  { unfold make_workbook in Hall.
    destruct (compute_week_tables entries (arg_tie args)) as [[[ov wk] me]|];
      [simpl in Hall|discriminate].
    destruct (compute_total_tables ov). inversion Hall. reflexivity. }
  destruct (can_filter_of dls args any).
  - destruct (make_workbook (String.append _ "_filtered.xlsx") _ _)
      as [wb_f|] eqn:Hf; [simpl in Hrun|discriminate].
    injection Hrun as <-.
    assert (Hf_path :
              wb_path wb_f
              = String.append (arg_out_base args) "_filtered.xlsx").
    { unfold make_workbook in Hf.
      destruct (compute_week_tables _ (arg_tie args)) as [[[ov wk] me]|];
        [simpl in Hf|discriminate].
      destruct (compute_total_tables ov). inversion Hf. reflexivity. }
    assert (Hw : writes [wb_all; wb_f]
                   (String.append (arg_out_base args) "_filtered.xlsx")).
    { exists wb_f. simpl. auto. }
    split; [exists wb_all; simpl; auto|].
    split; [split; [intros _; now apply Hcond | intros _; exact Hw]|].
    intros Hn. now destruct Hn.
  - injection Hrun as <-.
    assert (Hn : ~ writes [wb_all]
                   (String.append (arg_out_base args) "_filtered.xlsx")).
    { intros (wb & [<- | []] & Hp). rewrite Hall_path in Hp.
      apply append_inj_l in Hp. discriminate Hp. }
    split; [exists wb_all; simpl; auto|].
    split; [split; [intros Hw; now destruct Hn|]|reflexivity].
    intros Hc. apply Hcond in Hc. discriminate Hc.
Qed.

Lemma filtered_report_iff_witness :
  writes demo_workbooks "Liga_overview_filtered.xlsx".
Proof.
  destruct (filtered_report_iff
              (fun _ => None)
              (fun _ => Ok (JDict [("created", JInt 1700000000)]))
              (fun _ _ _ => Ok [demo_item])
              (fun _ => Ok ["https://www.geoguessr.com/challenge/abc"])
              (fun _ => Ok "abc")
              (fun _ => "")
              (fun _ _ => Ok 1800000000)
              ""
              (fun p => Ok p)
              demo_args demo_workbooks)
    as (weeks & entries & any & Hweeks & Hbuild & _ & Hiff & _).
  - vm_compute. reflexivity.
  - vm_compute in Hweeks. injection Hweeks as <-.
    vm_compute in Hbuild. injection Hbuild as <- <-.
    apply Hiff. repeat split.
    + eexists. split; [left; reflexivity | reflexivity].
    + eexists. split; [left; reflexivity | discriminate].
Defined.

(** ** Duplicate players on one map *)

Lemma player_dict_get (f : Entry -> Z) (p : string) (g : list Entry) :
  forall (d : dict string Z) (acc : option Entry),
    dict_get p d = option_map f acc ->
    dict_get p (fold_left (fun d e => dict_set (player e) (f e) d) g d)
    = option_map f
        (fold_left (fun acc e => if String.eqb p (player e) then Some e
                                 else acc) g acc).
Proof.
  induction g as [|e g IH]; intros d acc Hd; simpl; [exact Hd|].
  apply IH. rewrite dict_get_set. cbn [key_eqb EqKey_string].
  now destruct (String.eqb p (player e)).
Qed.

Lemma player_dict_wf (f : Entry -> Z) (g : list Entry) :
  dict_wf (player_dict f g).
Proof.
  unfold player_dict.
  assert (Hgen : forall d, dict_wf d ->
            dict_wf (fold_left (fun d e => dict_set (player e) (f e) d) g d)).
  { induction g as [|e g IH]; intros d Hd; simpl; [exact Hd|].
    apply IH. now apply dict_set_wf. }
  apply Hgen. constructor.
Qed.

Lemma filter_split_perm {A : Type} (f h : A -> bool) (l : list A) :
  (forall x, f x && h x = false) ->
  Permutation (filter f l ++ filter h l) (filter (fun x => f x || h x) l).
Proof.
  intros Hdisj. induction l as [|x l IH]; simpl; [constructor|].
  specialize (Hdisj x).
  destruct (f x), (h x); simpl in *; try discriminate.
  - now constructor.
  - rewrite <- Permutation_middle. now constructor.
  - exact IH.
Qed.

Section GroupByFacts.
Context {A K : Type} `{EqKey K} (key : A -> K).

Lemma groups_partition (rows : list A) (ks : list K) :
  NoDup ks ->
  Permutation
    (List.concat (map (fun k => filter (fun r => key_eqb (key r) k) rows) ks))
    (filter (fun r => existsb (key_eqb (key r)) ks) rows).
Proof.
  induction ks as [|k ks IH]; intros Hnd; simpl.
  - rewrite filter_none; [constructor | reflexivity].
  - inversion Hnd as [|? ? Hk Hnd']; subst.
    rewrite (IH Hnd'). apply filter_split_perm.
    intros r. destruct (key_eqb_spec (key r) k) as [->|]; [|reflexivity].
    simpl. apply not_true_is_false. intros Hex.
    apply existsb_exists in Hex as (k' & Hin & Heq).
    apply key_eqb_eq in Heq. now subst.
Qed.

Lemma groupby_partition (ltb : K -> K -> bool) (rows : list A) :
  Permutation (List.concat (map snd (groupby ltb key rows))) rows.
Proof.
  unfold groupby. rewrite map_map. cbn [snd].
  rewrite groups_partition.
  - assert (Hall : forall r, In r rows ->
              existsb (key_eqb (key r))
                      (py_sorted ltb (fun k => k) (unique (map key rows)))
              = true).
    { intros r Hr. apply existsb_exists. exists (key r).
      split; [|apply key_eqb_refl].
      apply py_sorted_in, unique_in. now apply in_map. }
    revert Hall.
    generalize (py_sorted ltb (fun k => k) (unique (map key rows))) as ks.
    intros ks Hall.
    induction rows as [|r rows IH]; simpl; [constructor|].
    rewrite Hall by now left. constructor. apply IH.
    intros; apply Hall; now right.
  - eapply Permutation_NoDup; [apply py_sorted_perm | apply unique_nodup].
Qed.
End GroupByFacts.

Section GroupByMore.
Context {A K : Type} `{EqKey K} (ltb : K -> K -> bool) (key : A -> K).

Lemma groupby_keys (rows : list A) :
  map fst (groupby ltb key rows)
  = py_sorted ltb (fun k => k) (unique (map key rows)).
Proof. unfold groupby. rewrite map_map. cbn [fst]. apply map_id. Qed.

Lemma groupby_keys_nodup (rows : list A) :
  NoDup (map fst (groupby ltb key rows)).
Proof.
  rewrite groupby_keys.
  eapply Permutation_NoDup; [apply py_sorted_perm | apply unique_nodup].
Qed.

Lemma groupby_keys_in (rows : list A) (k : K) :
  In k (map fst (groupby ltb key rows)) <-> exists r, In r rows /\ key r = k.
Proof.
  rewrite groupby_keys, py_sorted_in, unique_in, in_map_iff.
  split; intros (r & ? & ?); exists r; tauto.
Qed.

Lemma groupby_group (rows : list A) (k : K) (g : list A) :
  In (k, g) (groupby ltb key rows) ->
  g = filter (fun r => key_eqb (key r) k) rows /\ g <> [].
Proof.
  intros Hin.
  assert (Hk : In k (map fst (groupby ltb key rows))).
  { apply in_map_iff. exists (k, g). auto. }
  apply groupby_keys_in in Hk as (r & Hr & Hkey).
  unfold groupby in Hin. apply in_map_iff in Hin as (k' & [= <- <-] & _).
  split; [reflexivity|].
  intros Hnil.
  assert (Hmem : In r (filter (fun r => key_eqb (key r) k') rows)).
  { apply filter_In. split; [exact Hr | now apply key_eqb_eq]. }
  rewrite Hnil in Hmem. contradiction.
Qed.
End GroupByMore.

Lemma rank_groups_rows_entries tie_mode (gs : list (list Entry)) :
  forall rows,
    rank_groups_rows tie_mode gs = Ok rows ->
    map row_entry rows = List.concat gs.
Proof.
  induction gs as [|g gs IH]; intros rows Hrun; simpl in Hrun.
  - now injection Hrun as <-.
  - unfold rank_group in Hrun.
    destruct (compute_rank_and_borda_with_time _ _ tie_mode) as [rb|];
      [cbn [bind] in Hrun|discriminate].
    destruct (rank_groups_rows tie_mode gs) as [rest|];
      [cbn [bind] in Hrun|discriminate].
    injection Hrun as <-. rewrite map_app, map_map. cbn [row_entry List.concat].
    rewrite map_id. f_equal. now apply IH.
Qed.

Lemma ranker_ranks_player pts time tie_mode rb bo p :
  compute_rank_and_borda_with_time pts time tie_mode = Ok (rb, bo) ->
  In p (dict_keys pts) ->
  exists v, dict_get p rb = Some v
            /\ dict_get p bo
               = Some (float_of_int (py_len pts) - v + 1)%Q.
Proof.
  intros Hrun Hp.
  assert (Hne : pts <> []) by (intros ->; contradiction).
  rewrite (compute_nonempty _ _ _ Hne) in Hrun.
  destruct (rank_loop tie_mode (rank_groups pts time) (keys_sorted pts time)
                      ([], 1)) as [[rb' cr]|] eqn:Hloop;
    cbn [bind fst] in Hrun; [|discriminate].
  injection Hrun as <- <-.
  destruct (keys_sorted_split pts time p Hp)
    as (pre & post & Hsplit & _ & _ & Hmem & Hout).
  rewrite Hsplit in Hloop.
  eapply rank_loop_lookup with (p := p) in Hloop
    as (v & _ & Hget); [|exact Hmem|intros; apply Hout; now right].
  exists v. split; [exact Hget|]. now rewrite borda_of_get, Hget.
Qed.

Lemma player_dict_keys (f : Entry -> Z) (g : list Entry) (e : Entry) :
  In e g -> In (player e) (dict_keys (player_dict f g)).
Proof.
  unfold player_dict.
  assert (Hgen : forall d,
            In (player e) (dict_keys d) \/ In e g ->
            In (player e)
               (dict_keys (fold_left (fun d e => dict_set (player e) (f e) d)
                                     g d))).
  { induction g as [|e' g IH]; intros d [Hd | He]; simpl; try assumption;
      try contradiction.
    - apply IH. left. apply dict_set_in. now right.
    - apply IH. destruct He as [-> | He]; [left | now right].
      apply dict_set_in. now left. }
  intros He. apply Hgen. now right.
Qed.

Lemma rank_groups_rows_in tie_mode (gs : list (list Entry)) :
  forall rows r,
    rank_groups_rows tie_mode gs = Ok rows -> In r rows ->
    exists g rb,
      In g gs /\ In (row_entry r) g
      /\ compute_rank_and_borda_with_time
           (player_dict total_pts g) (player_dict total_time g) tie_mode
         = Ok rb
      /\ rank_best r = dict_get (player (row_entry r)) (fst rb)
      /\ borda_points r = dict_get (player (row_entry r)) (snd rb).
Proof.
  induction gs as [|g gs IH]; intros rows r Hrun Hin; simpl in Hrun.
  - injection Hrun as <-. contradiction.
  - unfold rank_group in Hrun.
    destruct (compute_rank_and_borda_with_time _ _ tie_mode) as [rb|] eqn:Hrb;
      [cbn [bind] in Hrun|discriminate].
    destruct (rank_groups_rows tie_mode gs) as [rest|] eqn:Hrest;
      [cbn [bind] in Hrun|discriminate].
    injection Hrun as <-. apply in_app_or in Hin as [Hin | Hin].
    + apply in_map_iff in Hin as (e & <- & He).
      exists g, rb. cbn [row_entry rank_best borda_points].
      repeat split; auto. now left.
    + destruct (IH rest r eq_refl Hin) as (g' & rb' & Hg' & H).
      exists g', rb'. split; [now right | exact H].
Qed.

Lemma overview_entries_perm entries tie_mode df_overview df_weekly df_meta :
  compute_week_tables entries tie_mode = Ok (df_overview, df_weekly, df_meta) ->
  Permutation (map row_entry df_overview) entries.
Proof.
  unfold compute_week_tables. intros Hrun.
  destruct entries as [|e entries'] eqn:Hentries.
  { injection Hrun as <- _ _. constructor. }
  rewrite <- Hentries in *.
  destruct (rank_groups_rows tie_mode _) as [rows|] eqn:Hrows;
    [cbn [bind] in Hrun|discriminate].
  injection Hrun as <- _ _.
  apply rank_groups_rows_entries in Hrows. rewrite Hrows.
  apply groupby_partition.
Qed.

Lemma filter_comm {A : Type} (f h : A -> bool) (l : list A) :
  filter f (filter h l) = filter h (filter f l).
Proof.
  induction l as [|x l IH]; [reflexivity|]. simpl.
  destruct (h x) eqn:Hh, (f x) eqn:Hf; simpl; rewrite ?Hh, ?Hf, IH;
    reflexivity.
Qed.

Section GroupOrder.
Context {A K : Type} `{EqKey K} (key : A -> K).

Lemma filter_key_twice (rows : list A) (k k' : K) :
  filter (fun r => key_eqb (key r) k)
         (filter (fun r => key_eqb (key r) k') rows)
  = if key_eqb k k' then filter (fun r => key_eqb (key r) k) rows else [].
Proof.
  induction rows as [|r rows IH]; simpl; [now destruct (key_eqb k k')|].
  destruct (key_eqb_spec (key r) k') as [Hk'|Hk']; simpl.
  - destruct (key_eqb_spec (key r) k) as [Hk|Hk]; simpl.
    + rewrite IH. subst k k'. now rewrite key_eqb_refl.
    + rewrite IH. destruct (key_eqb_spec k k') as [->|]; [|reflexivity].
      contradiction.
  - rewrite IH. destruct (key_eqb_spec k k') as [->|]; [|reflexivity].
    destruct (key_eqb_spec (key r) k'); [contradiction | reflexivity].
Qed.

Lemma concat_groups_filter (rows : list A) (ks : list K) (k : K) :
  NoDup ks ->
  filter (fun r => key_eqb (key r) k)
         (List.concat (map (fun k' => filter (fun r => key_eqb (key r) k')
                                             rows) ks))
  = if existsb (key_eqb k) ks
    then filter (fun r => key_eqb (key r) k) rows else [].
Proof.
  induction ks as [|k' ks IH]; intros Hnd; [reflexivity|].
  inversion Hnd as [|? ? Hk' Hnd']; subst.
  cbn [map List.concat existsb]. rewrite filter_app, filter_key_twice.
  rewrite (IH Hnd').
  destruct (key_eqb_spec k k') as [->|Hne]; simpl; [|reflexivity].
  destruct (existsb (key_eqb k') ks) eqn:Hex; [|apply app_nil_r].
  apply existsb_exists in Hex as (k'' & Hin & Heq).
  apply key_eqb_eq in Heq. subst k''. contradiction.
Qed.

(** Grouping keeps the rows of a group in the order of the frame. *)
Lemma groupby_concat_group (ltb : K -> K -> bool) (rows : list A) (k : K) :
  filter (fun r => key_eqb (key r) k)
         (List.concat (map snd (groupby ltb key rows)))
  = filter (fun r => key_eqb (key r) k) rows.
Proof.
  unfold groupby. rewrite map_map. cbn [snd].
  rewrite concat_groups_filter.
  - destruct (existsb _ _) eqn:Hex; [reflexivity|].
    symmetry. apply filter_none. intros r Hr.
    destruct (key_eqb_spec (key r) k) as [Hk|]; [|reflexivity].
    assert (Hin : existsb (key_eqb k)
                    (py_sorted ltb (fun k => k) (unique (map key rows)))
                  = true).
    { apply existsb_exists. exists k. split; [|apply key_eqb_refl].
      apply py_sorted_in, unique_in. rewrite <- Hk. now apply in_map. }
    congruence.
  - eapply Permutation_NoDup; [apply py_sorted_perm | apply unique_nodup].
Qed.
End GroupOrder.

Lemma overview_entries_eq entries tie_mode df_overview df_weekly df_meta :
  compute_week_tables entries tie_mode = Ok (df_overview, df_weekly, df_meta) ->
  map row_entry df_overview
  = List.concat (map snd (groupby (str_pair_ltb Z.ltb)
                                  (fun e => (week_label e, map_index e))
                                  entries)).
Proof.
  unfold compute_week_tables. intros Hrun.
  destruct entries as [|e entries'] eqn:Hentries.
  { injection Hrun as <- _ _. reflexivity. }
  rewrite <- Hentries in *.
  destruct (rank_groups_rows tie_mode _) as [rows|] eqn:Hrows;
    [cbn [bind] in Hrun|discriminate].
  injection Hrun as <- _ _.
  now apply (rank_groups_rows_entries tie_mode).
Qed.

(** The (week, map) group of an entry is the same in the per-map table as in
    the entry list, also after a filter. *)
Lemma map_group_grouped (keep : Entry -> bool) (entries : list Entry)
    (e : Entry) :
  map_group
    (filter keep
       (List.concat (map snd (groupby (str_pair_ltb Z.ltb)
                                      (fun e => (week_label e, map_index e))
                                      entries)))) e
  = map_group (filter keep entries) e.
Proof.
  unfold map_group.
  rewrite !(filter_comm _ keep). f_equal.
  apply (groupby_concat_group (fun e' => (week_label e', map_index e'))).
Qed.

(** A row of the per-map table carries what the ranker gives its player on
    the dictionaries of its (week, map) group. *)
Lemma overview_row_ranking entries tie_mode df_overview df_weekly df_meta r :
  compute_week_tables entries tie_mode = Ok (df_overview, df_weekly, df_meta) ->
  In r df_overview ->
  In (row_entry r) entries
  /\ rank_best r
     = rank_of (group_ranking entries tie_mode (row_entry r))
               (player (row_entry r))
  /\ borda_points r
     = borda_for (group_ranking entries tie_mode (row_entry r))
                 (player (row_entry r))
  /\ rank_best r <> None /\ borda_points r <> None.
Proof.
  intros Hrun Hr.
  assert (Hin : In (row_entry r) entries).
  { eapply Permutation_in; [eapply overview_entries_perm; exact Hrun|].
    now apply in_map. }
  split; [exact Hin|].
  unfold compute_week_tables in Hrun.
  destruct entries as [|e0 entries'] eqn:Hentries; [contradiction|].
  rewrite <- Hentries in *. clear Hentries e0 entries'.
  destruct (rank_groups_rows tie_mode _) as [rows|] eqn:Hrows;
    [cbn [bind] in Hrun|discriminate].
  injection Hrun as <- _ _.
  destruct (rank_groups_rows_in _ _ _ _ Hrows Hr)
    as (g & [rb bo] & Hg & He & Hrb & Hrank & Hborda).
  apply in_map_iff in Hg as ([k g'] & Hk & Hg). simpl in Hk. subst g'.
  apply groupby_group in Hg as [Hgeq _].
  assert (Hkey : g = map_group entries (row_entry r)).
  { rewrite Hgeq in He. apply filter_In in He as [_ Hke].
    apply key_eqb_eq in Hke. rewrite Hgeq, <- Hke. reflexivity. }
  rewrite Hkey in Hrb, He.
  destruct (ranker_ranks_player _ _ _ _ _ (player (row_entry r)) Hrb)
    as (v & Hv & Hb).
  { now apply player_dict_keys. }
  unfold group_ranking. rewrite Hrb. cbn [rank_of borda_for].
  cbn [fst snd] in Hrank, Hborda. rewrite Hrank, Hborda, Hv, Hb.
  repeat split; congruence.
Qed.

(** C3, as specified: a player who appears twice on one leaderboard has two
    rows in the per-map table of that (week, map) group, and the weekly row
    adds up the points of both entries (5000 + 3000) instead of holding the
    points of the last-seen one. *)
Lemma duplicate_player_counterexample :
  ~ players_unique_per_map dup_overview
  /\ ~ (forall r, In r dup_weekly -> w_player r = "A" ->
                  weekly_total_pts r = 3000).
Proof.
  split.
  - intros Hnd. vm_compute in Hnd.
    inversion Hnd as [|? ? Hnotin _]. apply Hnotin. right. left. reflexivity.
  - intros Hweekly.
    specialize (Hweekly (nth 0 dup_weekly
                             {| w_week := ""; w_player := "";
                                weekly_borda := 0; weekly_total_pts := 0;
                                w_maps_counted := 0 |})).
    vm_compute in Hweekly.
    specialize (Hweekly (or_introl eq_refl) eq_refl). discriminate Hweekly.
Qed.

Section RawEntryFacts.
Variable to_datetime_epoch : string -> option Z.
Variable http_get_json : string -> result json.
Variable fetch_highscores_items : string -> Z -> Z -> result (list json).
Variable load_urls : string -> result (list string).
Variable extract_token : string -> result string.
Variable py_repr : json -> string.

(** A raw record adds one entry, with its own player, points and time, or
    none. *)
Lemma build_item_scores week map_idx url token info fetch st it :
  map indexed_score
      (out_entries (build_item to_datetime_epoch http_get_json week map_idx
                               url token info fetch st it))
  = map indexed_score (out_entries st)
    ++ (if item_kept it then [(map_idx, item_score it)] else []).
Proof.
  unfold build_item, item_kept.
  destruct it; try (now rewrite app_nil_r).
  destruct (dict_mem "game" d); cbn [negb andb]; [|now rewrite app_nil_r].
  destruct (String.eqb _ "UNKNOWN"); cbn [negb]; [now rewrite app_nil_r|].
  destruct (lookup_played_at _ _ _ _ _) as [played_at cache].
  cbn [out_entries]. rewrite map_app. reflexivity.
Qed.

Lemma build_items_scores week map_idx url token info fetch items :
  forall st,
    map indexed_score
        (out_entries
           (fold_left (build_item to_datetime_epoch http_get_json week map_idx
                                  url token info fetch) items st))
    = map indexed_score (out_entries st)
      ++ map indexed_item_score
             (filter (fun x => item_kept (snd x)) (map (pair map_idx) items)).
Proof.
  induction items as [|it items IH]; intros st; cbn [fold_left map filter].
  - now rewrite app_nil_r.
  - rewrite IH, build_item_scores, <- app_assoc. f_equal.
    cbn [snd]. now destruct (item_kept it).
Qed.

Lemma build_maps_scores week page_size max_players fetch urls :
  forall map_idx st st',
    build_maps to_datetime_epoch http_get_json fetch_highscores_items
               extract_token py_repr week page_size max_players fetch
               map_idx urls st = Ok st' ->
    map indexed_score (out_entries st')
    = map indexed_score (out_entries st)
      ++ map indexed_item_score
             (filter (fun x => item_kept (snd x))
                     (week_items extract_token fetch_highscores_items
                                 page_size max_players map_idx urls)).
Proof.
  induction urls as [|url urls IH]; intros map_idx st st' Hrun;
    cbn [build_maps week_items] in *.
  - injection Hrun as <-. now rewrite app_nil_r.
  - destruct (extract_token url) as [token|]; [cbn [bind] in *|discriminate].
    destruct (fetch_highscores_items token page_size max_players)
      as [items|]; [cbn [bind] in Hrun|discriminate].
    rewrite (IH _ _ _ Hrun), build_items_scores, <- app_assoc.
    now rewrite filter_app, map_app.
Qed.

Lemma build_week_entries_scores week page_size max_players fetch entries any :
  build_week_entries to_datetime_epoch http_get_json fetch_highscores_items
    load_urls extract_token py_repr week page_size max_players fetch
  = Ok (entries, any) ->
  exists urls,
    load_urls (urls_path week) = Ok urls
    /\ map indexed_score entries
       = map indexed_item_score
             (filter (fun x => item_kept (snd x))
                     (week_items extract_token fetch_highscores_items
                                 page_size max_players 1 urls)).
Proof.
  unfold build_week_entries.
  destruct (load_urls (urls_path week)) as [urls|]; [cbn [bind]|discriminate].
  destruct urls as [|url urls]; [discriminate|].
  destruct (build_maps _ _ _ _ _ _ _ _ _ _ _ _) as [st|] eqn:Hrun;
    [cbn [bind]|discriminate].
  intros [= <- _]. exists (url :: urls). split; [reflexivity|].
  now rewrite (build_maps_scores _ _ _ _ _ _ _ _ Hrun).
Qed.
End RawEntryFacts.

Lemma last_entry_some (p : string) (g : list Entry) (e : Entry) :
  In e g -> player e = p ->
  exists l, last_entry p g = Some l /\ In l g /\ player l = p.
Proof.
  unfold last_entry. intros Hin Hp.
  assert (Hgen : forall acc,
            (exists e, (In e g \/ acc = Some e) /\ player e = p) ->
            (forall a, acc = Some a -> player a = p) ->
            exists l,
              fold_left (fun acc e => if String.eqb p (player e) then Some e
                                      else acc) g acc = Some l
              /\ (In l g \/ acc = Some l) /\ player l = p).
  { clear e Hin Hp. induction g as [|x g IH]; intros acc (e & He & Hp) Hacc.
    - destruct He as [[] | ->]. exists e. simpl. auto.
    - cbn [fold_left].
      destruct (String.eqb_spec p (player x)) as [Hx|Hx].
      + destruct (IH (Some x)) as (l & Hl & Hin & Hlp).
        * exists x. split; [now right | now symmetry].
        * intros a [= <-]. now symmetry.
        * exists l. split; [exact Hl|]. split; [|exact Hlp].
          destruct Hin as [Hin | [= <-]]; left; [now right | now left].
      + destruct (IH acc) as (l & Hl & Hin & Hlp).
        * exists e. split; [|exact Hp].
          destruct He as [[-> | He] | He]; [congruence | now left | now right].
        * exact Hacc.
        * exists l. split; [exact Hl|]. split; [|exact Hlp].
          destruct Hin as [Hin | Hin]; [left; now right | now right]. }
  destruct (Hgen None) as (l & Hl & [Hin' | Hnone] & Hlp).
  - exists e. split; [now left | exact Hp].
  - discriminate.
  - exists l. auto.
  - discriminate.
Qed.

(** C3, amended: duplicate entries are not removed.  The entry list of a
    week has one entry for every raw record that carries a game and a
    player name, in the order of the records, and the per-map table has one
    row for every entry.  What is keyed by player is the input of the
    ranker: the rank and the Borda value of a row are those the ranker gives
    on the points and time dictionaries of the row's (week, map) group;
    these dictionaries have distinct players and hold, for every player,
    the points and time of the player's last-seen entry in the group, so
    all rows of one player on one map carry the same rank and Borda value,
    the one computed from the last-seen entry. *)
Theorem duplicates_last_write_wins_in_ranker
    (to_datetime_epoch : string -> option Z)
    (http_get_json : string -> result json)
    (fetch_highscores_items : string -> Z -> Z -> result (list json))
    (load_urls : string -> result (list string))
    (extract_token : string -> result string)
    (py_repr : json -> string) :
  (forall week page_size max_players fetch entries any,
      build_week_entries to_datetime_epoch http_get_json
        fetch_highscores_items load_urls extract_token py_repr week
        page_size max_players fetch = Ok (entries, any) ->
      exists urls,
        load_urls (urls_path week) = Ok urls
        /\ map indexed_score entries
           = map indexed_item_score
                 (filter (fun x => item_kept (snd x))
                         (week_items extract_token fetch_highscores_items
                                     page_size max_players 1 urls)))
  /\ (forall entries tie_mode df_overview df_weekly df_meta,
        compute_week_tables entries tie_mode
        = Ok (df_overview, df_weekly, df_meta) ->
        Permutation (map row_entry df_overview) entries
        /\ (forall r,
              In r df_overview ->
              let e := row_entry r in
              let g := map_group entries e in
              let pts := player_dict total_pts g in
              let time := player_dict total_time g in
              let ranking :=
                compute_rank_and_borda_with_time pts time tie_mode in
              dict_wf pts /\ dict_wf time
              /\ (forall p,
                    dict_get p pts = option_map total_pts (last_entry p g)
                    /\ dict_get p time
                       = option_map total_time (last_entry p g))
              /\ (exists l,
                    last_entry (player e) g = Some l
                    /\ In l entries /\ same_player_on_map l e)
              /\ rank_best r = rank_of ranking (player e)
              /\ borda_points r = borda_for ranking (player e)
              /\ rank_best r <> None /\ borda_points r <> None)
        /\ (forall r r',
              In r df_overview -> In r' df_overview ->
              same_player_on_map (row_entry r) (row_entry r') ->
              rank_best r = rank_best r'
              /\ borda_points r = borda_points r')).
Proof.
  split.
  { intros week page_size max_players fetch entries any Hbuild.
    eapply build_week_entries_scores; exact Hbuild. }
  intros entries tie_mode df_overview df_weekly df_meta Hrun.
  split; [eapply overview_entries_perm; exact Hrun|].
  split.
  - intros r Hr. cbv zeta.
    destruct (overview_row_ranking _ _ _ _ _ r Hrun Hr)
      as (Hin & Hrank & Hborda & Hsome & Hsome').
    split; [apply player_dict_wf|]. split; [apply player_dict_wf|].
    split.
    { intros p. split; apply player_dict_get; reflexivity. }
    split.
    { assert (Hmem : In (row_entry r) (map_group entries (row_entry r))).
      { apply filter_In. split; [exact Hin | apply key_eqb_refl]. }
      destruct (last_entry_some (player (row_entry r)) _ _ Hmem eq_refl)
        as (l & Hl & Hlin & Hlp).
      exists l. split; [exact Hl|].
      apply filter_In in Hlin as [Hlin Hkey]. apply key_eqb_eq in Hkey.
      split; [exact Hlin|]. unfold same_player_on_map.
      injection Hkey as Hw Hm. auto. }
    unfold group_ranking in Hrank, Hborda. auto.
  - intros r r' Hr Hr' (Hw & Hm & Hp).
    destruct (overview_row_ranking _ _ _ _ _ r Hrun Hr)
      as (_ & Hrank & Hborda & _).
    destruct (overview_row_ranking _ _ _ _ _ r' Hrun Hr')
      as (_ & Hrank' & Hborda' & _).
    unfold group_ranking, map_group in *.
    rewrite Hrank, Hborda, Hrank', Hborda', Hw, Hm, Hp. auto.
Qed.

Lemma duplicates_last_write_wins_in_ranker_witness :
  map indexed_score dup_entries
  = [(1, ("A", 5000, 60)); (1, ("B", 4000, 90)); (1, ("A", 3000, 70))]
  /\ Permutation (map row_entry dup_overview) dup_entries
  /\ map rank_best dup_overview = [Some 2%Q; Some 1%Q; Some 2%Q].
Proof.
  destruct (duplicates_last_write_wins_in_ranker
              (fun _ => None) (fun _ => Raise "offline")
              (fun _ _ _ => Ok dup_items)
              (fun _ => Ok ["https://www.geoguessr.com/challenge/abc"])
              (fun _ => Ok "abc") (fun _ => "")) as [Hbuild Htables].
  destruct (Htables dup_entries "average" dup_overview dup_weekly
                    (week_meta dup_entries)) as (Hperm & _ & _).
  { vm_compute. reflexivity. }
  split; [|split].
  - vm_compute. reflexivity.
  - exact Hperm.
  - vm_compute. reflexivity.
Defined.

(** * Further properties *)

(** ** When the ranker raises *)

Lemma invalid_tie_value tie_mode cr occupied :
  ~ valid_tie_mode tie_mode -> tie_value tie_mode cr occupied = Raise "ValueError".
Proof.
  intros Hm. unfold tie_value, valid_tie_mode in *.
  destruct (String.eqb_spec tie_mode "average"); [tauto|].
  destruct (String.eqb_spec tie_mode "dense"); [tauto|].
  destruct (String.eqb_spec tie_mode "min"); [tauto|].
  destruct (String.eqb_spec tie_mode "max"); [tauto|reflexivity].
Qed.

Lemma valid_tie_mode_dec tie_mode :
  valid_tie_mode tie_mode \/ ~ valid_tie_mode tie_mode.
Proof.
  unfold valid_tie_mode.
  destruct (String.eqb_spec tie_mode "average"); [tauto|].
  destruct (String.eqb_spec tie_mode "dense"); [tauto|].
  destruct (String.eqb_spec tie_mode "min"); [tauto|].
  destruct (String.eqb_spec tie_mode "max"); tauto.
Qed.

Lemma group_value_error tie_mode cr k e :
  group_value tie_mode cr k = Raise e ->
  e = "ValueError" /\ ~ valid_tie_mode tie_mode /\ k <> 1.
Proof.
  unfold group_value. destruct (Z.eqb_spec k 1) as [|Hk]; [discriminate|].
  intros Hraise.
  destruct (valid_tie_mode_dec tie_mode) as [Hm | Hm].
  - destruct (group_value_total tie_mode cr k Hm) as [v Hv].
    unfold group_value in Hv.
    destruct (Z.eqb_spec k 1); [contradiction | congruence].
  - rewrite invalid_tie_value in Hraise by assumption.
    injection Hraise as <-. auto.
Qed.

Lemma rank_loop_error tie_mode groups (l : list (Z * Z)) :
  forall st e,
    rank_loop tie_mode groups l st = Raise e ->
    e = "ValueError" /\ ~ valid_tie_mode tie_mode
    /\ exists key, In key l /\ group_size groups key <> 1.
Proof.
  induction l as [|key l IH]; intros [rb cr] e Hrun.
  - discriminate Hrun.
  - rewrite rank_loop_cons in Hrun.
    destruct (group_value tie_mode cr (group_size groups key)) as [v|e']
      eqn:Hv; cbn [bind] in Hrun.
    + apply IH in Hrun as (He & Hm & key' & Hin & Hsize).
      repeat split; auto. exists key'. split; [now right | exact Hsize].
    + injection Hrun as <-.
      apply group_value_error in Hv as (He & Hm & Hk).
      repeat split; auto. exists key. split; [now left | exact Hk].
Qed.

Lemma rank_loop_ok_invalid tie_mode groups (l : list (Z * Z)) :
  ~ valid_tie_mode tie_mode ->
  forall st st',
    rank_loop tie_mode groups l st = Ok st' ->
    forall key, In key l -> group_size groups key = 1.
Proof.
  intros Hm. induction l as [|key l IH]; intros [rb cr] st' Hrun key' Hin.
  - contradiction.
  - rewrite rank_loop_cons in Hrun.
    destruct (Z.eqb_spec (group_size groups key) 1) as [Hone | Hmany].
    + destruct Hin as [<- | Hin]; [exact Hone|].
      destruct (group_value tie_mode cr (group_size groups key));
        [cbn [bind] in Hrun | discriminate].
      eapply IH; eauto.
    + unfold group_value in Hrun.
      destruct (Z.eqb_spec (group_size groups key) 1); [contradiction|].
      rewrite invalid_tie_value in Hrun by assumption. discriminate Hrun.
Qed.

Lemma single_groups_no_tie (pts time : dict string Z) :
  dict_wf pts ->
  (forall key, In key (keys_sorted pts time) ->
               group_size (rank_groups pts time) key = 1) ->
  no_exact_tie pts time.
Proof.
  intros Hwf Hsizes. unfold no_exact_tie.
  apply NoDup_map_NoDup_ForallPairs; [|exact Hwf].
  intros p q Hp Hq Heq.
  assert (Hkey : In (group_key pts time p) (keys_sorted pts time)).
  { apply keys_sorted_in. eauto. }
  specialize (Hsizes _ Hkey). apply py_len_one in Hsizes as [x Hx].
  assert (Hp' : In p (names_of (rank_groups pts time) (group_key pts time p))).
  { apply rank_groups_member. auto. }
  assert (Hq' : In q (names_of (rank_groups pts time) (group_key pts time p))).
  { apply rank_groups_member. auto. }
  rewrite Hx in Hp', Hq'.
  destruct Hp' as [<- | []]; destruct Hq' as [<- | []]. reflexivity.
Qed.

(** X1.  The ranker raises exactly when the tie mode is not one of the four
    known ones and two players tie exactly; the exception is a ValueError.
    With an unknown tie mode and no exact tie it returns a result. *)
Theorem ranker_raises_iff_unknown_mode_and_tie
    (pts time : dict string Z) (tie_mode : string) (Hwf : dict_wf pts) :
  (compute_rank_and_borda_with_time pts time tie_mode = Raise "ValueError"
   <-> ~ valid_tie_mode tie_mode /\ ~ no_exact_tie pts time)
  /\ (forall e, compute_rank_and_borda_with_time pts time tie_mode = Raise e ->
                e = "ValueError").
Proof.
  assert (Hcases : pts = [] \/ pts <> []).
  { destruct pts; [now left | right; discriminate]. }
  destruct Hcases as [Hnil | Hne].
  { subst pts. cbn. split; [split|].
    - discriminate.
    - intros [_ Hno]. exfalso. apply Hno. constructor.
    - discriminate. }
  rewrite (compute_nonempty _ _ _ Hne).
  destruct (rank_loop tie_mode (rank_groups pts time) (keys_sorted pts time)
                      ([], 1)) as [st | e] eqn:Hrun; cbn [bind].
  - split; [split; [discriminate|] | discriminate].
    intros [Hm Hno]. exfalso. apply Hno.
    apply single_groups_no_tie; [exact Hwf|].
    eapply rank_loop_ok_invalid; eauto.
  - pose proof (rank_loop_error _ _ _ _ _ Hrun) as (He & Hm & key & Hin & Hk).
    subst e. split; [split; [|reflexivity] | now intros e [= <-]].
    intros _. split; [exact Hm|].
    intros Hno.
    destruct (keys_sorted_fair pts time tie_mode (or_intror Hno) key Hin)
      as [[Havg | Hone] _].
    + apply Hm. left. exact Havg.
    + contradiction.
Qed.

Lemma ranker_raises_iff_unknown_mode_and_tie_witness :
  compute_rank_and_borda_with_time scenario_pts scenario_time "bogus"
  = Raise "ValueError"
  <-> ~ valid_tie_mode "bogus" /\ ~ no_exact_tie scenario_pts scenario_time.
Proof.
  apply (ranker_raises_iff_unknown_mode_and_tie
           scenario_pts scenario_time "bogus").
  repeat constructor; simpl; intuition discriminate.
Defined.

(** ** Ranks follow the scores *)

Lemma advance_bounds tie_mode k :
  1 <= k -> 1 <= advance tie_mode k <= k.
Proof.
  intros Hk. unfold advance.
  destruct (Z.eqb_spec k 1); [lia|].
  destruct (String.eqb tie_mode "dense"); lia.
Qed.

Lemma advance_all_app tie_mode groups (l1 l2 : list (Z * Z)) :
  advance_all tie_mode groups (l1 ++ l2)
  = advance_all tie_mode groups l1 + advance_all tie_mode groups l2.
Proof.
  induction l1 as [|key l1 IH]; [reflexivity|].
  cbn [app advance_all fold_right].
  fold (advance_all tie_mode groups (l1 ++ l2)).
  fold (advance_all tie_mode groups l1). rewrite IH. lia.
Qed.

Lemma advance_all_cons tie_mode groups key (l : list (Z * Z)) :
  advance_all tie_mode groups (key :: l)
  = advance tie_mode (group_size groups key) + advance_all tie_mode groups l.
Proof. reflexivity. Qed.

Lemma advance_all_bounds tie_mode groups (l : list (Z * Z)) :
  (forall key, In key l -> 1 <= group_size groups key) ->
  0 <= advance_all tie_mode groups l <= advance_all "average" groups l.
Proof.
  induction l as [|key l IH]; intros Hsizes.
  - cbn. lia.
  - rewrite !advance_all_cons.
    pose proof (advance_bounds tie_mode _ (Hsizes key (or_introl eq_refl))).
    assert (Havg : advance "average" (group_size groups key)
                   = group_size groups key).
    { unfold advance. destruct (Z.eqb_spec (group_size groups key) 1);
        [lia | reflexivity]. }
    rewrite Havg.
    assert (0 <= advance_all tie_mode groups l
            <= advance_all "average" groups l).
    { apply IH. intros; apply Hsizes; now right. }
    lia.
Qed.

Lemma keys_sorted_size pts time key :
  In key (keys_sorted pts time) ->
  1 <= group_size (rank_groups pts time) key.
Proof.
  intros Hkey. apply keys_sorted_in in Hkey as (p & Hp & Hk).
  assert (Hmem : In p (names_of (rank_groups pts time) key)).
  { apply rank_groups_member. auto. }
  unfold group_size, py_len.
  destruct (names_of (rank_groups pts time) key); [contradiction|].
  simpl List.length. lia.
Qed.

(** The rank of a group lies between its first and its last position. *)
Lemma group_value_bounds tie_mode (cr k : Z) :
  valid_tie_mode tie_mode -> 1 <= k ->
  exists v,
    group_value tie_mode cr k = Ok v
    /\ (inject_Z cr <= v)%Q
    /\ (v <= inject_Z (cr + advance tie_mode k - 1))%Q.
Proof.
  intros Hm Hk.
  assert (Hn : (0 < Z.to_nat k)%nat) by lia.
  replace k with (Z.of_nat (Z.to_nat k)) by lia.
  set (n := Z.to_nat k) in *.
  destruct Hm as [-> | [-> | [-> | ->]]].
  - destruct (group_value_average cr n Hn) as (v & Hv & Heq).
    exists v. split; [exact Hv|].
    assert (Hadv : advance "average" (Z.of_nat n) = Z.of_nat n).
    { unfold advance. destruct (Z.eqb_spec (Z.of_nat n) 1);
        [lia | reflexivity]. }
    rewrite Hadv.
    assert (Hpos : (0 < float_of_int (2 * Z.of_nat n))%Q).
    { unfold float_of_int. change 0%Q with (inject_Z 0).
      rewrite <- Zlt_Qlt. lia. }
    split.
    + apply Qmult_le_r with (z := float_of_int (2 * Z.of_nat n));
        [exact Hpos|].
      rewrite Heq. unfold float_of_int. rewrite <- inject_Z_mult.
      rewrite <- Zle_Qle. nia.
    + apply Qmult_le_r with (z := float_of_int (2 * Z.of_nat n));
        [exact Hpos|].
      rewrite Heq. unfold float_of_int. rewrite <- inject_Z_mult.
      rewrite <- Zle_Qle. nia.
  - rewrite group_value_dense. eexists. split; [reflexivity|].
    unfold float_of_int. rewrite <- !Zle_Qle.
    pose proof (advance_bounds "dense" (Z.of_nat n)). lia.
  - rewrite (group_value_min cr n Hn). eexists. split; [reflexivity|].
    unfold float_of_int. rewrite <- !Zle_Qle.
    pose proof (advance_bounds "min" (Z.of_nat n)). lia.
  - rewrite (group_value_max cr n Hn). eexists. split; [reflexivity|].
    unfold float_of_int. rewrite <- !Zle_Qle.
    assert (Hadv : advance "max" (Z.of_nat n) = Z.of_nat n).
    { unfold advance. destruct (Z.eqb_spec (Z.of_nat n) 1);
        [lia | reflexivity]. }
    rewrite Hadv. lia.
Qed.

(** The rank of a player, read off the position of the player's group in
    the list the loop runs over. *)
Lemma rank_of_player_at pts time tie_mode p pre post :
  valid_tie_mode tie_mode ->
  In p (dict_keys pts) ->
  keys_sorted pts time = pre ++ group_key pts time p :: post ->
  exists v,
    group_value tie_mode
      (1 + advance_all tie_mode (rank_groups pts time) pre)
      (group_size (rank_groups pts time) (group_key pts time p)) = Ok v
    /\ rank_of (compute_rank_and_borda_with_time pts time tie_mode) p = Some v.
Proof.
  intros Hm Hp Hsplit.
  pose proof (keys_sorted_nodup pts time) as Hnd. rewrite Hsplit in Hnd.
  apply NoDup_remove_2 in Hnd. rewrite in_app_iff in Hnd.
  apply (rank_of_player pts time tie_mode p pre post); auto.
  - apply rank_groups_member. auto.
  - intros key Hkey Hmem. apply rank_groups_member in Hmem as [_ <-]. tauto.
Qed.

Lemma keys_sorted_sorted pts time :
  StronglySorted (key_lt tuple_ltb group_sort_key) (keys_sorted pts time).
Proof.
  unfold keys_sorted. apply py_sorted_sorted.
  - apply tuple_ltb_trans.
  - apply tuple_ltb_total.
  - apply group_sort_key_inj.
  - apply groups_wf. constructor.
Qed.

Lemma sorted_middle {A : Type} (R : A -> A -> Prop) (l1 l2 : list A) (x : A) :
  StronglySorted R (l1 ++ x :: l2) ->
  Forall (fun y => R y x) l1 /\ Forall (R x) l2.
Proof.
  induction l1 as [|a l1 IH]; simpl; intros Hs.
  - inversion Hs; subst. split; [constructor | assumption].
  - inversion Hs as [|? ? Hs' Ha]; subst.
    destruct (IH Hs') as [H1 H2]. split; [|exact H2].
    constructor; [|exact H1].
    rewrite Forall_forall in Ha. apply Ha. rewrite in_app_iff. right. now left.
Qed.

(** X2.  In every known tie mode a player with more points, or with the same
    points in less time, gets a strictly smaller rank, and two players with
    the same points and time get the same rank. *)
Theorem rank_follows_score
    (pts time : dict string Z) (tie_mode : string) (p q : string)
    (Hm : valid_tie_mode tie_mode)
    (Hp : In p (dict_keys pts)) (Hq : In q (dict_keys pts)) :
  let r := compute_rank_and_borda_with_time pts time tie_mode in
  (ahead pts time p q ->
   exists rp rq, rank_of r p = Some rp /\ rank_of r q = Some rq
                 /\ (rp < rq)%Q)
  /\ (tied pts time p q -> rank_of r p = rank_of r q).
Proof.
  cbv zeta.
  set (groups := rank_groups pts time).
  assert (Hkp : In (group_key pts time p) (keys_sorted pts time)).
  { apply keys_sorted_in. eauto. }
  apply in_split in Hkp as (pre & post & Hsplit).
  destruct (rank_of_player_at pts time tie_mode p pre post Hm Hp Hsplit)
    as (vp & Hvp & Hrp).
  split.
  - intros Hahead.
    pose proof (keys_sorted_sorted pts time) as Hsorted.
    rewrite Hsplit in Hsorted.
    destruct (sorted_middle _ _ _ _ Hsorted) as [Hbefore Hafter].
    assert (Hlt : key_lt tuple_ltb group_sort_key
                         (group_key pts time p) (group_key pts time q)).
    { exact Hahead. }
    assert (Hkq : In (group_key pts time q) post).
    { assert (Hin : In (group_key pts time q) (keys_sorted pts time)).
      { apply keys_sorted_in. eauto. }
      rewrite Hsplit, in_app_iff in Hin.
      destruct Hin as [Hin | [Heq | Hin]]; [| |exact Hin].
      - rewrite Forall_forall in Hbefore. apply Hbefore in Hin.
        unfold key_lt in Hlt, Hin.
        pose proof (tuple_ltb_trans _ _ _ Hlt Hin) as Hc.
        rewrite tuple_ltb_irrefl in Hc. discriminate.
      - unfold key_lt in Hlt. rewrite Heq, tuple_ltb_irrefl in Hlt.
        discriminate. }
    apply in_split in Hkq as (mid & post' & Hpost).
    assert (Hsplit' : keys_sorted pts time
                      = (pre ++ group_key pts time p :: mid)
                          ++ group_key pts time q :: post').
    { rewrite Hsplit, Hpost, <- app_assoc. reflexivity. }
    destruct (rank_of_player_at pts time tie_mode q _ _ Hm Hq Hsplit')
      as (vq & Hvq & Hrq).
    exists vp, vq. split; [exact Hrp|]. split; [exact Hrq|].
    fold groups in Hvp, Hvq.
    assert (Hsize_p : 1 <= group_size groups (group_key pts time p)).
    { apply keys_sorted_size. rewrite Hsplit, in_app_iff. right. now left. }
    assert (Hsize_q : 1 <= group_size groups (group_key pts time q)).
    { apply keys_sorted_size. rewrite Hsplit', in_app_iff. right. now left. }
    destruct (group_value_bounds tie_mode
                (1 + advance_all tie_mode groups pre) _ Hm Hsize_p)
      as (vp' & Hvp' & _ & Hup).
    destruct (group_value_bounds tie_mode
                (1 + advance_all tie_mode groups
                       (pre ++ group_key pts time p :: mid)) _ Hm Hsize_q)
      as (vq' & Hvq' & Hlow & _).
    assert (vp' = vp) by congruence. assert (vq' = vq) by congruence.
    subst vp' vq'.
    eapply Qle_lt_trans; [exact Hup|].
    eapply Qlt_le_trans; [|exact Hlow].
    rewrite <- Zlt_Qlt.
    rewrite advance_all_app, advance_all_cons.
    assert (Hmid : 0 <= advance_all tie_mode groups mid
                   <= advance_all "average" groups mid).
    { apply advance_all_bounds. intros key Hkey. apply keys_sorted_size.
      rewrite Hsplit', !in_app_iff. left. right. now right. }
    lia.
  - intros Htied. unfold tied in Htied.
    assert (Hsplit' : keys_sorted pts time
                      = pre ++ group_key pts time q :: post).
    { now rewrite <- Htied. }
    destruct (rank_of_player_at pts time tie_mode q pre post Hm Hq Hsplit')
      as (vq & Hvq & Hrq).
    rewrite <- Htied in Hvq. congruence.
Qed.

Lemma rank_follows_score_witness :
  exists rp rq,
    rank_of (scenario "dense") "A" = Some rp
    /\ rank_of (scenario "dense") "C" = Some rq /\ (rp < rq)%Q.
Proof.
  apply (rank_follows_score scenario_pts scenario_time "dense" "A" "C").
  - right. now left.
  - simpl. auto.
  - simpl. auto.
  - reflexivity.
Defined.

(** ** Ranks and Borda values stay between 1 and N *)

(** The groups fill the positions 1, ..., N. *)
Lemma total_positions (pts time : dict string Z) :
  dict_wf pts ->
  advance_all "average" (rank_groups pts time) (keys_sorted pts time)
  = py_len pts.
Proof.
  intros Hwf.
  assert (Hfair : "average" = "average" \/ no_exact_tie pts time)
    by now left.
  pose proof (keys_sorted_fair pts time "average" Hfair) as Hkeys.
  destruct (rank_loop_total_fair "average" (rank_groups pts time)
              (keys_sorted pts time) Hkeys ([], 1)) as [[rb cr] Hrun].
  pose proof (rank_loop_rank _ _ _ _ _ _ _ Hrun) as Hcr.
  pose proof (rank_loop_covers pts time "average" Hwf rb cr Hrun) as Hcover.
  apply (rank_loop_sum "average" (rank_groups pts time)
           (rank_groups_nodup pts time Hwf) (rank_groups_disjoint pts time)
           (keys_sorted pts time) (keys_sorted_nodup pts time) Hkeys)
    in Hrun as [_ Hlen]; [|intros key p _ _ []].
  rewrite Hcover in Hlen. unfold py_len in Hlen at 2. simpl in Hlen. lia.
Qed.

(** X3.  In every known tie mode each player of a map with N distinct
    players gets a rank between 1 and N, and a Borda value N - rank + 1,
    which lies between 1 and N as well. *)
Theorem rank_and_borda_within_bounds
    (pts time : dict string Z) (tie_mode : string) (p : string)
    (Hwf : dict_wf pts) (Hm : valid_tie_mode tie_mode)
    (Hp : In p (dict_keys pts)) :
  let r := compute_rank_and_borda_with_time pts time tie_mode in
  let N := float_of_int (py_len pts) in
  exists rank,
    rank_of r p = Some rank
    /\ borda_for r p = Some (N - rank + 1)%Q
    /\ (1 <= rank)%Q /\ (rank <= N)%Q
    /\ (1 <= N - rank + 1)%Q /\ (N - rank + 1 <= N)%Q.
Proof.
  cbv zeta.
  set (groups := rank_groups pts time).
  assert (Hkp : In (group_key pts time p) (keys_sorted pts time)).
  { apply keys_sorted_in. eauto. }
  pose proof (keys_sorted_size pts time _ Hkp) as Hsize.
  apply in_split in Hkp as (pre & post & Hsplit).
  destruct (rank_of_player_at pts time tie_mode p pre post Hm Hp Hsplit)
    as (v & Hv & Hrank).
  fold groups in Hv, Hsize.
  destruct (group_value_bounds tie_mode
              (1 + advance_all tie_mode groups pre) _ Hm Hsize)
    as (v' & Hv' & Hlow & Hup).
  assert (v' = v) by congruence. subst v'.
  exists v.
  assert (Hne : pts <> []) by (intros ->; contradiction).
  assert (Hborda :
            borda_for (compute_rank_and_borda_with_time pts time tie_mode) p
            = Some (float_of_int (py_len pts) - v + 1)%Q).
  { revert Hrank. rewrite (compute_nonempty _ _ _ Hne).
    destruct (rank_loop tie_mode _ _ _) as [[rb cr]|]; cbn [bind];
      [|discriminate].
    cbn [rank_of borda_for fst]. intros Hget.
    now rewrite borda_of_get, Hget. }
  assert (Hone : (1 <= v)%Q).
  { eapply Qle_trans; [|exact Hlow]. change 1%Q with (inject_Z 1).
    rewrite <- Zle_Qle.
    assert (0 <= advance_all tie_mode groups pre
            <= advance_all "average" groups pre).
    { apply advance_all_bounds. intros key Hkey. apply keys_sorted_size.
      rewrite Hsplit, in_app_iff. now left. }
    lia. }
  assert (HN : (v <= float_of_int (py_len pts))%Q).
  { eapply Qle_trans; [exact Hup|]. unfold float_of_int.
    rewrite <- Zle_Qle, <- (total_positions pts time Hwf).
    assert (Hall : 0 <= advance_all tie_mode groups (keys_sorted pts time)
                   <= advance_all "average" groups (keys_sorted pts time)).
    { apply advance_all_bounds. intros key Hkey.
      now apply keys_sorted_size. }
    assert (Hsum : advance_all tie_mode groups (keys_sorted pts time)
                   = advance_all tie_mode groups pre
                     + (advance tie_mode
                                (group_size groups (group_key pts time p))
                        + advance_all tie_mode groups post)).
    { now rewrite Hsplit, advance_all_app, advance_all_cons. }
    assert (0 <= advance_all tie_mode groups post
            <= advance_all "average" groups post).
    { apply advance_all_bounds. intros key Hkey. apply keys_sorted_size.
      rewrite Hsplit, in_app_iff. right. now right. }
    fold groups. lia. }
  split; [exact Hrank|]. split; [exact Hborda|].
  split; [exact Hone|]. split; [exact HN|].
  split.
  - apply Qplus_le_l with (z := (v - 1)%Q). ring_simplify. exact HN.
  - apply Qplus_le_l with (z := (v - 1)%Q). ring_simplify.
    setoid_replace (float_of_int (py_len pts) + v - 1)%Q
      with (float_of_int (py_len pts) + (v - 1))%Q by ring.
    rewrite <- (Qplus_0_r (float_of_int (py_len pts))) at 1.
    apply Qplus_le_r. apply Qplus_le_l with (z := 1%Q). ring_simplify.
    exact Hone.
Qed.

Lemma rank_and_borda_within_bounds_witness :
  exists rank,
    rank_of (scenario "max") "B" = Some rank
    /\ borda_for (scenario "max") "B" = Some (3 - rank + 1)%Q
    /\ (1 <= rank)%Q /\ (rank <= 3)%Q
    /\ (1 <= 3 - rank + 1)%Q /\ (3 - rank + 1 <= 3)%Q.
Proof.
  apply (rank_and_borda_within_bounds scenario_pts scenario_time "max" "B").
  - repeat constructor; simpl; intuition discriminate.
  - right. right. now right.
  - simpl. auto.
Defined.

(** X4.  Whenever the ranker returns, both dictionaries have exactly the
    players of the input as keys, each once, and in the same order in both. *)
Theorem ranker_covers_exactly_the_players
    (pts time : dict string Z) (tie_mode : string)
    (rb bo : dict string Q)
    (Hwf : dict_wf pts)
    (Hrun : compute_rank_and_borda_with_time pts time tie_mode = Ok (rb, bo)) :
  dict_wf rb
  /\ Permutation (dict_keys rb) (dict_keys pts)
  /\ dict_keys bo = dict_keys rb.
Proof.
  assert (Hcases : pts = [] \/ pts <> []).
  { destruct pts; [now left | right; discriminate]. }
  destruct Hcases as [Hnil | Hne].
  { subst pts. cbn in Hrun. injection Hrun as <- <-.
    repeat split; constructor. }
  rewrite (compute_nonempty _ _ _ Hne) in Hrun.
  destruct (rank_loop tie_mode (rank_groups pts time) (keys_sorted pts time)
                      ([], 1)) as [[rb' cr]|] eqn:Hloop;
    cbn [bind fst] in Hrun; [|discriminate].
  injection Hrun as <- <-.
  assert (Hrb : dict_wf rb').
  { eapply (rank_loop_wf tie_mode (rank_groups pts time));
      [exact Hloop | constructor]. }
  split; [exact Hrb|]. split.
  - apply NoDup_Permutation; [exact Hrb | exact Hwf |].
    intros p. split.
    + intros Hin.
      destruct (rank_loop_keys tie_mode (rank_groups pts time)
                  _ _ _ _ _ p Hloop Hin) as [[] | (key & _ & Hmem)].
      now apply rank_groups_member in Hmem.
    + intros Hp.
      destruct (keys_sorted_split pts time p Hp)
        as (pre & post & Hsplit & _ & _ & Hmem & Hout).
      rewrite Hsplit in Hloop.
      eapply rank_loop_lookup with (p := p) in Hloop
        as (v & _ & Hget); [|exact Hmem|intros; apply Hout; now right].
      eapply dict_get_some_in; eauto.
  - unfold borda_of, dict_keys. rewrite map_map. reflexivity.
Qed.

Lemma ranker_covers_exactly_the_players_witness :
  Permutation (dict_keys [("A", 1); ("B", 1); ("C", 3)] : list string)
              (dict_keys scenario_pts).
Proof.
  apply (ranker_covers_exactly_the_players
           scenario_pts scenario_time "min"
           [("A", 1); ("B", 1); ("C", 3)]%Q
           [("A", 3 - 1 + 1); ("B", 3 - 1 + 1); ("C", 3 - 3 + 1)]%Q).
  - repeat constructor; simpl; intuition discriminate.
  - vm_compute. reflexivity.
Defined.

(** ** More on the deadline filter *)

(** X5.  When no entry belongs to a week with a deadline, the filter returns
    its input unchanged, whatever [keep_missing_time] is. *)
Theorem filter_without_deadlines_is_identity
    (entries : list Entry) (deadlines : dict string Z) (keep : bool)
    (Hnone : forall e, In e entries ->
                       dict_get (week_label e) deadlines = None) :
  filter_entries_by_deadlines entries deadlines keep = entries.
Proof.
  rewrite filter_entries_is_filter.
  induction entries as [|e entries IH]; simpl; [reflexivity|].
  assert (Hkept : entry_kept deadlines keep e = true).
  { unfold entry_kept, filter_step. now rewrite (Hnone e (or_introl eq_refl)). }
  rewrite Hkept. f_equal. apply IH. intros; apply Hnone; now right.
Qed.

Lemma filter_without_deadlines_is_identity_witness :
  filter_entries_by_deadlines
    [sample_entry "W1" "A" None; sample_entry "W2" "B" (Some 5)]
    [("W3", 1)] false
  = [sample_entry "W1" "A" None; sample_entry "W2" "B" (Some 5)].
Proof.
  apply (filter_without_deadlines_is_identity
           [sample_entry "W1" "A" None; sample_entry "W2" "B" (Some 5)]
           [("W3", 1)] false).
  intros e [<- | [<- | []]]; reflexivity.
Defined.

Lemma entry_kept_strict_lenient deadlines e :
  entry_kept deadlines false e = true -> entry_kept deadlines true e = true.
Proof.
  unfold entry_kept, filter_step.
  destruct (dict_get (week_label e) deadlines); [|auto].
  destruct (played_at_epoch e); [auto | discriminate].
Qed.

Lemma filter_twice {A : Type} (f h : A -> bool) (l : list A) :
  filter f (filter h l) = filter (fun x => h x && f x) l.
Proof.
  induction l as [|x l IH]; simpl; [reflexivity|].
  destruct (h x); simpl; [|exact IH].
  destruct (f x); now rewrite IH.
Qed.

(** X6.  The filter keeps the order of its input and is idempotent, and
    filtering strictly what the lenient filter kept gives the strict result:
    turning [keep_missing_time] on only adds entries. *)
Theorem filter_idempotent_and_monotone
    (entries : list Entry) (deadlines : dict string Z) (keep : bool) :
  filter_entries_by_deadlines entries deadlines keep
  = filter (entry_kept deadlines keep) entries
  /\ filter_entries_by_deadlines
       (filter_entries_by_deadlines entries deadlines keep) deadlines keep
     = filter_entries_by_deadlines entries deadlines keep
  /\ filter_entries_by_deadlines
       (filter_entries_by_deadlines entries deadlines true) deadlines false
     = filter_entries_by_deadlines entries deadlines false.
Proof.
  rewrite !filter_entries_is_filter, !filter_twice.
  split; [reflexivity|]. split.
  - apply filter_ext. intros e. now destruct (entry_kept deadlines keep e).
  - apply filter_ext. intros e.
    destruct (entry_kept deadlines false e) eqn:Hstrict.
    + now rewrite (entry_kept_strict_lenient _ _ Hstrict).
    + now rewrite andb_false_r.
Qed.

(** ** The latest timestamp *)

Section LatestFacts.
Variable to_datetime_epoch : string -> option Z.

Let step := played_at_step to_datetime_epoch.

Lemma played_at_step_some (b : Z) (kv : string * json) :
  exists b', step (Some b) kv = Some b' /\ b <= b'.
Proof.
  unfold step, played_at_step.
  destruct (is_candidate_key (fst kv)); [|exists b; split; [reflexivity|lia]].
  destruct (_try_parse_epoch to_datetime_epoch (snd kv)) as [ep|];
    [|exists b; split; [reflexivity|lia]].
  destruct (Z.ltb_spec b ep).
  - exists ep. split; [reflexivity | lia].
  - exists b. split; [reflexivity | lia].
Qed.

Lemma played_at_step_candidate (best : option Z) (k : string) (v : json)
    (ep : Z) :
  is_candidate_key k = true ->
  _try_parse_epoch to_datetime_epoch v = Some ep ->
  exists b', step best (k, v) = Some b' /\ ep <= b'.
Proof.
  intros Hk Hv. unfold step, played_at_step. simpl. rewrite Hk, Hv.
  destruct best as [b|].
  - destruct (Z.ltb_spec b ep).
    + exists ep. split; [reflexivity | lia].
    + exists b. split; [reflexivity | lia].
  - exists ep. split; [reflexivity | lia].
Qed.

Lemma played_at_dict_some (d : list (string * json)) (b : Z) :
  exists b', fold_left step d (Some b) = Some b' /\ b <= b'.
Proof.
  revert b; induction d as [|kv d IH]; intros b; simpl.
  - exists b. split; [reflexivity | lia].
  - destruct (played_at_step_some b kv) as (b1 & -> & Hb1).
    destruct (IH b1) as (b' & Hb' & Hle). exists b'. split; [exact Hb'|lia].
Qed.

Lemma played_at_dict_latest (d : list (string * json)) (best : option Z)
    (k : string) (v : json) (ep : Z) :
  In (k, v) d -> is_candidate_key k = true ->
  _try_parse_epoch to_datetime_epoch v = Some ep ->
  exists b', fold_left step d best = Some b' /\ ep <= b'.
Proof.
  revert best; induction d as [|kv d IH]; intros best Hin Hk Hv;
    [contradiction|].
  simpl. destruct Hin as [-> | Hin].
  - destruct (played_at_step_candidate best k v ep Hk Hv) as (b1 & -> & Hb1).
    destruct (played_at_dict_some d b1) as (b' & Hb' & Hle).
    exists b'. split; [exact Hb' | lia].
  - now apply IH.
Qed.

Lemma played_at_some (ds : list (list (string * json))) (b : Z) :
  exists b',
    fold_left (fun best d => fold_left step d best) ds (Some b) = Some b'
    /\ b <= b'.
Proof.
  revert b; induction ds as [|d ds IH]; intros b; simpl.
  - exists b. split; [reflexivity | lia].
  - destruct (played_at_dict_some d b) as (b1 & -> & Hb1).
    destruct (IH b1) as (b' & Hb' & Hle). exists b'. split; [exact Hb'|lia].
Qed.

Lemma played_at_latest (ds : list (list (string * json))) (best : option Z)
    (d : list (string * json)) (k : string) (v : json) (ep : Z) :
  In d ds -> In (k, v) d -> is_candidate_key k = true ->
  _try_parse_epoch to_datetime_epoch v = Some ep ->
  exists b',
    fold_left (fun best d => fold_left step d best) ds best = Some b'
    /\ ep <= b'.
Proof.
  revert best; induction ds as [|d0 ds IH]; intros best Hd Hin Hk Hv;
    [contradiction|].
  simpl. destruct Hd as [-> | Hd].
  - destruct (played_at_dict_latest d best k v ep Hin Hk Hv)
      as (b1 & -> & Hb1).
    destruct (played_at_some ds b1) as (b' & Hb' & Hle).
    exists b'. split; [exact Hb' | lia].
  - now apply IH.
Qed.
End LatestFacts.

(** X7.  The played-at extractor returns the latest of the timestamps the
    payload offers: its result is one of them and no offered timestamp is
    later; it returns nothing exactly when the payload offers none. *)
Theorem extract_played_at_epoch_is_latest
    (to_datetime_epoch : string -> option Z) (payload : json) :
  (forall ep,
     extract_played_at_epoch to_datetime_epoch payload = Some ep ->
     offers to_datetime_epoch payload ep
     /\ forall ep', offers to_datetime_epoch payload ep' -> ep' <= ep)
  /\ (extract_played_at_epoch to_datetime_epoch payload = None
      <-> forall ep, ~ offers to_datetime_epoch payload ep).
Proof.
  assert (Hlatest : forall ep',
            offers to_datetime_epoch payload ep' ->
            exists b, extract_played_at_epoch to_datetime_epoch payload = Some b
                      /\ ep' <= b).
  { intros ep' (d & k & v & Hd & Hin & Hk & Hv).
    unfold extract_played_at_epoch.
    eapply played_at_latest; eauto. }
  split.
  - intros ep Hex. split.
    + unfold extract_played_at_epoch in Hex.
      apply played_at_origin in Hex as [Hb | (d & k & v & Hd & Hin & Hk & Hv)];
        [discriminate|].
      exists d, k, v. auto.
    + intros ep' Hoff. destruct (Hlatest ep' Hoff) as (b & Hb & Hle).
      congruence.
  - split.
    + intros Hnone ep Hoff. destruct (Hlatest ep Hoff) as (b & Hb & _).
      congruence.
    + intros Hno.
      destruct (extract_played_at_epoch to_datetime_epoch payload) as [ep|]
        eqn:Hex; [|reflexivity].
      exfalso. apply (Hno ep).
      unfold extract_played_at_epoch in Hex.
      apply played_at_origin in Hex as [Hb | (d & k & v & Hd & Hin & Hk & Hv)];
        [discriminate|].
      exists d, k, v. auto.
Qed.

Lemma extract_played_at_epoch_is_latest_witness :
  offers (fun _ => None)
         (JDict [("created", JInt 1700000000);
                 ("game", JDict [("endTime", JInt 1700000500000)])])
         1700000500
  /\ forall ep',
       offers (fun _ => None)
              (JDict [("created", JInt 1700000000);
                      ("game", JDict [("endTime", JInt 1700000500000)])])
              ep' -> ep' <= 1700000500.
Proof.
  apply (extract_played_at_epoch_is_latest
           (fun _ => None)
           (JDict [("created", JInt 1700000000);
                   ("game", JDict [("endTime", JInt 1700000500000)])])).
  reflexivity.
Defined.

(** X8.  A moment given in seconds and the same moment given in milliseconds
    parse to the same epoch: for 10^9 < s <= 10^10 both the integer s and
    any integer 1000 s + r with 0 <= r < 1000 parse to s. *)
Theorem try_parse_epoch_seconds_and_milliseconds_agree
    (to_datetime_epoch : string -> option Z) (s r : Z)
    (Hlow : 1000000000 < s) (Hhigh : s <= 10000000000)
    (Hr : 0 <= r < 1000) :
  _try_parse_epoch to_datetime_epoch (JInt s) = Some s
  /\ _try_parse_epoch to_datetime_epoch (JInt (1000 * s + r)) = Some s.
Proof.
  change (epoch_of_int s = Some s
          /\ epoch_of_int (1000 * s + r) = Some s).
  unfold epoch_of_int. split.
  - destruct (Z.ltb_spec 10000000000 s); [lia|].
    destruct (Z.ltb_spec 1000000000 s); [reflexivity | lia].
  - destruct (Z.ltb_spec 10000000000 (1000 * s + r)); [|lia].
    f_equal. symmetry. apply (Z.div_unique _ _ s r); lia.
Qed.

Lemma try_parse_epoch_seconds_and_milliseconds_agree_witness :
  _try_parse_epoch (fun _ => None) (JInt 1700000000) = Some 1700000000
  /\ _try_parse_epoch (fun _ => None) (JInt (1000 * 1700000000 + 123))
     = Some 1700000000.
Proof.
  apply (try_parse_epoch_seconds_and_milliseconds_agree
           (fun _ => None) 1700000000 123); lia.
Defined.

(** ** More on the entries of a week *)

Section EntryFacts.
Variable to_datetime_epoch : string -> option Z.
Variable http_get_json : string -> result json.
Variable fetch_highscores_items : string -> Z -> Z -> result (list json).
Variable load_urls : string -> result (list string).
Variable extract_token : string -> result string.
Variable py_repr : json -> string.

(** An invariant of the entries built so far is kept by the whole week when
    every entry a map adds satisfies it. *)
Lemma build_item_forall (P : Entry -> Prop) week map_idx url token info fetch
    st it :
  (forall name pts ttime played_at,
     (fetch = false -> played_at = None) ->
     P {| week_label := label week; map_index := map_idx; map_url := url;
          map_token := token;
          map_name := if String.eqb (fst info) ""
                      then String.append "Map " (str_of_int map_idx)
                      else fst info;
          rule_text := snd info; player := name; total_pts := pts;
          total_time := ttime; played_at_epoch := played_at |}) ->
  Forall P (out_entries st) ->
  Forall P (out_entries
              (build_item to_datetime_epoch http_get_json week map_idx url
                          token info fetch st it)).
Proof.
  intros Hnew Hst. unfold build_item.
  destruct it; try assumption.
  destruct (negb (dict_mem "game" d)); [assumption|].
  destruct (String.eqb _ "UNKNOWN"); [assumption|].
  destruct (lookup_played_at _ _ _ _ _) as [played_at cache] eqn:Hlook.
  simpl. apply Forall_app. split; [exact Hst|].
  constructor; [|constructor]. apply Hnew.
  intros ->. unfold lookup_played_at in Hlook. now injection Hlook as <- _.
Qed.

Lemma build_items_forall (P : Entry -> Prop) week map_idx url token info fetch
    items :
  (forall name pts ttime played_at,
     (fetch = false -> played_at = None) ->
     P {| week_label := label week; map_index := map_idx; map_url := url;
          map_token := token;
          map_name := if String.eqb (fst info) ""
                      then String.append "Map " (str_of_int map_idx)
                      else fst info;
          rule_text := snd info; player := name; total_pts := pts;
          total_time := ttime; played_at_epoch := played_at |}) ->
  forall st,
    Forall P (out_entries st) ->
    Forall P (out_entries
                (fold_left (build_item to_datetime_epoch http_get_json week
                                       map_idx url token info fetch)
                           items st)).
Proof.
  intros Hnew. induction items as [|it items IH]; intros st Hst; simpl.
  - exact Hst.
  - apply IH. now apply build_item_forall.
Qed.

Lemma build_maps_unresolved week page_size max_players urls :
  forall map_idx st st',
    Forall unresolved (out_entries st) ->
    build_maps to_datetime_epoch http_get_json fetch_highscores_items
      extract_token py_repr week page_size max_players false map_idx urls st
    = Ok st' ->
    Forall unresolved (out_entries st').
Proof.
  induction urls as [|url urls IH]; intros map_idx st st' Hst Hrun;
    simpl in Hrun.
  - now injection Hrun as <-.
  - destruct (extract_token url) as [token|]; [simpl in Hrun|discriminate].
    destruct (fetch_highscores_items token page_size max_players)
      as [items|]; [simpl in Hrun|discriminate].
    eapply IH; [|exact Hrun].
    apply build_items_forall; [|exact Hst].
    intros name pts ttime played_at Hnone. unfold unresolved. simpl. auto.
Qed.

Lemma build_maps_from_map week page_size max_players fetch all_urls urls :
  forall done map_idx st st',
    all_urls = done ++ urls ->
    map_idx = 1 + py_len done ->
    Forall (from_map extract_token week all_urls) (out_entries st) ->
    build_maps to_datetime_epoch http_get_json fetch_highscores_items
      extract_token py_repr week page_size max_players fetch map_idx urls st
    = Ok st' ->
    Forall (from_map extract_token week all_urls) (out_entries st').
Proof.
  induction urls as [|url urls IH]; intros done map_idx st st' Hall Hidx Hst
    Hrun; simpl in Hrun.
  - now injection Hrun as <-.
  - destruct (extract_token url) as [token|] eqn:Htoken;
      [simpl in Hrun|discriminate].
    destruct (fetch_highscores_items token page_size max_players)
      as [items|]; [simpl in Hrun|discriminate].
    apply (IH (done ++ [url]) (map_idx + 1)) in Hrun; [exact Hrun | | |].
    + now rewrite <- app_assoc.
    + subst map_idx. unfold py_len. rewrite length_app.
      cbn [List.length]. lia.
    + apply build_items_forall; [|exact Hst].
      intros name pts ttime played_at _. unfold from_map. simpl.
      subst map_idx all_urls. unfold py_len.
      repeat split.
      * lia.
      * rewrite length_app. cbn [List.length]. lia.
      * replace (Z.to_nat (1 + Z.of_nat (List.length done) - 1))
          with (List.length done + 0)%nat by lia.
        now rewrite nth_error_app2, Nat.add_comm, Nat.add_sub by lia.
      * exact Htoken.
      * destruct (String.eqb_spec (fst (map_info py_repr items)) "");
          [discriminate | assumption].
Qed.
End EntryFacts.

(** X9.  When played-at lookup is off for a week, no entry of the week has a
    played-at time and the flag returned with the entries is false. *)
Theorem build_week_entries_without_lookup
    (to_datetime_epoch : string -> option Z)
    (http_get_json : string -> result json)
    (fetch_highscores_items : string -> Z -> Z -> result (list json))
    (load_urls : string -> result (list string))
    (extract_token : string -> result string)
    (py_repr : json -> string)
    (week : WeekSpec) (page_size max_players : Z)
    (entries : list Entry) (any : bool)
    (Hrun : build_week_entries to_datetime_epoch http_get_json
              fetch_highscores_items load_urls extract_token py_repr week
              page_size max_players false = Ok (entries, any)) :
  any = false /\ forall e, In e entries -> played_at_epoch e = None.
Proof.
  pose proof (build_week_entries_flag _ _ _ _ _ _ _ _ _ _ _ _ Hrun) as Hflag.
  assert (Hall : Forall unresolved entries).
  { unfold build_week_entries in Hrun.
    destruct (load_urls (urls_path week)) as [urls|];
      [simpl in Hrun|discriminate].
    destruct urls as [|url urls]; [discriminate|].
    destruct (build_maps _ _ _ _ _ _ _ _ _ _ _ _) as [st|] eqn:Hmaps;
      [simpl in Hrun|discriminate].
    injection Hrun as <- _.
    eapply build_maps_unresolved; [|exact Hmaps]. constructor. }
  rewrite Forall_forall in Hall. split; [|exact Hall].
  rewrite Hflag. apply not_true_is_false. intros Hex.
  apply existsb_exists in Hex as (e & He & Hres).
  unfold resolved in Hres. rewrite (Hall e He) in Hres. discriminate.
Qed.

Lemma build_week_entries_without_lookup_witness :
  false = false /\ forall e, In e dup_entries -> played_at_epoch e = None.
Proof.
  apply (build_week_entries_without_lookup
           (fun _ => None) (fun _ => Raise "offline")
           (fun _ _ _ => Ok dup_items)
           (fun _ => Ok ["https://www.geoguessr.com/challenge/abc"])
           (fun _ => Ok "abc") (fun _ => "")
           {| label := "W1"; urls_path := "urls_week1.txt";
              deadline := None |}
           200 5000 dup_entries false).
  vm_compute. reflexivity.
Defined.

(** X10.  Every entry of a week names that week and the map it was read
    from: its map index is the 1-based position of its URL in the week's
    URL list, its token is the one extracted from that URL, and its map name
    is never empty. *)
Theorem build_week_entries_map_identity
    (to_datetime_epoch : string -> option Z)
    (http_get_json : string -> result json)
    (fetch_highscores_items : string -> Z -> Z -> result (list json))
    (load_urls : string -> result (list string))
    (extract_token : string -> result string)
    (py_repr : json -> string)
    (week : WeekSpec) (page_size max_players : Z) (fetch : bool)
    (entries : list Entry) (any : bool)
    (Hrun : build_week_entries to_datetime_epoch http_get_json
              fetch_highscores_items load_urls extract_token py_repr week
              page_size max_players fetch = Ok (entries, any)) :
  exists urls,
    load_urls (urls_path week) = Ok urls /\ urls <> []
    /\ forall e, In e entries -> from_map extract_token week urls e.
Proof.
  unfold build_week_entries in Hrun.
  destruct (load_urls (urls_path week)) as [urls|];
    [simpl in Hrun|discriminate].
  exists urls. split; [reflexivity|].
  destruct urls as [|url urls]; [discriminate|].
  split; [discriminate|].
  destruct (build_maps _ _ _ _ _ _ _ _ _ _ _ _) as [st|] eqn:Hmaps;
    [simpl in Hrun|discriminate].
  injection Hrun as <- _.
  apply Forall_forall.
  exact (build_maps_from_map _ _ _ _ _ week page_size max_players fetch
           (url :: urls) (url :: urls) [] 1
           {| out_entries := []; has_any_played_at := false;
              played_at_cache := [] |}
           st eq_refl eq_refl (Forall_nil _) Hmaps).
Qed.

Lemma build_week_entries_map_identity_witness :
  exists urls,
    Ok ["https://www.geoguessr.com/challenge/abc"] = Ok urls /\ urls <> []
    /\ forall e, In e dup_entries ->
                 from_map (fun _ => Ok "abc")
                          {| label := "W1"; urls_path := "urls_week1.txt";
                             deadline := None |} urls e.
Proof.
  apply (build_week_entries_map_identity
           (fun _ => None) (fun _ => Raise "offline")
           (fun _ _ _ => Ok dup_items)
           (fun _ => Ok ["https://www.geoguessr.com/challenge/abc"])
           (fun _ => Ok "abc") (fun _ => "")
           {| label := "W1"; urls_path := "urls_week1.txt";
              deadline := None |}
           200 5000 false dup_entries false).
  vm_compute. reflexivity.
Defined.

(** ** Week specifications *)

Lemma str_split_nonempty (sep : ascii) (s : string) : str_split sep s <> [].
Proof.
  destruct s as [|c s]; simpl; [discriminate|].
  destruct (Ascii.eqb c sep); [discriminate|].
  destruct (str_split sep s); discriminate.
Qed.

Lemma str_split_no_sep (sep : ascii) (s : string) :
  has_char sep s = false -> str_split sep s = [s].
Proof.
  induction s as [|c s IH]; simpl; [reflexivity|].
  intros Hno. apply orb_false_iff in Hno as [Hc Hs].
  rewrite Hc, (IH Hs). reflexivity.
Qed.

Lemma str_split_sep (sep : ascii) (a b : string) :
  has_char sep a = false ->
  str_split sep (String.append a (String sep b)) = a :: str_split sep b.
Proof.
  induction a as [|c a IH]; simpl.
  - intros _. now rewrite Ascii.eqb_refl.
  - intros Hno. apply orb_false_iff in Hno as [Hc Ha].
    rewrite Hc, (IH Ha). reflexivity.
Qed.

Lemma str_split_has_sep (sep : ascii) (s : string) :
  has_char sep s = true -> exists a b rest, str_split sep s = a :: b :: rest.
Proof.
  induction s as [|c s IH]; simpl; [discriminate|].
  destruct (Ascii.eqb c sep) eqn:Hc; simpl.
  - intros _. pose proof (str_split_nonempty sep s) as Hne.
    destruct (str_split sep s) as [|b rest]; [contradiction|].
    now exists "", b, rest.
  - intros Hs. destruct (IH Hs) as (a & b & rest & ->).
    now exists (String c a), b, rest.
Qed.

(** Splitting undoes joining, for fields that do not hold the separator. *)
Lemma str_split_join (sep : ascii) (parts : list string) :
  parts <> [] ->
  Forall (fun x => has_char sep x = false) parts ->
  str_split sep (str_join (String sep "") parts) = parts.
Proof.
  induction parts as [|x parts IH]; intros Hne Hall; [contradiction|].
  inversion Hall as [|? ? Hx Hrest]; subst.
  destruct parts as [|y parts].
  - simpl. now apply str_split_no_sep.
  - change (str_join (String sep "") (x :: y :: parts))
      with (String.append x
              (String sep (str_join (String sep "") (y :: parts)))).
    rewrite (str_split_sep sep x _ Hx). f_equal.
    apply IH; [discriminate | exact Hrest].
Qed.

(** X11.  A week specification written as fields joined by a bar is read
    back field by field: the first field, trimmed, is the label; the second,
    trimmed, is handed to the path expansion, whose result is the URL file
    and whose failure is the failure of the parse; the third is the deadline
    unless it is blank; further fields are ignored. *)
Theorem parse_week_spec_reads_fields
    (path_expanduser : string -> result string)
    (lbl path : string) (rest : list string)
    (Hfields : Forall (fun x => has_char "|" x = false)
                      (lbl :: path :: rest)) :
  url_field (str_join "|" (lbl :: path :: rest)) = str_strip path
  /\ parse_week_spec path_expanduser (str_join "|" (lbl :: path :: rest))
     = match path_expanduser (str_strip path) with
       | Ok p => Ok (week_of_fields lbl p rest)
       | Raise e => Raise e
       end.
Proof.
  unfold parse_week_spec, url_field.
  rewrite (str_split_join "|" (lbl :: path :: rest));
    [|discriminate | exact Hfields].
  cbn [map nth]. split; [reflexivity|].
  destruct (path_expanduser (str_strip path)) as [p|e]; cbn [bind];
    [|reflexivity].
  unfold week_of_fields. destruct rest as [|d rest]; reflexivity.
Qed.

Lemma parse_week_spec_reads_fields_witness :
  parse_week_spec (fun p => Ok (String.append "/home/u/" p))
                  (str_join "|" ["Vecka 1"; " urls_week1.txt"; " "])
  = Ok (week_of_fields "Vecka 1" "/home/u/urls_week1.txt" [" "]).
Proof.
  destruct (parse_week_spec_reads_fields
              (fun p => Ok (String.append "/home/u/" p))
              "Vecka 1" " urls_week1.txt" [" "]) as [_ Hparse].
  - repeat constructor.
  - exact Hparse.
Defined.

Section WeekSpecFacts.
Variable path_expanduser : string -> result string.

Lemma parse_week_spec_ok_iff (s : string) :
  (exists w, parse_week_spec path_expanduser s = Ok w)
  <-> week_arg_ok path_expanduser s.
Proof.
  unfold parse_week_spec, week_arg_ok, url_field. split.
  - intros [w Hw]. destruct (has_char "|" s) eqn:Hs.
    + split; [reflexivity|].
      destruct (str_split_has_sep _ _ Hs) as (a & b & rest & Hsplit).
      rewrite Hsplit in *. cbn [map nth] in *.
      destruct (path_expanduser (str_strip b)) as [p|e]; [eauto|].
      discriminate Hw.
    + rewrite (str_split_no_sep _ _ Hs) in Hw. discriminate Hw.
  - intros [Hs [p Hp]].
    destruct (str_split_has_sep _ _ Hs) as (a & b & rest & Hsplit).
    rewrite Hsplit in *. cbn [map nth] in *. rewrite Hp. cbn [bind]. eauto.
Qed.

Lemma parse_week_spec_error (s : string) (e : string) :
  parse_week_spec path_expanduser s = Raise e ->
  e = "SystemExit"
  \/ (has_char "|" s = true /\ path_expanduser (url_field s) = Raise e).
Proof.
  unfold parse_week_spec, url_field.
  destruct (has_char "|" s) eqn:Hs.
  - destruct (str_split_has_sep _ _ Hs) as (a & b & rest & ->).
    cbn [map nth].
    destruct (path_expanduser (str_strip b)) as [p|e']; cbn [bind].
    + discriminate.
    + intros [= <-]. right. auto.
  - rewrite (str_split_no_sep _ _ Hs). cbn [map]. intros [= <-]. now left.
Qed.

Lemma parse_week_specs_loop_spec (week_args : list string) :
  (forall s, In s week_args -> week_arg_ok path_expanduser s) ->
  exists weeks,
    parse_week_specs_loop path_expanduser week_args = Ok weeks
    /\ map (fun w => Ok w) weeks
       = map (parse_week_spec path_expanduser) week_args.
Proof.
  induction week_args as [|s args IH]; intros Hall.
  - exists []. split; reflexivity.
  - destruct (proj2 (parse_week_spec_ok_iff s) (Hall s (or_introl eq_refl)))
      as [w Hw].
    destruct IH as (ws & Hws & Hmap); [intros; apply Hall; now right|].
    exists (w :: ws). simpl. rewrite Hw, Hws. simpl.
    split; [reflexivity | now rewrite Hmap].
Qed.

Lemma parse_week_specs_loop_ok (week_args : list string)
    (weeks : list WeekSpec) :
  parse_week_specs_loop path_expanduser week_args = Ok weeks ->
  forall s, In s week_args -> week_arg_ok path_expanduser s.
Proof.
  revert weeks; induction week_args as [|a args IH]; intros weeks Hrun s Hin;
    [contradiction|].
  simpl in Hrun.
  destruct (parse_week_spec path_expanduser a) as [w|] eqn:Ha;
    [cbn [bind] in Hrun|discriminate].
  destruct (parse_week_specs_loop path_expanduser args) as [ws|] eqn:Hws;
    [cbn [bind] in Hrun|discriminate].
  destruct Hin as [<- | Hin].
  - apply parse_week_spec_ok_iff. eauto.
  - now apply (IH ws).
Qed.

Lemma parse_week_specs_loop_error (week_args : list string) (e : string) :
  parse_week_specs_loop path_expanduser week_args = Raise e ->
  e = "SystemExit"
  \/ exists s, In s week_args /\ has_char "|" s = true
               /\ path_expanduser (url_field s) = Raise e.
Proof.
  induction week_args as [|a args IH]; intros Hrun; [discriminate|].
  simpl in Hrun.
  destruct (parse_week_spec path_expanduser a) as [w|e'] eqn:Ha;
    cbn [bind] in Hrun.
  - destruct (parse_week_specs_loop path_expanduser args) as [ws|e'']
      eqn:Hws; cbn [bind] in Hrun; [discriminate|].
    injection Hrun as ->.
    destruct (IH eq_refl) as [-> | (s & Hin & Hs & Hp)]; [now left|].
    right. exists s. split; [now right | auto].
  - injection Hrun as ->.
    destruct (parse_week_spec_error a e Ha) as [-> | [Hs Hp]]; [now left|].
    right. exists a. split; [now left | auto].
Qed.
End WeekSpecFacts.

(** X12.  The list of week arguments is accepted exactly when it is not
    empty, every argument holds a bar and the path of every argument can be
    made; it then yields one specification per argument, in order.  When it
    is refused the run exits, or fails with the error the path expansion
    raised on one of the arguments. *)
Theorem parse_week_specs_accepts_iff
    (path_expanduser : string -> result string) (week_args : list string) :
  ((exists weeks, parse_week_specs path_expanduser week_args = Ok weeks)
   <-> week_args <> []
       /\ forall s, In s week_args -> week_arg_ok path_expanduser s)
  /\ (forall weeks,
        parse_week_specs path_expanduser week_args = Ok weeks ->
        map (fun w => Ok w) weeks
        = map (parse_week_spec path_expanduser) week_args)
  /\ (forall e,
        parse_week_specs path_expanduser week_args = Raise e ->
        e = "SystemExit"
        \/ exists s, In s week_args /\ has_char "|" s = true
                     /\ path_expanduser (url_field s) = Raise e).
Proof.
  destruct week_args as [|a args].
  { cbn. split; [split|split].
    - intros [weeks Hw]. discriminate Hw.
    - intros [Hne _]. now contradiction Hne.
    - discriminate.
    - intros e [= <-]. now left. }
  change (parse_week_specs path_expanduser (a :: args))
    with (parse_week_specs_loop path_expanduser (a :: args)).
  set (l := a :: args).
  split; [split|split].
  - intros [weeks Hw]. split; [discriminate|].
    now apply (parse_week_specs_loop_ok path_expanduser l weeks).
  - intros [_ Hall].
    destruct (parse_week_specs_loop_spec path_expanduser l Hall)
      as (ws & Hws & _).
    eauto.
  - intros weeks Hw.
    destruct (parse_week_specs_loop_spec path_expanduser l
                (parse_week_specs_loop_ok path_expanduser l weeks Hw))
      as (ws & Hws & Hmap).
    congruence.
  - intros e He. now apply parse_week_specs_loop_error.
Qed.

Lemma parse_week_specs_accepts_iff_witness :
  map (fun w => Ok w)
      [ {| label := "W1"; urls_path := "a.txt"; deadline := None |} ]
  = map (parse_week_spec (fun p => Ok p)) ["W1|a.txt"].
Proof.
  apply (parse_week_specs_accepts_iff (fun p => Ok p) ["W1|a.txt"]).
  reflexivity.
Defined.

Lemma unique_nonempty {K : Type} `{EqKey K} (l : list K) :
  l <> [] -> 1 <= py_len (unique l).
Proof.
  destruct l as [|x l]; [congruence|]. intros _.
  unfold py_len. cbn [unique List.length]. lia.
Qed.

Lemma weekly_table_eq entries tie_mode df_overview df_weekly df_meta :
  compute_week_tables entries tie_mode = Ok (df_overview, df_weekly, df_meta) ->
  df_weekly
  = py_sorted weekly_ltb (fun r => r)
      (map weekly_of_group
           (groupby (str_pair_ltb String.ltb)
                    (fun r => (week_label (row_entry r), player (row_entry r)))
                    df_overview)).
Proof.
  unfold compute_week_tables. intros Hrun.
  destruct entries as [|e entries'].
  { injection Hrun as <- <- _. reflexivity. }
  destruct (rank_groups_rows tie_mode _) as [rows|];
    [cbn [bind] in Hrun|discriminate].
  now injection Hrun as <- <- _.
Qed.

Lemma weekly_of_group_key kg :
  (w_week (weekly_of_group kg), w_player (weekly_of_group kg)) = fst kg.
Proof. destruct kg as [[w p] rows]. reflexivity. Qed.

(** X13.  The weekly table has exactly one row for every (week, player)
    pair that has an entry, also when a player has several entries. *)
Theorem weekly_table_one_row_per_player
    (entries : list Entry) (tie_mode : string)
    (df_overview : list OverviewRow) (df_weekly : list WeeklyRow)
    (df_meta : list MetaRow)
    (Hrun : compute_week_tables entries tie_mode
            = Ok (df_overview, df_weekly, df_meta)) :
  NoDup (map (fun r => (w_week r, w_player r)) df_weekly)
  /\ forall w p,
       In (w, p) (map (fun r => (w_week r, w_player r)) df_weekly)
       <-> exists e, In e entries /\ week_label e = w /\ player e = p.
Proof.
  pose proof (overview_entries_perm _ _ _ _ _ Hrun) as Hperm.
  rewrite (weekly_table_eq _ _ _ _ _ Hrun).
  set (key := fun r => (week_label (row_entry r), player (row_entry r))).
  set (G := groupby (str_pair_ltb String.ltb) key df_overview).
  assert (Hkeys : Permutation
                    (map (fun r => (w_week r, w_player r))
                         (py_sorted weekly_ltb (fun r => r)
                                    (map weekly_of_group G)))
                    (map fst G)).
  { rewrite <- (py_sorted_perm weekly_ltb (fun r => r)).
    rewrite map_map.
    rewrite (map_ext _ fst); [reflexivity|].
    intros kg. apply weekly_of_group_key. }
  split.
  - eapply Permutation_NoDup; [apply Permutation_sym, Hkeys|].
    apply groupby_keys_nodup.
  - intros w p. split.
    + intros Hin. apply (Permutation_in _ Hkeys) in Hin.
      apply groupby_keys_in in Hin as (r & Hr & Hkey).
      exists (row_entry r). unfold key in Hkey. injection Hkey as <- <-.
      split; [|auto].
      apply (Permutation_in _ Hperm). now apply in_map.
    + intros (e & He & <- & <-).
      apply (Permutation_in _ (Permutation_sym Hkeys)).
      apply groupby_keys_in.
      apply (Permutation_in _ (Permutation_sym Hperm)) in He.
      apply in_map_iff in He as (r & <- & Hr).
      exists r. split; [exact Hr | reflexivity].
Qed.

Lemma weekly_table_one_row_per_player_witness :
  NoDup (map (fun r => (w_week r, w_player r)) dup_weekly).
Proof.
  destruct (weekly_table_one_row_per_player
              dup_entries "average" dup_overview dup_weekly
              (week_meta dup_entries)) as [Hnodup _].
  - vm_compute. reflexivity.
  - exact Hnodup.
Defined.

(** ** Rollups keep the totals *)

Lemma py_sum_acc (l : list Z) (a : Z) : fold_left Z.add l a = a + py_sum l.
Proof.
  unfold py_sum. revert a; induction l as [|x l IH]; intros a; simpl.
  - lia.
  - rewrite (IH (a + x)), (IH x). lia.
Qed.

Lemma py_sum_cons (x : Z) (l : list Z) : py_sum (x :: l) = x + py_sum l.
Proof. unfold py_sum at 1. simpl. apply py_sum_acc. Qed.

Lemma py_sum_app (l l' : list Z) : py_sum (l ++ l') = py_sum l + py_sum l'.
Proof.
  induction l as [|x l IH]; [reflexivity|].
  cbn [app]. rewrite !py_sum_cons, IH. lia.
Qed.

Lemma py_sum_perm (l l' : list Z) :
  Permutation l l' -> py_sum l = py_sum l'.
Proof.
  induction 1 as [|x l l' Hp IH|x y l|l1 l2 l3 H1 IH1 H2 IH2].
  - reflexivity.
  - rewrite !py_sum_cons. lia.
  - rewrite !py_sum_cons. lia.
  - congruence.
Qed.

Lemma py_sum_groups {A : Type} (f : A -> Z) (gs : list (list A)) :
  py_sum (map (fun g => py_sum (map f g)) gs)
  = py_sum (map f (List.concat gs)).
Proof.
  induction gs as [|g gs IH]; [reflexivity|].
  cbn [map List.concat]. rewrite py_sum_cons, map_app, py_sum_app, IH.
  reflexivity.
Qed.

Lemma qsum_perm (l l' : list Q) : Permutation l l' -> (qsum l == qsum l')%Q.
Proof.
  induction 1 as [|x l l' Hp IH|x y l|l1 l2 l3 H1 IH1 H2 IH2].
  - reflexivity.
  - rewrite !qsum_cons, IH. reflexivity.
  - rewrite !qsum_cons. ring.
  - now rewrite IH1.
Qed.

Lemma sum_floats_qsum (l : list (option Q)) :
  (sum_floats l == qsum (map float_or_zero l))%Q.
Proof.
  unfold sum_floats.
  assert (Hgen : forall a,
            (fold_left (fun acc o => match o with
                                     | Some x => acc + x
                                     | None => acc
                                     end) l a
             == a + qsum (map float_or_zero l))%Q).
  { induction l as [|o l IH]; intros a.
    - simpl. unfold qsum; simpl. ring.
    - cbn [fold_left map]. rewrite IH, qsum_cons.
      destruct o; simpl; ring. }
  rewrite Hgen. ring.
Qed.

Lemma qsum_groups {A : Type} (f : A -> Q) (gs : list (list A)) :
  (qsum (map (fun g => qsum (map f g)) gs)
   == qsum (map f (List.concat gs)))%Q.
Proof.
  induction gs as [|g gs IH]; [reflexivity|].
  cbn [map List.concat]. rewrite qsum_cons, map_app, qsum_app, IH.
  reflexivity.
Qed.

Lemma qsum_ext {A : Type} (f h : A -> Q) (l : list A) :
  (forall x, (f x == h x)%Q) -> (qsum (map f l) == qsum (map h l))%Q.
Proof.
  intros Hfh. induction l as [|x l IH]; [reflexivity|].
  cbn [map]. rewrite !qsum_cons, IH, Hfh. reflexivity.
Qed.

Lemma total_table_eq (df_overview : list OverviewRow) :
  Permutation
    (fst (compute_total_tables df_overview))
    (map total_of_group
         (groupby String.ltb (fun r => player (row_entry r)) df_overview)).
Proof.
  unfold compute_total_tables.
  destruct df_overview as [|r rows] eqn:Hov.
  - cbn. constructor.
  - rewrite <- Hov. cbn [fst]. apply Permutation_sym, py_sorted_perm.
Qed.

Lemma weekly_of_group_pts kg :
  weekly_total_pts (weekly_of_group kg) = wrap_int64 (plain_pts (snd kg)).
Proof. destruct kg as [[w p] rows]. reflexivity. Qed.

Lemma weekly_of_group_borda kg :
  weekly_borda (weekly_of_group kg) = sum_floats (map borda_points (snd kg)).
Proof. destruct kg as [[w p] rows]. reflexivity. Qed.

Lemma total_of_group_pts kg :
  t_total_pts (total_of_group kg) = wrap_int64 (plain_pts (snd kg)).
Proof. destruct kg as [p rows]. reflexivity. Qed.

Lemma total_of_group_borda kg :
  total_borda (total_of_group kg) = sum_floats (map borda_points (snd kg)).
Proof. destruct kg as [p rows]. reflexivity. Qed.

(** *** Sums in a column of 64-bit integers *)

Lemma wrap_int64_eq (a b : Z) :
  a mod 2 ^ 64 = b mod 2 ^ 64 -> wrap_int64 a = wrap_int64 b.
Proof.
  intros Hab. unfold wrap_int64.
  rewrite (Z.add_mod a), (Z.add_mod b), Hab by (now apply Z.pow_nonzero).
  reflexivity.
Qed.

Lemma wrap_int64_mod (z : Z) : wrap_int64 z mod 2 ^ 64 = z mod 2 ^ 64.
Proof.
  unfold wrap_int64. rewrite Zminus_mod_idemp_l. f_equal. lia.
Qed.

Lemma wrap_int64_small (z : Z) : is_int64 z -> wrap_int64 z = z.
Proof.
  unfold is_int64, wrap_int64.
  change (2 ^ 64) with 18446744073709551616.
  change (2 ^ 63) with 9223372036854775808.
  intros Hz. rewrite Z.mod_small; lia.
Qed.

Lemma wrap_int64_sum (l : list Z) :
  wrap_int64 (py_sum (map wrap_int64 l)) = wrap_int64 (py_sum l).
Proof.
  induction l as [|x l IH]; [reflexivity|].
  cbn [map]. rewrite !py_sum_cons. apply wrap_int64_eq.
  rewrite (Z.add_mod (wrap_int64 x)), (Z.add_mod x)
    by (now apply Z.pow_nonzero).
  rewrite wrap_int64_mod.
  rewrite <- (wrap_int64_mod (py_sum (map wrap_int64 l))), IH, wrap_int64_mod.
  reflexivity.
Qed.

Lemma py_sum_abs_nonneg (l : list Z) : 0 <= py_sum (map Z.abs l).
Proof.
  induction l as [|x l IH]; [unfold py_sum; simpl; lia|].
  cbn [map]. rewrite py_sum_cons. lia.
Qed.

Lemma py_sum_abs_bound (l : list Z) : Z.abs (py_sum l) <= py_sum (map Z.abs l).
Proof.
  induction l as [|x l IH]; [unfold py_sum; simpl; lia|].
  cbn [map]. rewrite !py_sum_cons. lia.
Qed.

(** One group of a partition weighs no more than the whole. *)
Lemma py_sum_abs_group {A : Type} (f : A -> Z) (gs : list (list A))
    (g : list A) :
  In g gs ->
  py_sum (map Z.abs (map f g))
  <= py_sum (map Z.abs (map f (List.concat gs))).
Proof.
  induction gs as [|g' gs IH]; intros Hin; [contradiction|].
  cbn [List.concat]. rewrite !map_app, py_sum_app.
  destruct Hin as [-> | Hin].
  - pose proof (py_sum_abs_nonneg (map f (List.concat gs))). lia.
  - pose proof (py_sum_abs_nonneg (map f g')). specialize (IH Hin). lia.
Qed.

(** The points of a group of rows fit when the points of all rows do. *)
Lemma group_fits {K : Type} `{EqKey K} (ltb : K -> K -> bool)
    (key : OverviewRow -> K) (df_overview : list OverviewRow)
    (kg : K * list OverviewRow) :
  fits_int64 (map (fun r => total_pts (row_entry r)) df_overview) ->
  In kg (groupby ltb key df_overview) ->
  wrap_int64 (plain_pts (snd kg)) = plain_pts (snd kg).
Proof.
  unfold fits_int64. intros Hfit Hin.
  apply wrap_int64_small. unfold is_int64, plain_pts.
  pose proof (py_sum_abs_bound
                (map (fun r => total_pts (row_entry r)) (snd kg))) as Habs.
  pose proof (py_sum_abs_group (fun r => total_pts (row_entry r))
                (map snd (groupby ltb key df_overview)) (snd kg)
                (in_map snd _ _ Hin)) as Hgroup.
  rewrite (py_sum_perm _ _
             (Permutation_map Z.abs
                (Permutation_map (fun r => total_pts (row_entry r))
                   (groupby_partition key ltb df_overview)))) in Hgroup.
  change (2 ^ 63) with 9223372036854775808 in *. lia.
Qed.

(** X14.  The rollups keep the raw points as far as 64-bit integers can:
    the weekly points of the weekly table and the total points of the season
    table both add up to the sum of the points of all entries modulo 2^64,
    and to that very sum when the points of the entries fit (their absolute
    values add up to less than 2^63). *)
Theorem rollups_keep_total_points
    (entries : list Entry) (tie_mode : string)
    (df_overview : list OverviewRow) (df_weekly : list WeeklyRow)
    (df_meta : list MetaRow)
    (Hrun : compute_week_tables entries tie_mode
            = Ok (df_overview, df_weekly, df_meta))
    (Hrange : Forall is_int64 (map total_pts entries)) :
  same_int64 (py_sum (map weekly_total_pts df_weekly))
             (py_sum (map total_pts entries))
  /\ same_int64
       (py_sum (map t_total_pts (fst (compute_total_tables df_overview))))
       (py_sum (map total_pts entries))
  /\ (fits_int64 (map total_pts entries) ->
      py_sum (map weekly_total_pts df_weekly) = py_sum (map total_pts entries)
      /\ py_sum (map t_total_pts (fst (compute_total_tables df_overview)))
         = py_sum (map total_pts entries)).
Proof.
  pose proof (overview_entries_perm _ _ _ _ _ Hrun) as Hperm.
  assert (Hov : py_sum (map (fun r => total_pts (row_entry r)) df_overview)
                = py_sum (map total_pts entries)).
  { rewrite <- (map_map row_entry total_pts).
    apply py_sum_perm, Permutation_map, Hperm. }
  assert (Hgroups : forall (K : Type) (EK : EqKey K) (ltb : K -> K -> bool)
                           (key : OverviewRow -> K),
            py_sum (map (fun kg => plain_pts (snd kg))
                        (groupby ltb key df_overview))
            = py_sum (map total_pts entries)).
  { intros K EK ltb key. unfold plain_pts.
    rewrite <- (map_map snd (fun g => py_sum (map _ g))).
    rewrite py_sum_groups, <- Hov.
    apply py_sum_perm, Permutation_map, groupby_partition. }
  assert (Hweekly : py_sum (map weekly_total_pts df_weekly)
                    = py_sum (map (fun kg => wrap_int64 (plain_pts (snd kg)))
                                  (groupby (str_pair_ltb String.ltb)
                                     (fun r => (week_label (row_entry r),
                                                player (row_entry r)))
                                     df_overview))).
  { rewrite (weekly_table_eq _ _ _ _ _ Hrun).
    rewrite <- (py_sum_perm _ _
                  (Permutation_map weekly_total_pts
                     (py_sorted_perm weekly_ltb (fun r => r) _))).
    rewrite map_map. f_equal. apply map_ext. apply weekly_of_group_pts. }
  assert (Htotal : py_sum (map t_total_pts
                               (fst (compute_total_tables df_overview)))
                   = py_sum (map (fun kg => wrap_int64 (plain_pts (snd kg)))
                                 (groupby String.ltb
                                    (fun r => player (row_entry r))
                                    df_overview))).
  { rewrite (py_sum_perm _ _
               (Permutation_map t_total_pts (total_table_eq df_overview))).
    rewrite map_map. f_equal. apply map_ext. apply total_of_group_pts. }
  rewrite Hweekly, Htotal. unfold same_int64.
  split; [|split].
  - rewrite <- (map_map (fun kg => plain_pts (snd kg)) wrap_int64).
    now rewrite wrap_int64_sum, Hgroups.
  - rewrite <- (map_map (fun kg => plain_pts (snd kg)) wrap_int64).
    now rewrite wrap_int64_sum, Hgroups.
  - intros Hfit.
    assert (Hfit' : fits_int64 (map (fun r => total_pts (row_entry r))
                                    df_overview)).
    { unfold fits_int64 in *.
      rewrite <- (map_map row_entry total_pts).
      now rewrite (py_sum_perm _ _
                     (Permutation_map Z.abs
                        (Permutation_map total_pts Hperm))). }
    split.
    + rewrite <- (Hgroups _ _ (str_pair_ltb String.ltb)
                          (fun r => (week_label (row_entry r),
                                     player (row_entry r)))).
      f_equal. apply map_ext_in. intros kg Hkg.
      eapply group_fits; [exact Hfit' | exact Hkg].
    + rewrite <- (Hgroups _ _ String.ltb (fun r => player (row_entry r))).
      f_equal. apply map_ext_in. intros kg Hkg.
      eapply group_fits; [exact Hfit' | exact Hkg].
Qed.

Lemma rollups_keep_total_points_witness :
  py_sum (map weekly_total_pts dup_weekly)
  = py_sum (map total_pts dup_entries).
Proof.
  destruct (rollups_keep_total_points
              dup_entries "average" dup_overview dup_weekly
              (week_meta dup_entries)) as (_ & _ & Hfit).
  - vm_compute. reflexivity.
  - apply Forall_forall. intros z Hz. vm_compute in Hz.
    unfold is_int64. change (2 ^ 63) with 9223372036854775808.
    destruct Hz as [<- | [<- | [<- | []]]]; lia.
  - apply Hfit. vm_compute. reflexivity.
Defined.

(** X15.  The rollups keep the Borda points: the weekly Borda of the weekly
    table and the total Borda of the season table both add up to the sum of
    the Borda values of the per-map rows. *)
Theorem rollups_keep_total_borda
    (entries : list Entry) (tie_mode : string)
    (df_overview : list OverviewRow) (df_weekly : list WeeklyRow)
    (df_meta : list MetaRow)
    (Hrun : compute_week_tables entries tie_mode
            = Ok (df_overview, df_weekly, df_meta)) :
  (qsum (map weekly_borda df_weekly)
   == sum_floats (map borda_points df_overview))%Q
  /\ (qsum (map total_borda (fst (compute_total_tables df_overview)))
      == sum_floats (map borda_points df_overview))%Q.
Proof.
  set (val := fun r => float_or_zero (borda_points r)).
  assert (Hov : (sum_floats (map borda_points df_overview)
                 == qsum (map val df_overview))%Q).
  { rewrite sum_floats_qsum, map_map. reflexivity. }
  assert (Hgroup : forall g : list OverviewRow,
            (sum_floats (map borda_points g) == qsum (map val g))%Q).
  { intros g. rewrite sum_floats_qsum, map_map. reflexivity. }
  split.
  - rewrite (weekly_table_eq _ _ _ _ _ Hrun).
    rewrite <- (qsum_perm _ _
                  (Permutation_map weekly_borda
                     (py_sorted_perm weekly_ltb (fun r => r) _))).
    rewrite map_map.
    rewrite (qsum_ext _ (fun kg => qsum (map val (snd kg))))
      by (intros kg; rewrite weekly_of_group_borda; apply Hgroup).
    rewrite <- (map_map snd (fun g => qsum (map val g))).
    rewrite qsum_groups, Hov.
    apply qsum_perm, Permutation_map, groupby_partition.
  - rewrite (qsum_perm _ _
               (Permutation_map total_borda (total_table_eq df_overview))).
    rewrite map_map.
    rewrite (qsum_ext _ (fun kg => qsum (map val (snd kg))))
      by (intros kg; rewrite total_of_group_borda; apply Hgroup).
    rewrite <- (map_map snd (fun g => qsum (map val g))).
    rewrite qsum_groups, Hov.
    apply qsum_perm, Permutation_map, groupby_partition.
Qed.

Lemma rollups_keep_total_borda_witness :
  (qsum (map weekly_borda dup_weekly)
   == sum_floats (map borda_points dup_overview))%Q.
Proof.
  destruct (rollups_keep_total_borda
              dup_entries "average" dup_overview dup_weekly
              (week_meta dup_entries)) as [Hweekly _].
  - vm_compute. reflexivity.
  - exact Hweekly.
Defined.

(** ** Counts and averages of the season table *)

(** X16.  Every row of the season table counts at least one map and one
    week, so the clipping of the counts at 1 never changes them: the three
    averages are the float quotients of the row's totals by the row's own
    counts. *)
Theorem season_counts_are_positive
    (df_overview : list OverviewRow) (t : TotalRow)
    (Hin : In t (fst (compute_total_tables df_overview))) :
  1 <= t_maps_counted t /\ 1 <= t_weeks_counted t
  /\ avg_borda_per_map t
     = float_div (total_borda t) (float_of_int64 (t_maps_counted t))
  /\ avg_borda_per_week t
     = float_div (total_borda t) (float_of_int64 (t_weeks_counted t))
  /\ avg_pts_per_map t
     = float_div (float_of_int64 (t_total_pts t))
                 (float_of_int64 (t_maps_counted t)).
Proof.
  apply (Permutation_in _ (total_table_eq df_overview)) in Hin.
  apply in_map_iff in Hin as ([p g] & <- & Hg).
  apply groupby_group in Hg as [_ Hne].
  assert (Hmaps : 1 <= py_len (unique (map (fun r => map_index (row_entry r))
                                           g))).
  { apply unique_nonempty. destruct g; [congruence | discriminate]. }
  assert (Hweeks : 1 <= py_len (unique (map (fun r => week_label (row_entry r))
                                            g))).
  { apply unique_nonempty. destruct g; [congruence | discriminate]. }
  cbn [total_of_group t_maps_counted t_weeks_counted avg_borda_per_map
       avg_borda_per_week avg_pts_per_map total_borda t_total_pts].
  unfold clip_lower_1. rewrite !Z.max_l by lia.
  repeat split; assumption || reflexivity.
Qed.

Lemma season_counts_are_positive_witness :
  1 <= t_maps_counted
         (nth 0 (fst (compute_total_tables dup_overview))
              (total_of_group ("", []))).
Proof.
  destruct (season_counts_are_positive dup_overview
              (nth 0 (fst (compute_total_tables dup_overview))
                   (total_of_group ("", [])))) as [Hmaps _].
  - vm_compute. left. reflexivity.
  - exact Hmaps.
Defined.

(** ** Deadlines of a run *)

Section DeadlineFacts.
Variable parse_deadline_epoch : string -> string -> result Z.

Lemma collect_deadlines_keys tz weeks :
  forall d0 d lbl,
    collect_deadlines parse_deadline_epoch tz weeks d0 = Ok d ->
    (In lbl (dict_keys d)
     <-> In lbl (dict_keys d0)
         \/ exists w, In w weeks /\ label w = lbl /\ has_deadline w = true).
Proof.
  induction weeks as [|w weeks IH]; intros d0 d lbl Hrun; simpl in Hrun.
  - injection Hrun as <-. split; [auto | intros [|(w & [] & _)]; assumption].
  - assert (Hskip : has_deadline w = false ->
              collect_deadlines parse_deadline_epoch tz weeks d0 = Ok d ->
              In lbl (dict_keys d)
              <-> In lbl (dict_keys d0)
                  \/ exists w', In w' (w :: weeks) /\ label w' = lbl
                                /\ has_deadline w' = true).
    { intros Hw Hrest. rewrite (IH _ _ lbl Hrest). split.
      - intros [|(w' & Hin & Hl & Hd)]; [auto|].
        right. exists w'. split; [now right | auto].
      - intros [|(w' & [<- | Hin] & Hl & Hd)]; [auto | congruence |].
        right. exists w'. auto. }
    unfold has_deadline, str_opt_truthy in Hskip.
    destruct (deadline w) as [s|] eqn:Hdl; [|now apply Hskip].
    destruct (String.eqb s "") eqn:Hs; [now apply Hskip|].
    destruct (parse_deadline_epoch s tz) as [ep|];
      [simpl in Hrun|discriminate].
    rewrite (IH _ _ lbl Hrun), dict_set_in. split.
    + intros [[-> | Hin] | (w' & Hin & Hl & Hd)]; [|auto|].
      * right. exists w. split; [now left|]. split; [reflexivity|].
        unfold has_deadline, str_opt_truthy. now rewrite Hdl, Hs.
      * right. exists w'. split; [now right | auto].
    + intros [Hin | (w' & [<- | Hin] & Hl & Hd)]; [auto | auto |].
      right. exists w'. auto.
Qed.

Lemma collect_deadlines_wf tz weeks :
  forall d0 d,
    collect_deadlines parse_deadline_epoch tz weeks d0 = Ok d ->
    dict_wf d0 -> dict_wf d.
Proof.
  induction weeks as [|w weeks IH]; intros d0 d Hrun Hwf; simpl in Hrun.
  - now injection Hrun as <-.
  - destruct (deadline w) as [s|]; [|eauto].
    destruct (String.eqb s ""); [eauto|].
    destruct (parse_deadline_epoch s tz) as [ep|];
      [simpl in Hrun|discriminate].
    eapply IH; [exact Hrun|]. now apply dict_set_wf.
Qed.
End DeadlineFacts.

(** X17.  The deadline dictionary of a run is keyed by week label: a label
    has a deadline exactly when some week with that label was given one, so a
    week without a deadline is still filtered when it shares its label with a
    week that has one.  Labels occur once in the dictionary. *)
Theorem deadlines_are_keyed_by_label
    (parse_deadline_epoch : string -> string -> result Z)
    (tz : string) (weeks : list WeekSpec) (deadlines : dict string Z)
    (Hrun : collect_deadlines parse_deadline_epoch tz weeks [] = Ok deadlines) :
  dict_wf deadlines
  /\ forall lbl,
       dict_get lbl deadlines <> None
       <-> exists w, In w weeks /\ label w = lbl /\ has_deadline w = true.
Proof.
  split.
  - eapply collect_deadlines_wf; [exact Hrun | constructor].
  - intros lbl.
    pose proof (collect_deadlines_keys _ _ _ _ _ lbl Hrun) as Hkeys.
    simpl in Hkeys.
    pose proof (dict_get_none lbl deadlines) as Hnone.
    split.
    + intros Hsome.
      destruct (in_dec string_dec lbl (dict_keys deadlines)) as [Hin | Hout].
      * apply Hkeys in Hin as [[] | Hw]. exact Hw.
      * apply Hnone in Hout. contradiction.
    + intros Hw Hget. apply Hnone in Hget. apply Hget, Hkeys. now right.
Qed.

Lemma deadlines_are_keyed_by_label_witness :
  dict_wf [("W1", 1800000000)]
  /\ forall lbl,
       dict_get lbl [("W1", 1800000000)] <> None
       <-> exists w,
             In w [ {| label := "W1"; urls_path := "a.txt";
                       deadline := Some "2026-02-18 20:00" |};
                    {| label := "W1"; urls_path := "b.txt";
                       deadline := None |} ]
             /\ label w = lbl /\ has_deadline w = true.
Proof.
  apply (deadlines_are_keyed_by_label
           (fun _ _ => Ok 1800000000) "Europe/Stockholm"
           [ {| label := "W1"; urls_path := "a.txt";
                deadline := Some "2026-02-18 20:00" |};
             {| label := "W1"; urls_path := "b.txt"; deadline := None |} ]
           [("W1", 1800000000)]).
  reflexivity.
Defined.

(** ** The two reports of a run *)

Lemma make_workbook_tables path entries tie_mode wb :
  make_workbook path entries tie_mode = Ok wb ->
  wb_path wb = path
  /\ exists df_weekly df_meta,
       compute_week_tables entries tie_mode
       = Ok (wb_overview wb, df_weekly, df_meta).
Proof.
  unfold make_workbook. intros Hmake.
  destruct (compute_week_tables entries tie_mode) as [[[ov wk] me]|] eqn:Ht;
    [cbn [bind] in Hmake|discriminate].
  destruct (compute_total_tables ov) as [total stats].
  inversion Hmake; subst; cbn [wb_path wb_overview].
  split; [reflexivity|]. eauto.
Qed.

(** X18.  When a run writes both reports, the per-map table of the filtered
    report has one row for each entry of the unfiltered table that passes
    the deadline policy, under the deadlines collected from the week
    specifications, and no other row.  The rank and the Borda value of such
    a row are not copied from the unfiltered table: they are what the ranker
    gives the player among the kept entries of the row's (week, map)
    group. *)
Theorem filtered_report_rows_are_kept_rows
    (to_datetime_epoch : string -> option Z)
    (http_get_json : string -> result json)
    (fetch_highscores_items : string -> Z -> Z -> result (list json))
    (load_urls : string -> result (list string))
    (extract_token : string -> result string)
    (py_repr : json -> string)
    (parse_deadline_epoch : string -> string -> result Z)
    (env_ncfa : string)
    (path_expanduser : string -> result string)
    (args : Args) (wb_all wb_f : Workbook)
    (Hrun : main to_datetime_epoch http_get_json fetch_highscores_items
              load_urls extract_token py_repr parse_deadline_epoch env_ncfa
              path_expanduser args = Ok [wb_all; wb_f]) :
  exists weeks deadlines,
    parse_week_specs path_expanduser (arg_week args) = Ok weeks
    /\ collect_deadlines parse_deadline_epoch (arg_tz args) weeks []
       = Ok deadlines
    /\ Permutation
         (map row_entry (wb_overview wb_f))
         (kept_entries deadlines args wb_all)
    /\ forall r,
         In r (wb_overview wb_f) ->
         let e := row_entry r in
         let ranking :=
           group_ranking (kept_entries deadlines args wb_all)
                         (arg_tie args) e in
         rank_best r = rank_of ranking (player e)
         /\ borda_points r = borda_for ranking (player e)
         /\ rank_best r <> None /\ borda_points r <> None.
Proof.
  unfold main in Hrun.
  destruct (parse_week_specs path_expanduser (arg_week args)) as [weeks|]
    eqn:Hweeks; [cbn [bind] in Hrun|discriminate].
  destruct (String.eqb (str_strip _) ""); [discriminate|].
  destruct (collect_deadlines _ _ _ _) as [dls|] eqn:Hdl;
    [cbn [bind] in Hrun|discriminate].
  destruct (build_all _ _ _ _ _ _ _ _ _) as [[entries any]|];
    [cbn [bind] in Hrun|discriminate].
  exists weeks, dls. split; [reflexivity|]. split; [exact Hdl|].
  destruct (make_workbook (String.append _ "_all.xlsx") _ _) as [wb1|]
    eqn:Hall; [cbn [bind] in Hrun|discriminate].
  destruct (can_filter_of dls args any); [|discriminate].
  destruct (make_workbook (String.append _ "_filtered.xlsx") _ _) as [wb2|]
    eqn:Hf; [cbn [bind] in Hrun|discriminate].
  injection Hrun as <- <-.
  apply make_workbook_tables in Hall as (_ & wk1 & me1 & Hall).
  apply make_workbook_tables in Hf as (_ & wk2 & me2 & Hf).
  rewrite filter_entries_is_filter in Hf.
  unfold kept_entries.
  split.
  - rewrite (overview_entries_perm _ _ _ _ _ Hf).
    apply filter_perm, Permutation_sym.
    eapply overview_entries_perm; exact Hall.
  - intros r Hr. cbv zeta.
    destruct (overview_row_ranking _ _ _ _ _ r Hf Hr)
      as (_ & Hrank & Hborda & Hsome).
    unfold group_ranking in *.
    rewrite (overview_entries_eq _ _ _ _ _ Hall), map_group_grouped.
    auto.
Qed.

Lemma filtered_report_rows_are_kept_rows_witness :
  exists weeks deadlines,
    parse_week_specs (fun p => Ok p) (arg_week demo_args) = Ok weeks
    /\ collect_deadlines (fun _ _ => Ok 1800000000) (arg_tz demo_args)
                         weeks [] = Ok deadlines
    /\ Permutation
         (map row_entry (wb_overview (nth 1 demo_workbooks
                                          (mkWorkbook "" [] [] [] [] []))))
         (kept_entries deadlines demo_args
            (nth 0 demo_workbooks (mkWorkbook "" [] [] [] [] []))).
Proof.
  destruct (filtered_report_rows_are_kept_rows
              (fun _ => None)
              (fun _ => Ok (JDict [("created", JInt 1700000000)]))
              (fun _ _ _ => Ok [demo_item])
              (fun _ => Ok ["https://www.geoguessr.com/challenge/abc"])
              (fun _ => Ok "abc")
              (fun _ => "")
              (fun _ _ => Ok 1800000000)
              ""
              (fun p => Ok p)
              demo_args
              (nth 0 demo_workbooks (mkWorkbook "" [] [] [] [] []))
              (nth 1 demo_workbooks (mkWorkbook "" [] [] [] [] [])))
    as (weeks & deadlines & Hweeks & Hdl & Hperm & _).
  - vm_compute. reflexivity.
  - exists weeks, deadlines. auto.
Defined.

(** ** Fetching a leaderboard page by page *)

Section FetchFacts.
Variable http_get_json : string -> result json.
Variables (challenge_token : string) (page_size max_players : Z).

Let loop fuel := fetch_highscores_loop http_get_json fuel challenge_token
                   page_size max_players.

Lemma fetch_loop_terminates (fuel : nat) :
  0 < page_size ->
  forall all_items offset,
    (1 <= fuel)%nat ->
    max_players - offset <= Z.of_nat fuel * page_size ->
    exists r, loop fuel all_items offset = Some r.
Proof.
  intros Hps. induction fuel as [|fuel IH]; intros all_items offset Hfuel Hbound;
    [lia|].
  unfold loop. cbn [fetch_highscores_loop].
  destruct (http_get_json _) as [payload|e]; [|eauto].
  destruct (extract_items payload) as [[|x items]|e]; [eauto| |eauto].
  destruct (py_len (x :: items) <? page_size); [eauto|].
  destruct (Z.leb_spec max_players (offset + page_size)); [eauto|].
  apply IH; nia.
Qed.

Lemma fetch_loop_more_fuel (fuel : nat) :
  forall all_items offset r,
    loop fuel all_items offset = Some r ->
    loop (S fuel) all_items offset = Some r.
Proof.
  induction fuel as [|fuel IH]; intros all_items offset r Hrun;
    [discriminate|].
  unfold loop in *. cbn [fetch_highscores_loop] in Hrun.
  change (fetch_highscores_loop http_get_json (S (S fuel)) challenge_token
            page_size max_players all_items offset)
    with (match http_get_json
                  (highscores_url challenge_token page_size offset) with
          | Raise e => Some (Raise e)
          | Ok payload =>
              match extract_items payload with
              | Raise e => Some (Raise e)
              | Ok [] => Some (Ok all_items)
              | Ok items =>
                  if py_len items <? page_size
                  then Some (Ok (all_items ++ items))
                  else if max_players <=? offset + page_size
                  then Some (Ok (all_items ++ items))
                  else fetch_highscores_loop http_get_json (S fuel)
                         challenge_token page_size max_players
                         (all_items ++ items) (offset + page_size)
              end
          end).
  destruct (http_get_json _) as [payload|e]; [|exact Hrun].
  destruct (extract_items payload) as [[|x items]|e];
    [exact Hrun| |exact Hrun].
  destruct (py_len (x :: items) <? page_size); [exact Hrun|].
  destruct (max_players <=? offset + page_size); [exact Hrun|].
  now apply IH.
Qed.

Lemma fetch_loop_never_ends (fuel : nat) :
  page_size <= 0 -> 0 < max_players -> pages_never_empty http_get_json ->
  forall all_items offset,
    offset <= 0 -> loop fuel all_items offset = None.
Proof.
  intros Hps Hmax Hserver. induction fuel as [|fuel IH];
    intros all_items offset Hoff; [reflexivity|].
  unfold loop. cbn [fetch_highscores_loop].
  destruct (Hserver (highscores_url challenge_token page_size offset))
    as (payload & x & items & -> & ->).
  assert (Hlen : 1 <= py_len (x :: items)).
  { unfold py_len. cbn [List.length]. lia. }
  destruct (Z.ltb_spec (py_len (x :: items)) page_size); [lia|].
  destruct (Z.leb_spec max_players (offset + page_size)); [lia|].
  apply IH. lia.
Qed.

Lemma fetch_loop_size (fuel : nat) :
  0 < page_size -> pages_respect_limit http_get_json page_size ->
  forall all_items offset result,
    0 <= offset ->
    py_len all_items <= offset ->
    offset = 0 \/ offset < max_players ->
    loop fuel all_items offset = Some (Ok result) ->
    py_len result < Z.max max_players 1 + page_size.
Proof.
  intros Hps Hserver. induction fuel as [|fuel IH];
    intros all_items offset result Hoff Hlen Hcap Hrun; [discriminate|].
  unfold loop in Hrun. cbn [fetch_highscores_loop] in Hrun.
  destruct (http_get_json _) as [payload|e] eqn:Hget; [|discriminate].
  destruct (extract_items payload) as [[|x items]|e] eqn:Hitems;
    [| |discriminate].
  - injection Hrun as <-. lia.
  - pose proof (Hserver _ _ _ Hget Hitems) as Hpage.
    assert (Happ : py_len (all_items ++ x :: items)
                   = py_len all_items + py_len (x :: items)).
    { unfold py_len. rewrite length_app. lia. }
    destruct (Z.ltb_spec (py_len (x :: items)) page_size).
    { injection Hrun as <-. lia. }
    destruct (Z.leb_spec max_players (offset + page_size)).
    { injection Hrun as <-. lia. }
    eapply IH; [| | |exact Hrun]; lia.
Qed.
End FetchFacts.

(** X19.  With a positive page size the paging loop ends after at most
    max(1, ceil(max_players / page_size)) requests: any larger allowance of
    requests gives the same result. *)
Theorem fetch_highscores_items_terminates
    (http_get_json : string -> result json)
    (challenge_token : string) (page_size max_players : Z) (fuel : nat)
    (Hps : 0 < page_size) (Hfuel : (1 <= fuel)%nat)
    (Hbound : max_players <= Z.of_nat fuel * page_size) :
  exists r,
    fetch_highscores_items http_get_json fuel challenge_token page_size
      max_players = Some r
    /\ forall more,
         fetch_highscores_items http_get_json (fuel + more) challenge_token
           page_size max_players = Some r.
Proof.
  unfold fetch_highscores_items.
  destruct (fetch_loop_terminates http_get_json challenge_token page_size
              max_players fuel Hps [] 0 Hfuel) as [r Hr]; [lia|].
  exists r. split; [exact Hr|].
  intros more. induction more as [|more IH].
  - now rewrite Nat.add_0_r.
  - rewrite Nat.add_succ_r. now apply fetch_loop_more_fuel.
Qed.

Lemma fetch_highscores_items_terminates_witness :
  exists r,
    fetch_highscores_items two_item_server 3 "abc" 2 5 = Some r
    /\ forall more,
         fetch_highscores_items two_item_server (3 + more) "abc" 2 5 = Some r.
Proof.
  apply (fetch_highscores_items_terminates two_item_server "abc" 2 5 3); lia.
Defined.

(** X20.  With a page size of zero or less and a positive player cap the
    paging loop never ends against a server that answers every request with
    at least one item: no allowance of requests is enough. *)
Theorem fetch_highscores_items_may_not_terminate
    (http_get_json : string -> result json)
    (challenge_token : string) (page_size max_players : Z)
    (Hps : page_size <= 0) (Hmax : 0 < max_players)
    (Hserver : pages_never_empty http_get_json) :
  forall fuel,
    fetch_highscores_items http_get_json fuel challenge_token page_size
      max_players = None.
Proof.
  intros fuel. unfold fetch_highscores_items.
  apply fetch_loop_never_ends; auto. lia.
Qed.

Lemma fetch_highscores_items_may_not_terminate_witness :
  fetch_highscores_items two_item_server 1000 "abc" 0 5 = None.
Proof.
  apply (fetch_highscores_items_may_not_terminate two_item_server "abc" 0 5).
  - lia.
  - lia.
  - intros url. exists (JDict [("items", JList [demo_item; demo_item])]).
    exists demo_item, [demo_item]. split; reflexivity.
Defined.

(** X21.  The player cap is applied page by page: with a positive page size
    and a server that never sends more than a page, the loop returns fewer
    than max(max_players, 1) + page_size items. *)
Theorem fetch_highscores_items_size
    (http_get_json : string -> result json)
    (challenge_token : string) (page_size max_players : Z) (fuel : nat)
    (result : list json)
    (Hps : 0 < page_size)
    (Hserver : pages_respect_limit http_get_json page_size)
    (Hrun : fetch_highscores_items http_get_json fuel challenge_token
              page_size max_players = Some (Ok result)) :
  py_len result < Z.max max_players 1 + page_size.
Proof.
  unfold fetch_highscores_items in Hrun.
  eapply (fetch_loop_size http_get_json challenge_token page_size max_players
            fuel Hps Hserver [] 0); [lia | | now left | exact Hrun].
  unfold py_len. simpl. lia.
Qed.

Lemma fetch_highscores_items_size_witness :
  py_len [demo_item; demo_item; demo_item; demo_item; demo_item; demo_item]
  < Z.max 5 1 + 2.
Proof.
  apply (fetch_highscores_items_size two_item_server "abc" 2 5 3).
  - lia.
  - intros url payload items [= <-] [= <-]. unfold py_len. simpl. lia.
  - vm_compute. reflexivity.
Defined.

(** ** Sorting by a key that may tie *)

Section WeakSortFacts.
Context {A T : Type} (ltb : T -> T -> bool) (key : A -> T).
Hypothesis ltb_asym : forall a b, ltb a b = true -> ltb b a = false.
Hypothesis ltb_ntrans :
  forall a b c, ltb b a = false -> ltb c b = false -> ltb c a = false.

Lemma sorted_insert_ordered (x : A) (l : list A) :
  StronglySorted (not_before ltb key) l ->
  StronglySorted (not_before ltb key) (sorted_insert ltb key x l).
Proof.
  induction l as [|y l IH]; simpl; intros Hs.
  - constructor; constructor.
  - inversion Hs as [|? ? Hl Hy]; subst.
    destruct (ltb (key y) (key x)) eqn:Hyx.
    + constructor; [now apply IH|].
      rewrite Forall_forall in *. intros z Hz.
      apply (Permutation_in _ (Permutation_sym (sorted_insert_perm ltb key x l)))
        in Hz.
      destruct Hz as [<- | Hz]; [|now apply Hy].
      unfold not_before. now apply ltb_asym.
    + constructor; [exact Hs|].
      constructor; [exact Hyx|].
      rewrite Forall_forall in *. intros z Hz.
      unfold not_before in *. eapply ltb_ntrans; [exact Hyx | now apply Hy].
Qed.

Lemma py_sorted_ordered (l : list A) :
  StronglySorted (not_before ltb key) (py_sorted ltb key l).
Proof.
  induction l as [|x l IH]; simpl; [constructor|].
  now apply sorted_insert_ordered.
Qed.
End WeakSortFacts.

Lemma sorted_weaken {A : Type} (R R' : A -> A -> Prop) (l : list A) :
  (forall x y, R x y -> R' x y) -> StronglySorted R l -> StronglySorted R' l.
Proof.
  intros Himp. induction 1 as [|x l Hs IH Hx]; constructor; [assumption|].
  rewrite Forall_forall in *. auto.
Qed.

(** ** The order of the standings *)

Lemma Qltb_lt (a b : Q) : Qltb a b = true <-> (a < b)%Q.
Proof.
  unfold Qltb. rewrite negb_true_iff.
  destruct (Qle_bool b a) eqn:Hle.
  - apply Qle_bool_iff in Hle. split; [discriminate | lra].
  - split; [|reflexivity]. intros _.
    destruct (Qlt_le_dec a b) as [|Hge]; [assumption|].
    apply Qle_bool_iff in Hge. congruence.
Qed.

(** The comparison on scores shared by the three sorts. *)
Lemma score_ltb_before (q1 : Q) (z1 : Z) (q2 : Q) (z2 : Z) :
  Qltb q2 q1 || (Qeq_bool q1 q2 && (z2 <? z1)) = true
  <-> score_before q1 z1 q2 z2.
Proof.
  unfold score_before.
  rewrite orb_true_iff, andb_true_iff, Qltb_lt, Qeq_bool_iff, Z.ltb_lt.
  reflexivity.
Qed.

Lemma score_before_asym q1 z1 q2 z2 :
  score_before q1 z1 q2 z2 -> ~ score_before q2 z2 q1 z1.
Proof. unfold score_before. intros [H1 | [H1 H2]] [H3 | [H3 H4]]; lra || lia. Qed.

Lemma score_before_ntrans q1 z1 q2 z2 q3 z3 :
  ~ score_before q2 z2 q1 z1 -> ~ score_before q3 z3 q2 z2 ->
  ~ score_before q3 z3 q1 z1.
Proof.
  unfold score_before. intros H21 H32 [H | [He Hz]].
  - destruct (Qlt_le_dec q2 q3) as [|Hle]; [tauto|].
    destruct (Qlt_le_dec q1 q2) as [|Hle']; [tauto|]. lra.
  - destruct (Qlt_le_dec q2 q3) as [|Hle]; [tauto|].
    destruct (Qlt_le_dec q1 q2) as [|Hle']; [tauto|].
    assert (H12 : (q2 == q1)%Q) by lra.
    assert (H23 : (q3 == q2)%Q) by lra.
    assert (~ z1 < z2) by tauto. assert (~ z2 < z3) by tauto. lia.
Qed.

Lemma score_not_before_iff q1 z1 q2 z2 :
  ~ score_before q2 z2 q1 z1 <-> score_not_worse q1 z1 q2 z2.
Proof.
  unfold score_before, score_not_worse. split.
  - intros Hn. destruct (Qlt_le_dec q2 q1) as [|Hle]; [now left|].
    right. destruct (Qlt_le_dec q1 q2) as [|Hle']; [tauto|].
    assert (Heq : (q1 == q2)%Q) by lra. split; [exact Heq|].
    destruct (Z.le_gt_cases z2 z1); [assumption|].
    exfalso. apply Hn. right. split; [lra | lia].
  - intros [H | [He Hz]] [H' | [He' Hz']]; lra || lia.
Qed.

Lemma total_ltb_before (a b : TotalRow) :
  total_ltb a b = true
  <-> score_before (total_borda a) (t_total_pts a)
                   (total_borda b) (t_total_pts b).
Proof. apply score_ltb_before. Qed.

Lemma bool_false_iff_not (b : bool) (P : Prop) :
  (b = true <-> P) -> (b = false <-> ~ P).
Proof.
  destruct b; intros [H1 H2]; split.
  - discriminate.
  - intros Hn. exfalso. apply Hn, H1. reflexivity.
  - intros _ HP. apply H2 in HP. discriminate.
  - reflexivity.
Qed.

(** X22.  The season table is sorted by total Borda, highest first, and rows
    with equal Borda by total points, highest first; the statistics table
    has the same order. *)
Theorem season_table_is_sorted (df_overview : list OverviewRow) :
  StronglySorted total_order (fst (compute_total_tables df_overview))
  /\ StronglySorted (fun a b => total_order (s_total a) (s_total b))
                    (snd (compute_total_tables df_overview)).
Proof.
  assert (Hasym : forall a b : TotalRow,
            total_ltb a b = true -> total_ltb b a = false).
  { intros a b Hab. apply (bool_false_iff_not _ _ (total_ltb_before b a)).
    apply score_before_asym. now apply total_ltb_before. }
  assert (Hntrans : forall a b c : TotalRow,
            total_ltb b a = false -> total_ltb c b = false ->
            total_ltb c a = false).
  { intros a b c Hba Hcb.
    apply (bool_false_iff_not _ _ (total_ltb_before c a)).
    apply (bool_false_iff_not _ _ (total_ltb_before b a)) in Hba.
    apply (bool_false_iff_not _ _ (total_ltb_before c b)) in Hcb.
    eapply score_before_ntrans; eauto. }
  assert (Hweak : forall a b : TotalRow,
            total_ltb b a = false -> total_order a b).
  { intros a b Hba.
    apply (bool_false_iff_not _ _ (total_ltb_before b a)) in Hba.
    now apply score_not_before_iff. }
  unfold compute_total_tables.
  destruct df_overview as [|r rows]; [split; constructor|].
  cbn [fst snd]. split.
  - eapply sorted_weaken;
      [|apply (py_sorted_ordered total_ltb (fun r => r) Hasym Hntrans)].
    exact Hweak.
  - eapply sorted_weaken;
      [|apply (py_sorted_ordered
                 (fun a b => total_ltb (s_total a) (s_total b))
                 (fun r => r))].
    + intros a b. apply Hweak.
    + intros a b. apply Hasym.
    + intros a b c. apply Hntrans.
Qed.

(** ** The order on strings *)

Lemma ascii_compare_lt_trans (a b c : ascii) :
  Ascii.compare a b = Lt -> Ascii.compare b c = Lt -> Ascii.compare a c = Lt.
Proof.
  unfold Ascii.compare. rewrite !N.compare_lt_iff. apply N.lt_trans.
Qed.

Lemma str_compare_refl (s : string) : String.compare s s = Eq.
Proof.
  induction s as [|c s IH]; simpl; [reflexivity|].
  unfold Ascii.compare. now rewrite N.compare_refl.
Qed.

Lemma str_compare_lt_trans (a : string) :
  forall b c,
    String.compare a b = Lt -> String.compare b c = Lt ->
    String.compare a c = Lt.
Proof.
  induction a as [|x a IH]; intros [|y b] [|z c]; simpl; try discriminate;
    try reflexivity.
  destruct (Ascii.compare x y) eqn:Hxy; try discriminate.
  - apply Ascii.compare_eq_iff in Hxy. subst y.
    destruct (Ascii.compare x z); try discriminate; [apply IH | reflexivity].
  - intros _.
    destruct (Ascii.compare y z) eqn:Hyz; try discriminate.
    + apply Ascii.compare_eq_iff in Hyz. subst z. now rewrite Hxy.
    + intros _. now rewrite (ascii_compare_lt_trans _ _ _ Hxy Hyz).
Qed.

Lemma str_ltb_lt (a b : string) :
  String.ltb a b = true <-> String.compare a b = Lt.
Proof.
  unfold String.ltb. destruct (String.compare a b); split; congruence.
Qed.

Lemma str_ltb_irrefl (a : string) : String.ltb a a = false.
Proof. unfold String.ltb. now rewrite str_compare_refl. Qed.

Lemma str_ltb_trans (a b c : string) :
  String.ltb a b = true -> String.ltb b c = true -> String.ltb a c = true.
Proof. rewrite !str_ltb_lt. apply str_compare_lt_trans. Qed.

Lemma str_ltb_total (a b : string) :
  String.ltb a b = true \/ a = b \/ String.ltb b a = true.
Proof.
  rewrite !str_ltb_lt, (String.compare_antisym b a).
  destruct (String.compare a b) eqn:Hc; simpl; auto.
  apply String.compare_eq_iff in Hc. auto.
Qed.

Lemma str_ltb_asym (a b : string) :
  String.ltb a b = true -> String.ltb b a = false.
Proof.
  intros Hab. destruct (String.ltb b a) eqn:Hba; [|reflexivity].
  pose proof (str_ltb_trans _ _ _ Hab Hba) as Hc.
  rewrite str_ltb_irrefl in Hc. discriminate.
Qed.

(** ** Sorting by a string, then by something else *)

Section LexFacts.
Context {A : Type} (f : A -> string) (sc : A -> A -> bool).
Hypothesis sc_asym : forall a b, sc a b = true -> sc b a = false.
Hypothesis sc_ntrans :
  forall a b c, sc b a = false -> sc c b = false -> sc c a = false.

Lemma lex_ltb_true (a b : A) :
  lex_ltb f sc a b = true
  <-> String.ltb (f a) (f b) = true \/ (f a = f b /\ sc a b = true).
Proof.
  unfold lex_ltb. now rewrite orb_true_iff, andb_true_iff, String.eqb_eq.
Qed.

Lemma lex_ltb_false (a b : A) :
  lex_ltb f sc b a = false
  <-> String.ltb (f a) (f b) = true \/ (f a = f b /\ sc b a = false).
Proof.
  unfold lex_ltb. rewrite orb_false_iff, andb_false_iff, String.eqb_neq.
  destruct (str_ltb_total (f a) (f b)) as [Hlt | [Heq | Hgt]].
  - split; [auto|]. intros _. split; [now apply str_ltb_asym|].
    left. intros Heq. rewrite Heq, str_ltb_irrefl in Hlt. discriminate.
  - rewrite Heq, str_ltb_irrefl. split.
    + intros [_ [Hne | Hsc]]; [congruence | auto].
    + intros [? | [_ Hsc]]; [discriminate | auto].
  - split.
    + intros [Hn _]. congruence.
    + intros [Hlt | [Heq _]].
      * pose proof (str_ltb_asym _ _ Hgt). congruence.
      * rewrite Heq, str_ltb_irrefl in Hgt. discriminate.
Qed.

Lemma lex_ltb_asym (a b : A) : lex_ltb f sc a b = true -> lex_ltb f sc b a = false.
Proof.
  rewrite lex_ltb_true, lex_ltb_false. intros [Hlt | [Heq Hsc]]; [auto|].
  right. split; [exact Heq | now apply sc_asym].
Qed.

Lemma lex_ltb_ntrans (a b c : A) :
  lex_ltb f sc b a = false -> lex_ltb f sc c b = false -> lex_ltb f sc c a = false.
Proof.
  rewrite !lex_ltb_false.
  intros [Hab | [Hab Hsab]] [Hbc | [Hbc Hsbc]].
  - left. eapply str_ltb_trans; eauto.
  - left. now rewrite <- Hbc.
  - left. now rewrite Hab.
  - right. split; [congruence | eapply sc_ntrans; eauto].
Qed.
End LexFacts.

Lemma weekly_score_ltb_before (a b : WeeklyRow) :
  weekly_score_ltb a b = true
  <-> score_before (weekly_borda a) (weekly_total_pts a)
                   (weekly_borda b) (weekly_total_pts b).
Proof. apply score_ltb_before. Qed.

Lemma weekly_score_asym (a b : WeeklyRow) :
  weekly_score_ltb a b = true -> weekly_score_ltb b a = false.
Proof.
  intros Hab. apply (bool_false_iff_not _ _ (weekly_score_ltb_before b a)).
  apply score_before_asym. now apply weekly_score_ltb_before.
Qed.

Lemma weekly_score_ntrans (a b c : WeeklyRow) :
  weekly_score_ltb b a = false -> weekly_score_ltb c b = false ->
  weekly_score_ltb c a = false.
Proof.
  intros Hba Hcb.
  apply (bool_false_iff_not _ _ (weekly_score_ltb_before c a)).
  apply (bool_false_iff_not _ _ (weekly_score_ltb_before b a)) in Hba.
  apply (bool_false_iff_not _ _ (weekly_score_ltb_before c b)) in Hcb.
  eapply score_before_ntrans; eauto.
Qed.

Lemma weekly_score_not_worse (a b : WeeklyRow) :
  weekly_score_ltb b a = false ->
  score_not_worse (weekly_borda a) (weekly_total_pts a)
                  (weekly_borda b) (weekly_total_pts b).
Proof.
  intros Hba.
  apply (bool_false_iff_not _ _ (weekly_score_ltb_before b a)) in Hba.
  now apply score_not_before_iff.
Qed.

(** X23.  The weekly table is sorted by week and, within a week, by weekly
    Borda, highest first, rows with equal Borda by weekly points, highest
    first. *)
Theorem weekly_table_is_sorted
    (entries : list Entry) (tie_mode : string)
    (df_overview : list OverviewRow) (df_weekly : list WeeklyRow)
    (df_meta : list MetaRow)
    (Hrun : compute_week_tables entries tie_mode
            = Ok (df_overview, df_weekly, df_meta)) :
  StronglySorted weekly_order df_weekly.
Proof.
  rewrite (weekly_table_eq _ _ _ _ _ Hrun).
  change weekly_ltb with (lex_ltb w_week weekly_score_ltb).
  eapply sorted_weaken;
    [|apply (py_sorted_ordered (lex_ltb w_week weekly_score_ltb)
               (fun r => r))].
  - intros a b Hba. unfold not_before in Hba.
    apply lex_ltb_false in Hba as [Hlt | [Heq Hsc]].
    + now left.
    + right. split; [exact Heq | now apply weekly_score_not_worse].
  - apply lex_ltb_asym, weekly_score_asym.
  - apply lex_ltb_ntrans, weekly_score_ntrans.
Qed.

Lemma weekly_table_is_sorted_witness : StronglySorted weekly_order dup_weekly.
Proof.
  apply (weekly_table_is_sorted dup_entries "average" dup_overview dup_weekly
                                (week_meta dup_entries)).
  vm_compute. reflexivity.
Defined.

(** ** The best week *)

Lemma sorted_filter {A : Type} (R : A -> A -> Prop) (f : A -> bool)
    (l : list A) :
  StronglySorted R l -> StronglySorted R (filter f l).
Proof.
  induction 1 as [|x l Hs IH Hx]; simpl; [constructor|].
  destruct (f x); [|exact IH].
  constructor; [exact IH|].
  rewrite Forall_forall in *. intros y Hy. apply filter_In in Hy as [Hy _].
  now apply Hx.
Qed.

Lemma per_week_row (df_overview : list OverviewRow) (r : WeeklyRow) :
  In r (map per_week_of_group
            (groupby (str_pair_ltb String.ltb)
                     (fun r => (player (row_entry r),
                                week_label (row_entry r)))
                     df_overview)) ->
  weekly_borda r = week_borda df_overview (w_player r) (w_week r)
  /\ weekly_total_pts r = week_pts df_overview (w_player r) (w_week r)
  /\ player_week_rows df_overview (w_player r) (w_week r) <> [].
Proof.
  intros Hin. apply in_map_iff in Hin as ([[p w] g] & <- & Hg).
  apply groupby_group in Hg as [-> Hne].
  cbn [per_week_of_group weekly_of_group w_player w_week weekly_borda
       weekly_total_pts].
  unfold week_borda, week_pts, player_week_rows. auto.
Qed.

Lemma per_week_row_exists (df_overview : list OverviewRow) (p w : string) :
  player_week_rows df_overview p w <> [] ->
  exists r,
    In r (map per_week_of_group
              (groupby (str_pair_ltb String.ltb)
                       (fun r => (player (row_entry r),
                                  week_label (row_entry r)))
                       df_overview))
    /\ w_player r = p /\ w_week r = w.
Proof.
  intros Hne.
  set (key := fun r : OverviewRow => (player (row_entry r),
                                      week_label (row_entry r))).
  assert (Hkey : In (p, w)
                    (map fst (groupby (str_pair_ltb String.ltb) key
                                      df_overview))).
  { apply groupby_keys_in.
    destruct (player_week_rows df_overview p w) as [|r0 rest] eqn:Hrows;
      [congruence|].
    assert (Hr0 : In r0 (player_week_rows df_overview p w)).
    { rewrite Hrows. now left. }
    apply filter_In in Hr0 as [Hin Heq]. apply key_eqb_eq in Heq.
    exists r0. split; [exact Hin | exact Heq]. }
  apply in_map_iff in Hkey as ([k g] & Hk & Hg). simpl in Hk. subst k.
  exists (per_week_of_group ((p, w), g)). split.
  - apply in_map_iff. exists ((p, w), g). auto.
  - split; reflexivity.
Qed.

Lemma py_sum_abs_filter {A : Type} (f : A -> Z) (h : A -> bool)
    (l : list A) :
  py_sum (map Z.abs (map f (filter h l))) <= py_sum (map Z.abs (map f l)).
Proof.
  induction l as [|x l IH]; [reflexivity|].
  cbn [filter map]. destruct (h x); cbn [map]; rewrite ?py_sum_cons; lia.
Qed.

Lemma week_pts_plain (df_overview : list OverviewRow) (p w : string) :
  fits_int64 (map (fun r => total_pts (row_entry r)) df_overview) ->
  week_pts df_overview p w = plain_pts (player_week_rows df_overview p w).
Proof.
  unfold fits_int64, week_pts, int64_sum, plain_pts, player_week_rows.
  intros Hfit. apply wrap_int64_small. unfold is_int64.
  pose proof (py_sum_abs_bound
                (map (fun r => total_pts (row_entry r))
                     (filter (fun r => key_eqb (player (row_entry r),
                                                week_label (row_entry r))
                                               (p, w)) df_overview))) as Habs.
  pose proof (py_sum_abs_filter (fun r => total_pts (row_entry r))
                (fun r => key_eqb (player (row_entry r),
                                   week_label (row_entry r)) (p, w))
                df_overview) as Hsub.
  change (2 ^ 63) with 9223372036854775808 in *. lia.
Qed.

(** X24.  Every row of the statistics table names a best week: a week in
    which the player has entries, with the player's Borda and points of that
    week as the per-week table holds them, and no week of the player has a
    better score there (more Borda, or as much Borda and more points).  The
    points of a week are a sum in a column of 64-bit integers; they are the
    plain sum of the week's points when the points of all rows fit. *)
Theorem best_week_is_best
    (df_overview : list OverviewRow) (s : StatsRow)
    (Hrange : Forall is_int64
                   (map (fun r => total_pts (row_entry r)) df_overview))
    (Hin : In s (snd (compute_total_tables df_overview))) :
  let p := t_player (s_total s) in
  (exists w,
     best_week s
     = Some (w, week_borda df_overview p w, week_pts df_overview p w)
     /\ player_week_rows df_overview p w <> []
     /\ forall w',
          player_week_rows df_overview p w' <> [] ->
          score_not_worse (week_borda df_overview p w)
                          (week_pts df_overview p w)
                          (week_borda df_overview p w')
                          (week_pts df_overview p w'))
  /\ (fits_int64 (map (fun r => total_pts (row_entry r)) df_overview) ->
      forall w,
        week_pts df_overview p w
        = plain_pts (player_week_rows df_overview p w)).
Proof.
  cbv zeta. split; [|intros Hfit w; now apply week_pts_plain].
  unfold compute_total_tables in Hin.
  destruct df_overview as [|r0 rows0] eqn:Hov; [contradiction|].
  rewrite <- Hov in *. clear Hov r0 rows0. cbn [snd] in Hin.
  apply py_sorted_in in Hin. apply in_map_iff in Hin as (t & <- & Ht).
  cbn [s_total best_week].
  apply py_sorted_in in Ht. apply in_map_iff in Ht as ([p g] & <- & Hg).
  cbn [total_of_group t_player].
  set (R := map per_week_of_group
                (groupby (str_pair_ltb String.ltb)
                         (fun r => (player (row_entry r),
                                    week_label (row_entry r)))
                         df_overview)).
  set (SW := py_sorted best_week_ltb (fun r => r) R).
  assert (Hsorted : StronglySorted
                      (not_before (lex_ltb w_player weekly_score_ltb)
                                  (fun r => r)) SW).
  { apply (py_sorted_ordered (lex_ltb w_player weekly_score_ltb)
             (fun r => r)).
    - apply lex_ltb_asym, weekly_score_asym.
    - apply lex_ltb_ntrans, weekly_score_ntrans. }
  (* the player has a row in some week *)
  apply groupby_group in Hg as [Hgeq Hgne].
  destruct g as [|r1 g']; [congruence|].
  assert (Hr1 : In r1 (r1 :: g')) by now left.
  rewrite Hgeq in Hr1. apply filter_In in Hr1 as [Hr1 Hp1].
  apply key_eqb_eq in Hp1.
  assert (Hw1 : player_week_rows df_overview p (week_label (row_entry r1))
                <> []).
  { intros Hnil.
    assert (Hmem : In r1 (player_week_rows df_overview p
                            (week_label (row_entry r1)))).
    { apply filter_In. split; [exact Hr1|]. apply key_eqb_eq.
      now rewrite Hp1. }
    rewrite Hnil in Hmem. contradiction. }
  assert (Hrows : forall w',
            player_week_rows df_overview p w' <> [] ->
            exists r, In r (filter (fun r => String.eqb (w_player r) p) SW)
                      /\ w_player r = p /\ w_week r = w').
  { intros w' Hne.
    destruct (per_week_row_exists df_overview p w' Hne) as (r & Hr & Hrp & Hrw).
    exists r. split; [|auto].
    apply filter_In. split; [now apply py_sorted_in|].
    now apply String.eqb_eq. }
  unfold best_week_of. fold R. fold SW.
  pose proof (sorted_filter _ (fun r => String.eqb (w_player r) p) _ Hsorted)
    as HF.
  assert (Hsub : forall r,
            In r (filter (fun r => String.eqb (w_player r) p) SW) ->
            w_player r = p /\ In r R).
  { intros r Hr. apply filter_In in Hr as [Hr Hrp].
    apply String.eqb_eq in Hrp. split; [exact Hrp|].
    now apply py_sorted_in in Hr. }
  destruct (filter (fun r => String.eqb (w_player r) p) SW) as [|b rest]
    eqn:HFeq.
  { destruct (Hrows _ Hw1) as (r & [] & _). }
  destruct (Hsub b (or_introl eq_refl)) as [Hbp HbR].
  destruct (per_week_row df_overview b HbR) as (Hbb & Hbpts & Hbne).
  rewrite Hbp in Hbb, Hbpts, Hbne.
  exists (w_week b). rewrite Hbb, Hbpts.
  split; [reflexivity|]. split; [exact Hbne|].
  intros w' Hne.
  destruct (Hrows w' Hne) as (r & Hr & Hrp & Hrw).
  destruct (Hsub r Hr) as [_ HrR].
  destruct (per_week_row df_overview r HrR) as (Hrb & Hrpts & _).
  rewrite Hrp, Hrw in Hrb, Hrpts.
  rewrite <- Hbb, <- Hbpts, <- Hrb, <- Hrpts.
  inversion HF as [|? ? _ Hafter]; subst.
  destruct Hr as [<- | Hr].
  - apply weekly_score_not_worse.
    destruct (weekly_score_ltb b b) eqn:Hbb'; [|reflexivity].
    pose proof (weekly_score_asym _ _ Hbb'). congruence.
  - rewrite Forall_forall in Hafter. specialize (Hafter r Hr).
    unfold not_before in Hafter.
    apply lex_ltb_false in Hafter as [Hlt | [_ Hsc]].
    + rewrite Hbp, Hrp, str_ltb_irrefl in Hlt. discriminate.
    + now apply weekly_score_not_worse.
Qed.

Lemma best_week_is_best_witness :
  exists w,
    best_week (nth 0 (snd (compute_total_tables dup_overview))
                   (mkStatsRow (total_of_group ("", [])) None))
    = Some (w, week_borda dup_overview "A" w, week_pts dup_overview "A" w)
    /\ player_week_rows dup_overview "A" w <> []
    /\ forall w',
         player_week_rows dup_overview "A" w' <> [] ->
         score_not_worse (week_borda dup_overview "A" w)
                         (week_pts dup_overview "A" w)
                         (week_borda dup_overview "A" w')
                         (week_pts dup_overview "A" w').
Proof.
  destruct (best_week_is_best dup_overview
              (nth 0 (snd (compute_total_tables dup_overview))
                   (mkStatsRow (total_of_group ("", [])) None)))
    as [Hbest _].
  - apply Forall_forall. intros z Hz. vm_compute in Hz.
    unfold is_int64. change (2 ^ 63) with 9223372036854775808.
    destruct Hz as [<- | [<- | [<- | []]]]; lia.
  - vm_compute. left. reflexivity.
  - exact Hbest.
Defined.

(** ** The per-map table and the ranker *)

Lemma rank_groups_rows_total tie_mode (gs : list (list Entry)) :
  valid_tie_mode tie_mode ->
  exists rows, rank_groups_rows tie_mode gs = Ok rows.
Proof.
  intros Hm. induction gs as [|g gs [rest IH]]; simpl; [eauto|].
  unfold rank_group.
  set (pts := player_dict total_pts g).
  set (time := player_dict total_time g).
  assert (Hok : exists rb,
            compute_rank_and_borda_with_time pts time tie_mode = Ok rb).
  { destruct pts as [|x pts'] eqn:Hpts; [eexists; reflexivity|].
    rewrite <- Hpts. rewrite compute_nonempty by (rewrite Hpts; discriminate).
    destruct (rank_loop_total tie_mode (rank_groups pts time)
                (keys_sorted pts time) Hm ([], 1)) as [st ->].
    eexists. reflexivity. }
  destruct Hok as [rb ->]. cbn [bind]. rewrite IH. cbn [bind]. eauto.
Qed.

(** X25.  Every row of the per-map table carries the rank and the Borda
    value the ranker gives its player within the row's (week, map) group:
    neither is ever missing, and the Borda value is N - rank + 1 with N the
    number of distinct players of that group. *)
Theorem overview_rows_carry_the_group_ranking
    (entries : list Entry) (tie_mode : string)
    (df_overview : list OverviewRow) (df_weekly : list WeeklyRow)
    (df_meta : list MetaRow) (r : OverviewRow)
    (Hrun : compute_week_tables entries tie_mode
            = Ok (df_overview, df_weekly, df_meta))
    (Hr : In r df_overview) :
  let e := row_entry r in
  let N := float_of_int (py_len (player_dict total_pts (map_group entries e))) in
  exists v,
    rank_best r = Some v
    /\ borda_points r = Some (N - v + 1)%Q
    /\ rank_of (group_ranking entries tie_mode e) (player e) = Some v
    /\ borda_for (group_ranking entries tie_mode e) (player e)
       = Some (N - v + 1)%Q.
Proof.
  cbv zeta. unfold compute_week_tables in Hrun.
  destruct entries as [|e0 entries'] eqn:Hentries.
  { injection Hrun as <- _ _. contradiction. }
  rewrite <- Hentries in *. clear Hentries e0 entries'.
  destruct (rank_groups_rows tie_mode _) as [rows|] eqn:Hrows;
    [cbn [bind] in Hrun|discriminate].
  injection Hrun as <- _ _.
  destruct (rank_groups_rows_in _ _ _ _ Hrows Hr)
    as (g & [rb bo] & Hg & He & Hrb & Hrank & Hborda).
  apply in_map_iff in Hg as ([k g'] & Hk & Hg). simpl in Hk. subst g'.
  apply groupby_group in Hg as [Hgeq _].
  assert (Hkey : g = map_group entries (row_entry r)).
  { rewrite Hgeq in He. apply filter_In in He as [_ Hke].
    apply key_eqb_eq in Hke. rewrite Hgeq, <- Hke. reflexivity. }
  rewrite Hkey in Hrb, He.
  destruct (ranker_ranks_player _ _ _ _ _ (player (row_entry r)) Hrb)
    as (v & Hv & Hb).
  { now apply player_dict_keys. }
  exists v. unfold group_ranking. rewrite Hrb. cbn [rank_of borda_for].
  cbn [fst snd] in Hrank, Hborda. rewrite Hrank, Hborda. auto.
Qed.

Lemma overview_rows_carry_the_group_ranking_witness :
  exists v,
    rank_best (nth 0 dup_overview
                   (mkOverviewRow (sample_entry "" "" None) None None))
    = Some v.
Proof.
  destruct (overview_rows_carry_the_group_ranking
              dup_entries "average" dup_overview dup_weekly
              (week_meta dup_entries)
              (nth 0 dup_overview
                   (mkOverviewRow (sample_entry "" "" None) None None)))
    as (v & Hv & _).
  - vm_compute. reflexivity.
  - vm_compute. left. reflexivity.
  - exists v. exact Hv.
Defined.

(** X26.  With one of the four known tie modes the three tables of a run are
    always computed, whatever the entries are. *)
Theorem compute_week_tables_total
    (entries : list Entry) (tie_mode : string)
    (Hm : valid_tie_mode tie_mode) :
  exists df_overview df_weekly df_meta,
    compute_week_tables entries tie_mode
    = Ok (df_overview, df_weekly, df_meta).
Proof.
  unfold compute_week_tables.
  destruct entries as [|e entries']; [do 3 eexists; reflexivity|].
  destruct (rank_groups_rows_total tie_mode
              (map snd (groupby (str_pair_ltb Z.ltb)
                                (fun e => (week_label e, map_index e))
                                (e :: entries'))) Hm) as [rows ->].
  cbn [bind]. do 3 eexists. reflexivity.
Qed.

Lemma compute_week_tables_total_witness :
  exists df_overview df_weekly df_meta,
    compute_week_tables dup_entries "dense"
    = Ok (df_overview, df_weekly, df_meta).
Proof.
  apply (compute_week_tables_total dup_entries "dense").
  right. now left.
Defined.
